(** * Power monitor backend: polling supervisor, aggregation engine,
      energy delta calculator and retention compaction.

    Shallow embedding of [services/database.py], [services/meter_poller.py],
    [services/energy_poller.py] and the registration path of [main.py].

    Conventions of the embedding.
    - A [datetime] is an instant, counted in microseconds since the Unix
      epoch; naive datetimes are read as UTC (the service stores
      [datetime.utcnow()] and parses stored text with a [+00:00] offset).
    - Python floats ([total_kwh], averages, poll intervals) are exact
      rationals [Q]; rounding of IEEE arithmetic is not modelled.
    - A Python call that may raise or loop forever returns a [result]. *)

From Stdlib Require Import ZArith QArith Qabs List Lia Bool String Ascii Sorted.
From Stdlib Require Import Lqa.
From stdpp Require Import base option list gmap strings sorting.

Import ListNotations.
Local Open Scope string_scope.
Local Open Scope list_scope.
Local Open Scope Z_scope.

(** ** Outcomes of a Python call *)

Inductive exn : Type :=
| ZeroDivisionError
| ValueError
| KeyError.

Inductive result (A : Type) : Type :=
| Ok (a : A)
| Raise (e : exn)
| NoReturn.

Arguments Ok {A} a.
Arguments Raise {A} e.
Arguments NoReturn {A}.

#[global] Instance result_ret : MRet result := fun A a => Ok a.

#[global] Instance result_bind : MBind result := fun A B k r =>
  match r with
  | Ok a => k a
  | Raise e => Raise e
  | NoReturn => NoReturn
  end.

(** ** Python string operations used by the resolution labels *)

Module PyStr.

(** [s.endswith(suffix)] *)
Definition endswith (s suffix : string) : bool :=
  let n := String.length s in
  let k := String.length suffix in
  (k <=? n)%nat && String.eqb (substring (n - k) k s) suffix.

(** [s[:-k]] *)
Definition drop_last (k : nat) (s : string) : string :=
  substring 0 (String.length s - k) s.

Definition digit_of (c : ascii) : option Z :=
  let n := Z.of_nat (nat_of_ascii c) in
  if (48 <=? n) && (n <=? 57) then Some (n - 48) else None.

Fixpoint digits_value (acc : Z) (s : string) : option Z :=
  match s with
  | EmptyString => Some acc
  | String c rest =>
      match digit_of c with
      | Some d => digits_value (10 * acc + d) rest
      | None => None
      end
  end.

(** [int(s)] on a run of ASCII decimal digits; every other text is a
    [ValueError] (signs, blanks and underscores, which [int] also reads,
    are not resolution labels of this service and are left out). *)
Definition int (s : string) : result Z :=
  match s with
  | EmptyString => Raise ValueError
  | _ => match digits_value 0 s with
         | Some n => Ok n
         | None => Raise ValueError
         end
  end.

End PyStr.

(** ** Instants and calendar fields *)

Module DT.

Definition datetime := Z.

Definition SECOND : Z := 1000000.
Definition MINUTE : Z := 60 * SECOND.
Definition HOUR : Z := 60 * MINUTE.
Definition DAY : Z := 24 * HOUR.

(** Proleptic Gregorian calendar: day number since 1970-01-01 of a civil
    date, and back. *)
Definition days_from_civil (y m d : Z) : Z :=
  let y' := if m <=? 2 then y - 1 else y in
  let era := y' / 400 in
  let yoe := y' - era * 400 in
  let mp := if m >? 2 then m - 3 else m + 9 in
  let doy := (153 * mp + 2) / 5 + d - 1 in
  let doe := yoe * 365 + yoe / 4 - yoe / 100 + doy in
  era * 146097 + doe - 719468.

Definition civil_from_days (z0 : Z) : Z * Z * Z :=
  let z := z0 + 719468 in
  let era := z / 146097 in
  let doe := z - era * 146097 in
  let yoe := (doe - doe / 1460 + doe / 36524 - doe / 146096) / 365 in
  let y := yoe + era * 400 in
  let doy := doe - (365 * yoe + yoe / 4 - yoe / 100) in
  let mp := (5 * doy + 2) / 153 in
  let d := doy - (153 * mp + 2) / 5 + 1 in
  let m := if mp <? 10 then mp + 3 else mp - 9 in
  (if m <=? 2 then y + 1 else y, m, d).

Definition year (t : datetime) : Z := fst (fst (civil_from_days (t / DAY))).
Definition month (t : datetime) : Z := snd (fst (civil_from_days (t / DAY))).
Definition day (t : datetime) : Z := snd (civil_from_days (t / DAY)).
Definition hour (t : datetime) : Z := (t / HOUR) mod 24.
Definition minute (t : datetime) : Z := (t / MINUTE) mod 60.
Definition second (t : datetime) : Z := (t / SECOND) mod 60.
Definition microsecond (t : datetime) : Z := t mod SECOND.

(** [t.weekday()]: Monday is 0, Sunday is 6; 1970-01-01 was a Thursday. *)
Definition weekday (t : datetime) : Z := (t / DAY + 3) mod 7.

(** [t.replace(field=v)], for a value [v] the field admits. *)
Definition replace_microsecond (t : datetime) (v : Z) : datetime :=
  t + (v - microsecond t).
Definition replace_second (t : datetime) (v : Z) : datetime :=
  t + (v - second t) * SECOND.
Definition replace_minute (t : datetime) (v : Z) : datetime :=
  t + (v - minute t) * MINUTE.
Definition replace_hour (t : datetime) (v : Z) : datetime :=
  t + (v - hour t) * HOUR.
Definition replace_day (t : datetime) (v : Z) : datetime :=
  t + (v - day t) * DAY.
(** [t.replace(year=y, month=m)].  Python raises [ValueError] when the day
    of [t] does not exist in the target month; the only caller, the month
    bucket loop, applies it to instants whose day is 1, where it cannot. *)
Definition replace_year_month (t : datetime) (y m : Z) : datetime :=
  days_from_civil y m (day t) * DAY + t mod DAY.

(** [t + timedelta(...)] *)
Definition add_minutes (t : datetime) (n : Z) : datetime := t + n * MINUTE.
Definition add_hours (t : datetime) (n : Z) : datetime := t + n * HOUR.
Definition add_days (t : datetime) (n : Z) : datetime := t + n * DAY.

(** [int(t.timestamp() * 1000)] *)
Definition timestamp_ms (t : datetime) : Z := t / 1000.

(** [(t1 - t0).total_seconds()] *)
Definition total_seconds (t0 t1 : datetime) : Q := (t1 - t0) # 1000000.

End DT.

(** ** [models.py] *)

Module Models.

Record Meter : Type := mkMeter {
  meter_id : string;
  ip_address : string;
  name : option string;
  location : option string;
  enabled : bool;
  poll_interval : Q;
  energy_poll_interval : Q
}.

Record MeterReading : Type := mkMeterReading {
  mr_timestamp : DT.datetime;
  mr_meter_id : string;
  mr_voltage_rms : Q;
  mr_current_rms : Q;
  mr_active_power : Q;
  mr_reactive_power : Q;
  mr_apparent_power : Q;
  mr_power_factor : Q;
  mr_frequency : Q
}.

Record EnergyReading : Type := mkEnergyReading {
  er_timestamp : DT.datetime;
  er_meter_id : string;
  er_phase : string;
  er_total_kwh : Q
}.

(** [SystemSettings]: every field is [Optional]. *)
Module SystemSettings.

Record t : Type := mkSystemSettings {
  poll_interval : option Q;
  energy_poll_interval : option Q;
  data_retention_days : option Z;
  min_free_space_gb : option Q;
  max_websocket_clients : option Z
}.

End SystemSettings.

End Models.

(** ** [services/database.py] *)

Module Database.

Import Models.

(** *** Tables *)

(** A row of [meters]; [meter_id] is the primary key. *)
Record meters_row : Type := mkMetersRow {
  c_meter_id : string;
  c_ip_address : string;
  c_name : option string;
  c_location : option string;
  c_enabled : Z;
  c_poll_interval : Q;
  c_energy_poll_interval : Q;
  c_last_seen : option DT.datetime;
  c_created_at : DT.datetime
}.

(** A row of [readings]; [id] is [INTEGER PRIMARY KEY AUTOINCREMENT]. *)
Record readings_row : Type := mkReadingsRow {
  id : Z;
  timestamp : DT.datetime;
  r_meter_id : string;
  voltage_rms : Q;
  current_rms : Q;
  active_power : Q;
  reactive_power : Q;
  apparent_power : Q;
  power_factor : Q;
  frequency : Q
}.

(** A row of [energy_readings], in rowid order inside the table. *)
Record energy_row : Type := mkEnergyRow {
  e_timestamp : DT.datetime;
  e_meter_id : string;
  e_phase : string;
  total_kwh : Q
}.

Record store : Type := mkStore {
  meters : gmap string meters_row;
  readings : list readings_row;
  next_reading_id : Z;
  energy_readings : list energy_row
}.

(** *** Meter management *)

(** [INSERT INTO meters ... ON CONFLICT(meter_id) DO UPDATE SET
    ip_address=excluded.ip_address, last_seen=excluded.last_seen];
    [now] is [datetime.utcnow()] at the call. *)
Definition register_meter (now : DT.datetime) (meter : Meter) (s : store) : store :=
  let upserted :=
    match meters s !! meter_id meter with
    | Some old =>
        {| c_meter_id := c_meter_id old;
           c_ip_address := ip_address meter;
           c_name := c_name old;
           c_location := c_location old;
           c_enabled := c_enabled old;
           c_poll_interval := c_poll_interval old;
           c_energy_poll_interval := c_energy_poll_interval old;
           c_last_seen := Some now;
           c_created_at := c_created_at old |}
    | None =>
        {| c_meter_id := meter_id meter;
           c_ip_address := ip_address meter;
           c_name := name meter;
           c_location := location meter;
           c_enabled := if enabled meter then 1 else 0;
           c_poll_interval := poll_interval meter;
           c_energy_poll_interval := energy_poll_interval meter;
           c_last_seen := Some now;
           c_created_at := now |}
    end in
  {| meters := <[meter_id meter := upserted]> (meters s);
     readings := readings s;
     next_reading_id := next_reading_id s;
     energy_readings := energy_readings s |}.

(** [SELECT ... FROM meters WHERE meter_id = ?] *)
Definition get_meter (s : store) (mid : string) : option meters_row :=
  meters s !! mid.

(** *** Reading storage *)

Definition store_reading (reading : MeterReading) (s : store) : store :=
  {| meters := meters s;
     readings := readings s ++
       [ {| id := next_reading_id s;
            timestamp := mr_timestamp reading;
            r_meter_id := mr_meter_id reading;
            voltage_rms := mr_voltage_rms reading;
            current_rms := mr_current_rms reading;
            active_power := mr_active_power reading;
            reactive_power := mr_reactive_power reading;
            apparent_power := mr_apparent_power reading;
            power_factor := mr_power_factor reading;
            frequency := mr_frequency reading |} ];
     next_reading_id := next_reading_id s + 1;
     energy_readings := energy_readings s |}.

Definition store_energy_reading (reading : EnergyReading) (s : store) : store :=
  {| meters := meters s;
     readings := readings s;
     next_reading_id := next_reading_id s;
     energy_readings := energy_readings s ++
       [ {| e_timestamp := er_timestamp reading;
            e_meter_id := er_meter_id reading;
            e_phase := er_phase reading;
            total_kwh := er_total_kwh reading |} ] |}.

(** [WHERE meter_id = ? AND timestamp BETWEEN ? AND ?] *)
Definition reading_selected (mid : string) (start_time end_time : DT.datetime)
    (r : readings_row) : bool :=
  String.eqb (r_meter_id r) mid
  && (start_time <=? timestamp r) && (timestamp r <=? end_time).

Definition get_reading_count (s : store) (mid : string)
    (start_time end_time : DT.datetime) : Z :=
  Z.of_nat (length (List.filter (reading_selected mid start_time end_time) (readings s))).

(** *** Resolution selection *)

Definition nice_buckets_minutes : list Z :=
  [1; 2; 3; 5; 10; 15; 20; 30; 60; 120; 180; 360; 720; 1440; 10080; 43200].

Definition nice_bucket_names : list string :=
  ["1min"; "2min"; "3min"; "5min"; "10min"; "15min"; "20min"; "30min";
   "1hour"; "2hour"; "3hour"; "6hour"; "12hour"; "1day"; "1week"; "1month"].

(** [for i, minutes in enumerate(nice_buckets_minutes): if minutes >=
    optimal_minutes: return nice_bucket_names[i]], then [return "1month"]. *)
Fixpoint first_nice_bucket (optimal_minutes : Q) (i : nat) (buckets : list Z) : string :=
  match buckets with
  | [] => "1month"
  | minutes :: rest =>
      if Qle_bool optimal_minutes (inject_Z minutes)
      then nth i nice_bucket_names ""
      else first_nice_bucket optimal_minutes (S i) rest
  end.

Definition _calculate_optimal_aggregation (count : Z) (time_span_seconds : Q)
    (target_points : Z) : result string :=
  if count <=? target_points then Ok "none"
  else if target_points =? 0 then Raise ZeroDivisionError
  else
    let time_span_minutes := (time_span_seconds / 60)%Q in
    let optimal_minutes := (time_span_minutes / inject_Z target_points)%Q in
    Ok (first_nice_bucket optimal_minutes 0 nice_buckets_minutes).

(** *** Grouping expressions of the aggregated scan *)

Inductive sql_grouping : Type :=
| EpochFloor (width_seconds : Z)
    (* datetime((strftime('%s', timestamp) / w) * w, 'unixepoch') *)
| HourStart   (* strftime('%Y-%m-%d %H:00:00', timestamp) *)
| DayStart    (* strftime('%Y-%m-%d 00:00:00', timestamp) *)
| WeekStart
    (* datetime(strftime('%s', timestamp) - (strftime('%w', timestamp) * 86400),
                'unixepoch', 'start of day') *)
| MonthStart. (* strftime('%Y-%m-01 00:00:00', timestamp) *)

(** [strftime('%s', t)]: whole seconds since the epoch. *)
Definition sql_epoch (t : DT.datetime) : Z := t / DT.SECOND.

(** [strftime('%w', t)]: 0 is Sunday. *)
Definition sql_weekday (t : DT.datetime) : Z := (t / DT.DAY + 4) mod 7.

(** Value of a grouping expression on a row timestamp; [None] is SQL
    [NULL] (integer division by zero).  SQL integer division truncates
    towards zero. *)
Definition sql_group_key (g : sql_grouping) (t : DT.datetime) : option DT.datetime :=
  match g with
  | EpochFloor w =>
      if w =? 0 then None
      else Some (Z.quot (sql_epoch t) w * w * DT.SECOND)
  | HourStart => Some (t - t mod DT.HOUR)
  | DayStart => Some (t - t mod DT.DAY)
  | WeekStart =>
      let u := (sql_epoch t - sql_weekday t * 86400) * DT.SECOND in
      Some (u - u mod DT.DAY)
  | MonthStart => Some ((t / DT.DAY - (DT.day t - 1)) * DT.DAY)
  end.

Definition _parse_aggregation_to_sql (aggregation : string)
    : result (option (sql_grouping * Z)) :=
  if String.eqb aggregation "none" then Ok None
  else if PyStr.endswith aggregation "min" then
    minutes ← PyStr.int (PyStr.drop_last 3 aggregation);
    Ok (Some (EpochFloor (minutes * 60), minutes * 60))
  else if PyStr.endswith aggregation "hour" then
    hours ← PyStr.int (PyStr.drop_last 4 aggregation);
    if hours =? 1 then Ok (Some (HourStart, hours * 3600))
    else Ok (Some (EpochFloor (hours * 3600), hours * 3600))
  else if PyStr.endswith aggregation "day" then
    days ← PyStr.int (PyStr.drop_last 3 aggregation);
    if days =? 1 then Ok (Some (DayStart, days * 86400))
    else Ok (Some (EpochFloor (days * 86400), days * 86400))
  else if String.eqb aggregation "1week" then Ok (Some (WeekStart, 7 * 86400))
  else if String.eqb aggregation "1month" then Ok (Some (MonthStart, 30 * 86400))
  else Ok None.

(** *** Historical scan *)

(** A row of a scan result.  [o_timestamp] is [None] for SQL [NULL]. *)
Record reading_out : Type := mkReadingOut {
  o_timestamp : option DT.datetime;
  o_meter_id : string;
  o_voltage_rms : Q;
  o_current_rms : Q;
  o_active_power : Q;
  o_reactive_power : Q;
  o_apparent_power : Q;
  o_power_factor : Q;
  o_frequency : Q
}.

Record historical_result : Type := mkHistoricalResult {
  result_readings : list reading_out;
  aggregation_applied : string;
  original_count : option Z
}.

Definition raw_out (r : readings_row) : reading_out :=
  {| o_timestamp := Some (timestamp r);
     o_meter_id := r_meter_id r;
     o_voltage_rms := voltage_rms r;
     o_current_rms := current_rms r;
     o_active_power := active_power r;
     o_reactive_power := reactive_power r;
     o_apparent_power := apparent_power r;
     o_power_factor := power_factor r;
     o_frequency := frequency r |}.

(** [ORDER BY timestamp DESC] on raw rows.  SQL leaves the order of rows
    with equal timestamps open; the scan keeps them in rowid order. *)
Fixpoint insert_row_desc (r : readings_row) (rows : list readings_row)
    : list readings_row :=
  match rows with
  | [] => [r]
  | h :: t =>
      if timestamp h <=? timestamp r then r :: rows
      else h :: insert_row_desc r t
  end.

Definition order_rows_desc (rows : list readings_row) : list readings_row :=
  fold_right insert_row_desc [] rows.

(** [if limit: query += " LIMIT ?"]; a negative [LIMIT] is no limit. *)
Definition apply_limit {A : Type} (limit : option Z) (rows : list A) : list A :=
  match limit with
  | None => rows
  | Some n => if n =? 0 then rows
              else if n <? 0 then rows
              else firstn (Z.to_nat n) rows
  end.

(** Order of SQL values of a grouping expression: [NULL] is smallest. *)
Definition key_ltb (a b : option Z) : bool :=
  match a, b with
  | None, Some _ => true
  | Some x, Some y => x <? y
  | _, _ => false
  end.

Definition key_eqb (a b : option Z) : bool :=
  match a, b with
  | None, None => true
  | Some x, Some y => x =? y
  | _, _ => false
  end.

(** Distinct group keys, largest first ([GROUP BY key ORDER BY key DESC]). *)
Fixpoint insert_key_desc (k : option Z) (ks : list (option Z)) : list (option Z) :=
  match ks with
  | [] => [k]
  | h :: t =>
      if key_eqb k h then ks
      else if key_ltb h k then k :: ks
      else h :: insert_key_desc k t
  end.

Definition group_keys_desc (g : sql_grouping) (rows : list readings_row)
    : list (option Z) :=
  fold_right (fun r acc => insert_key_desc (sql_group_key g (timestamp r)) acc) [] rows.

Definition Qsum (xs : list Q) : Q := fold_right Qplus 0%Q xs.

(** [AVG(column)] over the rows of one group. *)
Definition AVG (column : readings_row -> Q) (group : list readings_row) : Q :=
  (Qsum (List.map column group) / inject_Z (Z.of_nat (length group)))%Q.

Definition aggregate_group (mid : string) (k : option DT.datetime)
    (group : list readings_row) : reading_out :=
  {| o_timestamp := k;
     o_meter_id := mid;
     o_voltage_rms := AVG voltage_rms group;
     o_current_rms := AVG current_rms group;
     o_active_power := AVG active_power group;
     o_reactive_power := AVG reactive_power group;
     o_apparent_power := AVG apparent_power group;
     o_power_factor := AVG power_factor group;
     o_frequency := AVG frequency group |}.

(** [SELECT g AS timestamp, meter_id, AVG(...) ... GROUP BY g ORDER BY
    timestamp DESC]; in [ORDER BY] the name is the output column. *)
Definition aggregated_scan (g : sql_grouping) (mid : string)
    (selected : list readings_row) : list reading_out :=
  List.map
    (fun k =>
       aggregate_group mid k
         (List.filter (fun r => key_eqb (sql_group_key g (timestamp r)) k) selected))
    (group_keys_desc g selected).

Definition get_historical_readings (s : store) (mid : string)
    (start_time end_time : DT.datetime) (limit : option Z) (aggregation : string)
    : result historical_result :=
  let selected := List.filter (reading_selected mid start_time end_time) (readings s) in
  let raw := apply_limit limit (List.map raw_out (order_rows_desc selected)) in
  chosen ←
    (if String.eqb aggregation "auto" then
       let count := get_reading_count s mid start_time end_time in
       let time_span_seconds := DT.total_seconds start_time end_time in
       a ← _calculate_optimal_aggregation count time_span_seconds 10000;
       Ok (a, Some count)
     else Ok (aggregation, None));
  let '(aggregation, counted) := chosen in
  if String.eqb aggregation "none" then
    Ok {| result_readings := raw;
          aggregation_applied := aggregation;
          original_count := counted |}
  else
    parsed ← _parse_aggregation_to_sql aggregation;
    match parsed with
    | None =>
        Ok {| result_readings := raw;
              aggregation_applied := aggregation;
              original_count := counted |}
    | Some (sql_grouping, _) =>
        Ok {| result_readings :=
                apply_limit limit (aggregated_scan sql_grouping mid selected);
              aggregation_applied := aggregation;
              original_count := counted |}
    end.

(** *** Retention compaction *)

(** Group key of the [INSERT ... SELECT]: [meter_id], calendar day,
    [CAST(strftime('%H', timestamp) AS INTEGER) / aggregation_hours];
    the last component is [None] ([NULL]) when dividing by zero. *)
Definition compaction_key (aggregation_hours : Z) (r : readings_row)
    : string * Z * option Z :=
  (r_meter_id r, timestamp r / DT.DAY,
   if aggregation_hours =? 0 then None
   else Some (Z.quot (DT.hour (timestamp r)) aggregation_hours)).

Definition compaction_key_eqb (a b : string * Z * option Z) : bool :=
  let '(m1, d1, h1) := a in
  let '(m2, d2, h2) := b in
  String.eqb m1 m2 && (d1 =? d2) && key_eqb h1 h2.

Definition compaction_key_ltb (a b : string * Z * option Z) : bool :=
  let '(m1, d1, h1) := a in
  let '(m2, d2, h2) := b in
  String.ltb m1 m2
  || (String.eqb m1 m2 && ((d1 <? d2) || ((d1 =? d2) && key_ltb h1 h2))).

(** Distinct keys in ascending order, the order in which the grouped
    [SELECT] emits its rows. *)
Fixpoint insert_compaction_key (k : string * Z * option Z)
    (ks : list (string * Z * option Z)) : list (string * Z * option Z) :=
  match ks with
  | [] => [k]
  | h :: t =>
      if compaction_key_eqb k h then ks
      else if compaction_key_ltb k h then k :: ks
      else h :: insert_compaction_key k t
  end.

Definition compaction_keys (aggregation_hours : Z) (rows : list readings_row)
    : list (string * Z * option Z) :=
  fold_right (fun r acc => insert_compaction_key (compaction_key aggregation_hours r) acc)
             [] rows.

(** [datetime(strftime('%Y-%m-%d %H:00:00', timestamp),
             '+' || (CAST(strftime('%H', timestamp) AS INTEGER) / n * n) || ' hours')]:
    the start of the row's hour, moved forward by the hour number rounded
    down to a multiple of [n]. *)
Definition compaction_timestamp (aggregation_hours : Z) (t : DT.datetime)
    : option DT.datetime :=
  if aggregation_hours =? 0 then None
  else Some (DT.add_hours (t - t mod DT.HOUR)
               (Z.quot (DT.hour t) aggregation_hours * aggregation_hours)).

(** One row of the grouped [SELECT ... HAVING COUNT( * ) > 1], before it
    receives an id.  The bare [timestamp] column is read from the first
    row of the group; with [aggregation_hours = 1], the value every
    caller passes, all rows of a group give the same result. *)
Definition compaction_select (aggregation_hours : Z) (old : list readings_row)
    : list (option DT.datetime * readings_row) :=
  flat_map
    (fun k =>
       let group := List.filter
         (fun r => compaction_key_eqb (compaction_key aggregation_hours r) k) old in
       match group with
       | first :: _ =>
           if (1 <? Z.of_nat (length group)) then
             [ (compaction_timestamp aggregation_hours (timestamp first),
                {| id := 0;
                   timestamp := 0;
                   r_meter_id := r_meter_id first;
                   voltage_rms := AVG voltage_rms group;
                   current_rms := AVG current_rms group;
                   active_power := AVG active_power group;
                   reactive_power := AVG reactive_power group;
                   apparent_power := AVG apparent_power group;
                   power_factor := AVG power_factor group;
                   frequency := AVG frequency group |}) ]
           else []
       | [] => []
       end)
    (compaction_keys aggregation_hours old).

(** Ids are handed out in emission order; a [NULL] timestamp violates
    [NOT NULL] and aborts the statement. *)
Fixpoint assign_ids (next : Z) (rows : list (option DT.datetime * readings_row))
    : option (list readings_row) :=
  match rows with
  | [] => Some []
  | (None, _) :: _ => None
  | (Some t, r) :: rest =>
      match assign_ids (next + 1) rest with
      | None => None
      | Some rest' =>
          Some ({| id := next;
                   timestamp := t;
                   r_meter_id := r_meter_id r;
                   voltage_rms := voltage_rms r;
                   current_rms := current_rms r;
                   active_power := active_power r;
                   reactive_power := reactive_power r;
                   apparent_power := apparent_power r;
                   power_factor := power_factor r;
                   frequency := frequency r |} :: rest')
      end
  end.

(** [SELECT MAX(id) FROM readings WHERE timestamp < ? GROUP BY meter_id,
    strftime('%Y-%m-%d %H:00:00', timestamp)]: is [r] the row of largest
    id in its (meter, hour) group among [old]? *)
Definition is_max_id_of_hour (old : list readings_row) (r : readings_row) : bool :=
  forallb
    (fun r' =>
       negb (String.eqb (r_meter_id r') (r_meter_id r)
             && (timestamp r' / DT.HOUR =? timestamp r / DT.HOUR))
       || (id r' <=? id r))
    old.

(** Returns the new store and the number of deleted rows; the [except]
    branch leaves the store as it was and returns 0. *)
Definition aggregate_old_data (now : DT.datetime) (days_old aggregation_hours : Z)
    (s : store) : store * Z :=
  let cutoff_date := DT.add_days now (- days_old) in
  let old := List.filter (fun r => timestamp r <? cutoff_date) (readings s) in
  match assign_ids (next_reading_id s) (compaction_select aggregation_hours old) with
  | None => (s, 0)
  | Some inserted =>
      let rows := (readings s ++ inserted)%list in
      let old' := List.filter (fun r => timestamp r <? cutoff_date) rows in
      let doomed r := (timestamp r <? cutoff_date) && negb (is_max_id_of_hour old' r) in
      ({| meters := meters s;
          readings := List.filter (fun r => negb (doomed r)) rows;
          next_reading_id := next_reading_id s + Z.of_nat (length inserted);
          energy_readings := energy_readings s |},
       Z.of_nat (length (List.filter doomed rows)))
  end.

(** *** Energy readings *)

(** [if phase and phase != 'ALL'] *)
Definition phase_filtered (phase : option string) : option string :=
  match phase with
  | Some p => if String.eqb p "" || String.eqb p "ALL" then None else Some p
  | None => None
  end.

Definition energy_selected (mid : string) (start_time end_time : DT.datetime)
    (phase : option string) (r : energy_row) : bool :=
  String.eqb (e_meter_id r) mid
  && match phase_filtered phase with
     | Some p => String.eqb (e_phase r) p
     | None => true
     end
  && (start_time <=? e_timestamp r) && (e_timestamp r <=? end_time).

(** [ORDER BY timestamp ASC]; rows of equal timestamp stay in rowid order. *)
Fixpoint insert_energy_asc (r : energy_row) (rows : list energy_row) : list energy_row :=
  match rows with
  | [] => [r]
  | h :: t =>
      if e_timestamp r <=? e_timestamp h then r :: rows
      else h :: insert_energy_asc r t
  end.

Definition get_energy_readings (s : store) (mid : string)
    (start_time end_time : DT.datetime) (phase : option string) : list energy_row :=
  fold_right insert_energy_asc []
    (List.filter (energy_selected mid start_time end_time phase) (energy_readings s)).

(** An energy row with its [time_ms] key. *)
Record reading_ms : Type := mkReadingMs {
  row : energy_row;
  time_ms : Z
}.

Definition with_time_ms (r : energy_row) : reading_ms :=
  {| row := r; time_ms := DT.timestamp_ms (e_timestamp r) |}.

(** [readings_with_ms.sort(key=lambda x: x['time_ms'])], a stable sort. *)
Fixpoint insert_by_time_ms (r : reading_ms) (rs : list reading_ms) : list reading_ms :=
  match rs with
  | [] => [r]
  | h :: t =>
      if time_ms r <=? time_ms h then r :: rs
      else h :: insert_by_time_ms r t
  end.

Definition sort_by_time_ms (rs : list reading_ms) : list reading_ms :=
  fold_right insert_by_time_ms [] rs.

Definition preprocess (energy_readings : list energy_row) : list reading_ms :=
  sort_by_time_ms (List.map with_time_ms energy_readings).

(** [bisect.bisect_left(a, x)]: the loop [while lo < hi] halves [hi - lo],
    so [length a] rounds are enough. *)
Fixpoint bisect_loop (fuel : nat) (a : list Z) (x : Z) (lo hi : nat) : nat :=
  match fuel with
  | O => lo
  | S fuel' =>
      if (lo <? hi)%nat then
        let mid := ((lo + hi) / 2)%nat in
        if nth mid a 0 <? x then bisect_loop fuel' a x (mid + 1)%nat hi
        else bisect_loop fuel' a x lo mid
      else lo
  end.

Definition bisect_left (a : list Z) (x : Z) : nat :=
  bisect_loop (length a) a x 0%nat (length a).

Definition kwh (r : reading_ms) : Q := total_kwh (row r).

Definition _interpolate_kwh_at_time (readings_with_ms : list reading_ms)
    (target_time_ms : Z) : option Q :=
  match readings_with_ms with
  | [] => None
  | r0 :: _ =>
      let times := List.map time_ms readings_with_ms in
      let idx := bisect_left times target_time_ms in
      if (idx <? length readings_with_ms)%nat && (nth idx times 0 =? target_time_ms)
      then Some (kwh (nth idx readings_with_ms r0))
      else if (idx =? 0)%nat then Some (kwh r0)
      else if (length readings_with_ms <=? idx)%nat
      then Some (kwh (List.last readings_with_ms r0))
      else
        let before := nth (idx - 1) readings_with_ms r0 in
        let after := nth idx readings_with_ms r0 in
        let time_diff := time_ms after - time_ms before in
        let kwh_diff := (kwh after - kwh before)%Q in
        if time_diff =? 0 then Some (kwh before)
        else
          let ratio := (inject_Z (target_time_ms - time_ms before) / inject_Z time_diff)%Q in
          Some (kwh before + kwh_diff * ratio)%Q
  end.

(** *** Bucket boundaries *)

(** A bucket dict; [bucket_start] is [None] where the dict has no such key. *)
Record bucket : Type := mkBucket {
  start_ms : Z;
  end_ms : Z;
  bucket_start : option DT.datetime
}.

(** [while current <= end_time: ...; current = bucket_end].  Running out
    of [fuel] with the condition still true is [NoReturn]. *)
Fixpoint bucket_loop (fuel : nat) (next : DT.datetime -> DT.datetime) (keep_start : bool)
    (current end_time : DT.datetime) : result (list bucket) :=
  if current <=? end_time then
    match fuel with
    | O => NoReturn
    | S fuel' =>
        let bucket_end := next current in
        rest ← bucket_loop fuel' next keep_start bucket_end end_time;
        Ok ({| start_ms := DT.timestamp_ms current;
               end_ms := DT.timestamp_ms bucket_end;
               bucket_start := if keep_start then Some current else None |} :: rest)
    end
  else Ok [].

(** Rounds that suffice when every bucket is at least [width] wide
    ([width > 0]); with [width = 0] the loop cannot leave once entered. *)
Definition rounds (width : Z) (current end_time : DT.datetime) : nat :=
  Z.to_nat ((end_time - current) / width + 1).

(** [current.replace(year=current.year + 1, month=1)] in December, else
    [current.replace(month=current.month + 1)]. *)
Definition next_month (current : DT.datetime) : DT.datetime :=
  if DT.month current =? 12
  then DT.replace_year_month current (DT.year current + 1) 1
  else DT.replace_year_month current (DT.year current) (DT.month current + 1).

(** [start_time.replace(second=0, microsecond=0)] *)
Definition floor_minute (start_time : DT.datetime) : DT.datetime :=
  DT.replace_microsecond (DT.replace_second start_time 0) 0.

Definition minute_buckets (keep_start : bool) (aggregation : string)
    (current end_time : DT.datetime) : result (list bucket) :=
  minutes ← PyStr.int (PyStr.drop_last 3 aggregation);
  if minutes =? 0 then Raise ZeroDivisionError
  else
    let current := DT.replace_minute current (DT.minute current / minutes * minutes) in
    bucket_loop (rounds (minutes * DT.MINUTE) current end_time)
      (fun c => DT.add_minutes c minutes) keep_start current end_time.

Definition hour_buckets (keep_start : bool) (aggregation : string)
    (current end_time : DT.datetime) : result (list bucket) :=
  hours ← PyStr.int (PyStr.drop_last 4 aggregation);
  let current := DT.replace_minute current 0 in
  if hours =? 0 then Raise ZeroDivisionError
  else
    let current := DT.replace_hour current (DT.hour current / hours * hours) in
    bucket_loop (rounds (hours * DT.HOUR) current end_time)
      (fun c => DT.add_hours c hours) keep_start current end_time.

Definition day_buckets (keep_start : bool) (aggregation : string)
    (current end_time : DT.datetime) : result (list bucket) :=
  days ← PyStr.int (PyStr.drop_last 3 aggregation);
  let current := DT.replace_minute (DT.replace_hour current 0) 0 in
  bucket_loop (rounds (days * DT.DAY) current end_time)
    (fun c => DT.add_days c days) keep_start current end_time.

Definition week_buckets (keep_start : bool)
    (current end_time : DT.datetime) : result (list bucket) :=
  let current := DT.replace_minute (DT.replace_hour current 0) 0 in
  let days_since_sunday :=
    if negb (DT.weekday current =? 6) then DT.weekday current + 1 else 0 in
  let current := DT.add_days current (- days_since_sunday) in
  bucket_loop (rounds (7 * DT.DAY) current end_time)
    (fun c => DT.add_days c 7) keep_start current end_time.

Definition month_buckets (keep_start : bool)
    (current end_time : DT.datetime) : result (list bucket) :=
  let current := DT.replace_minute (DT.replace_hour (DT.replace_day current 1) 0) 0 in
  bucket_loop (rounds (28 * DT.DAY) current end_time)
    next_month keep_start current end_time.

(** *** Energy deltas *)

(** One entry of the returned list: [timestamp] is
    [bucket_start.isoformat()] kept as the instant; the display string
    [time] is a rendering of the same instant and is left out. *)
Record energy_out : Type := mkEnergyOut {
  b_timestamp : DT.datetime;
  energy_kwh : Q
}.

(** [for reading in readings_with_ms: if start_ms <= time_ms < end_ms: ...] *)
Fixpoint first_last_in (b : bucket) (rs : list reading_ms)
    (first_reading last_reading : option reading_ms)
    : option reading_ms * option reading_ms :=
  match rs with
  | [] => (first_reading, last_reading)
  | reading :: rest =>
      if (start_ms b <=? time_ms reading) && (time_ms reading <? end_ms b) then
        first_last_in b rest
          (match first_reading with None => Some reading | Some f => Some f end)
          (Some reading)
      else first_last_in b rest first_reading last_reading
  end.

(** [bucket['bucket_start']] *)
Definition get_bucket_start (b : bucket) : result DT.datetime :=
  match bucket_start b with
  | Some t => Ok t
  | None => Raise KeyError
  end.

Fixpoint first_last_deltas (readings_with_ms : list reading_ms) (buckets : list bucket)
    : result (list energy_out) :=
  match buckets with
  | [] => Ok []
  | b :: rest =>
      match first_last_in b readings_with_ms None None with
      | (Some first_reading, Some last_reading) =>
          let delta := (kwh last_reading - kwh first_reading)%Q in
          if Qle_bool 0 delta then
            t ← get_bucket_start b;
            out ← first_last_deltas readings_with_ms rest;
            Ok ({| b_timestamp := t; energy_kwh := delta |} :: out)
          else first_last_deltas readings_with_ms rest
      | _ => first_last_deltas readings_with_ms rest
      end
  end.

(** The block [# Get bucket boundaries] of
    [_calculate_energy_deltas_without_interpolation]. *)
Definition first_last_buckets (aggregation : string)
    (start_time end_time : DT.datetime) : result (list bucket) :=
  let current := floor_minute start_time in
  if PyStr.endswith aggregation "hour" then
    hour_buckets true aggregation current end_time
  else if PyStr.endswith aggregation "day" then
    day_buckets true aggregation current end_time
  else if String.eqb aggregation "1week" then
    week_buckets true current end_time
  else if String.eqb aggregation "1month" then
    month_buckets true current end_time
  else Ok [].

Definition _calculate_energy_deltas_without_interpolation
    (energy_readings : list energy_row) (aggregation : string)
    (start_time end_time : DT.datetime) : result (list energy_out) :=
  if (length energy_readings <? 2)%nat then Ok []
  else
    let readings_with_ms := preprocess energy_readings in
    buckets ← first_last_buckets aggregation start_time end_time;
    first_last_deltas readings_with_ms buckets.

Fixpoint interpolated_deltas (readings_with_ms : list reading_ms) (buckets : list bucket)
    : result (list energy_out) :=
  match buckets with
  | [] => Ok []
  | b :: rest =>
      match _interpolate_kwh_at_time readings_with_ms (start_ms b),
            _interpolate_kwh_at_time readings_with_ms (end_ms b) with
      | Some start_kwh, Some end_kwh =>
          let delta := (end_kwh - start_kwh)%Q in
          if Qle_bool 0 delta then
            t ← get_bucket_start b;
            out ← interpolated_deltas readings_with_ms rest;
            Ok ({| b_timestamp := t; energy_kwh := delta |} :: out)
          else interpolated_deltas readings_with_ms rest
      | _, _ => interpolated_deltas readings_with_ms rest
      end
  end.

(** The block [# Get bucket boundaries] of
    [_calculate_energy_deltas_with_interpolation]; only its minute branch
    stores [bucket_start]. *)
Definition interpolation_buckets (aggregation : string)
    (start_time end_time : DT.datetime) : result (list bucket) :=
  let current := floor_minute start_time in
  if PyStr.endswith aggregation "min" then
    minute_buckets true aggregation current end_time
  else if PyStr.endswith aggregation "hour" then
    hour_buckets false aggregation current end_time
  else if PyStr.endswith aggregation "day" then
    day_buckets false aggregation current end_time
  else if String.eqb aggregation "1week" then
    week_buckets false current end_time
  else if String.eqb aggregation "1month" then
    month_buckets false current end_time
  else Ok [].

Definition _calculate_energy_deltas_with_interpolation
    (energy_readings : list energy_row) (aggregation : string)
    (start_time end_time : DT.datetime) : result (list energy_out) :=
  if (length energy_readings <? 2)%nat then Ok []
  else
    let readings_with_ms := preprocess energy_readings in
    buckets ← interpolation_buckets aggregation start_time end_time;
    interpolated_deltas readings_with_ms buckets.

Record energy_result : Type := mkEnergyResult {
  aggregated : list energy_out;
  raw_total_kwh : Q;
  raw_readings_count : Z;
  energy_aggregation_applied : string
}.

Definition get_energy_aggregated (s : store) (mid : string)
    (start_time end_time : DT.datetime) (phase : option string) (aggregation : string)
    : result energy_result :=
  let raw_readings := get_energy_readings s mid start_time end_time phase in
  let raw_total :=
    match raw_readings with
    | first :: _ :: _ => (total_kwh (List.last raw_readings first) - total_kwh first)%Q
    | _ => 0%Q
    end in
  aggregation ←
    (if String.eqb aggregation "auto" then
       let count := Z.of_nat (length raw_readings) in
       let time_span_seconds := DT.total_seconds start_time end_time in
       _calculate_optimal_aggregation count time_span_seconds 10000
     else Ok aggregation);
  deltas ←
    (if negb (String.eqb aggregation "none") && (2 <=? length raw_readings)%nat then
       if PyStr.endswith aggregation "min" then
         _calculate_energy_deltas_with_interpolation
           raw_readings aggregation start_time end_time
       else
         _calculate_energy_deltas_without_interpolation
           raw_readings aggregation start_time end_time
     else Ok []);
  Ok {| aggregated := deltas;
        raw_total_kwh := raw_total;
        raw_readings_count := Z.of_nat (length raw_readings);
        energy_aggregation_applied := aggregation |}.

(** *** Meter listing, update and deletion *)

(** Order of [ORDER BY name, meter_id]: a [NULL] name sorts first, text
    sorts by its bytes. *)
Definition name_ltb (a b : option string) : bool :=
  match a, b with
  | None, Some _ => true
  | Some x, Some y => String.ltb x y
  | _, _ => false
  end.

Definition name_eqb (a b : option string) : bool :=
  match a, b with
  | None, None => true
  | Some x, Some y => String.eqb x y
  | _, _ => false
  end.

Definition meters_row_leb (a b : meters_row) : bool :=
  name_ltb (c_name a) (c_name b)
  || (name_eqb (c_name a) (c_name b) && String.leb (c_meter_id a) (c_meter_id b)).

Fixpoint insert_meters_row (r : meters_row) (rows : list meters_row) : list meters_row :=
  match rows with
  | [] => [r]
  | h :: t =>
      if meters_row_leb r h then r :: rows
      else h :: insert_meters_row r t
  end.

(** [SELECT ... FROM meters ORDER BY name, meter_id]; a row stands for the
    dict of its selected columns. *)
Definition get_all_meters (s : store) : list meters_row :=
  fold_right insert_meters_row [] (List.map snd (map_to_list (meters s))).

(** [UPDATE meters SET ip_address=?, name=?, location=?, enabled=?,
    poll_interval=?, energy_poll_interval=? WHERE meter_id=?]: the row is
    found by the [meter_id] argument, not by [meter.meter_id]. *)
Definition update_meter (mid : string) (meter : Meter) (s : store) : store :=
  match meters s !! mid with
  | Some old =>
      {| meters :=
           <[mid := {| c_meter_id := c_meter_id old;
                       c_ip_address := ip_address meter;
                       c_name := name meter;
                       c_location := location meter;
                       c_enabled := if enabled meter then 1 else 0;
                       c_poll_interval := poll_interval meter;
                       c_energy_poll_interval := energy_poll_interval meter;
                       c_last_seen := c_last_seen old;
                       c_created_at := c_created_at old |}]> (meters s);
         readings := readings s;
         next_reading_id := next_reading_id s;
         energy_readings := energy_readings s |}
  | None => s
  end.

(** [DELETE FROM meters WHERE meter_id=?].  The connection is opened
    without [PRAGMA foreign_keys=ON]; SQLite then does not enforce the
    [FOREIGN KEY ... ON DELETE CASCADE] clauses of the two reading tables
    (nor reject readings of an unknown meter), so only [meters] changes. *)
Definition delete_meter (mid : string) (s : store) : store :=
  {| meters := delete mid (meters s);
     readings := readings s;
     next_reading_id := next_reading_id s;
     energy_readings := energy_readings s |}.

(** *** Latest reading *)

(** [SELECT ... FROM readings WHERE meter_id = ? ORDER BY timestamp DESC
    LIMIT 1] *)
Definition get_latest_reading (s : store) (mid : string) : option reading_out :=
  head (List.map raw_out
          (order_rows_desc
             (List.filter (fun r => String.eqb (r_meter_id r) mid) (readings s)))).

(** *** Statistics *)

(** SQL aggregates over the selected rows; on no rows all but [COUNT] are
    [NULL]. *)
Definition SQL_AVG (column : readings_row -> Q) (rows : list readings_row) : option Q :=
  match rows with
  | [] => None
  | _ :: _ => Some (AVG column rows)
  end.

Definition SQL_MAX (column : readings_row -> Q) (rows : list readings_row) : option Q :=
  match rows with
  | [] => None
  | r :: rest =>
      Some (fold_left (fun m r' => if Qle_bool m (column r') then column r' else m)
                      rest (column r))
  end.

Definition SQL_MIN (column : readings_row -> Q) (rows : list readings_row) : option Q :=
  match rows with
  | [] => None
  | r :: rest =>
      Some (fold_left (fun m r' => if Qle_bool (column r') m then column r' else m)
                      rest (column r))
  end.

Definition SQL_SUM (column : readings_row -> Q) (rows : list readings_row) : option Q :=
  match rows with
  | [] => None
  | _ :: _ => Some (Qsum (List.map column rows))
  end.

Record statistics : Type := mkStatistics {
  sample_count : Z;
  avg_voltage : option Q;
  max_voltage : option Q;
  min_voltage : option Q;
  avg_current : option Q;
  max_current : option Q;
  avg_power : option Q;
  max_power : option Q;
  total_energy_kwh : option Q;
  st_meter_id : string;
  st_start_time : DT.datetime;
  st_end_time : DT.datetime
}.

(** An aggregate query without [GROUP BY] always yields one row, and a
    [Row] of nine columns is truthy: the final [return None] is not
    reached. *)
Definition get_statistics (s : store) (mid : string)
    (start_time end_time : DT.datetime) : option statistics :=
  let rows := List.filter (reading_selected mid start_time end_time) (readings s) in
  Some {| sample_count := Z.of_nat (length rows);
          avg_voltage := SQL_AVG voltage_rms rows;
          max_voltage := SQL_MAX voltage_rms rows;
          min_voltage := SQL_MIN voltage_rms rows;
          avg_current := SQL_AVG current_rms rows;
          max_current := SQL_MAX current_rms rows;
          avg_power := SQL_AVG active_power rows;
          max_power := SQL_MAX active_power rows;
          total_energy_kwh :=
            (fun total => (total / 3600000)%Q) <$> SQL_SUM active_power rows;
          st_meter_id := mid;
          st_start_time := start_time;
          st_end_time := end_time |}.

(** *** Settings *)

(** A settings value: the JSON text [json.dumps] writes and [json.loads]
    reads back is kept as the number it encodes. *)
Inductive py_value : Type :=
| PyFloat (x : Q)
| PyInt (n : Z)
| PyNone.

(** [settings.dict(exclude_none=True).items()], in field order. *)
Definition settings_items (settings : SystemSettings.t) : list (string * py_value) :=
  omap (fun kv => kv)
    [ (fun v => ("poll_interval", PyFloat v)) <$> SystemSettings.poll_interval settings;
      (fun v => ("energy_poll_interval", PyFloat v))
        <$> SystemSettings.energy_poll_interval settings;
      (fun v => ("data_retention_days", PyInt v))
        <$> SystemSettings.data_retention_days settings;
      (fun v => ("min_free_space_gb", PyFloat v))
        <$> SystemSettings.min_free_space_gb settings;
      (fun v => ("max_websocket_clients", PyInt v))
        <$> SystemSettings.max_websocket_clients settings ].

(** [INSERT INTO settings (key, value, updated_at) ... ON CONFLICT(key) DO
    UPDATE SET value=excluded.value, updated_at=excluded.updated_at], for
    each item.  A row of the table is [(value, updated_at)]; [now] is
    [datetime.utcnow()], which nothing reads back. *)
Definition update_settings (now : DT.datetime) (settings : SystemSettings.t)
    (table : gmap string (py_value * DT.datetime)) : gmap string (py_value * DT.datetime) :=
  fold_left (fun t kv => <[fst kv := (snd kv, now)]> t) (settings_items settings) table.

(** [SELECT key, value FROM settings], then the dict of four keys with
    their defaults. *)
Definition get_settings (table : gmap string (py_value * DT.datetime))
    : gmap string py_value :=
  let settings : gmap string py_value := fst <$> table in
  let get (k : string) (d : py_value) := default d (settings !! k) in
  <["poll_interval" := get "poll_interval" (PyFloat 1)]>
    (<["energy_poll_interval" := get "energy_poll_interval" (PyFloat 30)]>
       (<["data_retention_days" := get "data_retention_days" PyNone]>
          (<["max_websocket_clients" := get "max_websocket_clients" (PyInt 100)]> ∅))).

(** *** Data maintenance *)

(** [DELETE FROM readings WHERE timestamp < ?] with the number of rows it
    removed. *)
Definition delete_before (cutoff : DT.datetime) (s : store) : store * Z :=
  ({| meters := meters s;
      readings := List.filter (fun r => negb (timestamp r <? cutoff)) (readings s);
      next_reading_id := next_reading_id s;
      energy_readings := energy_readings s |},
   Z.of_nat (length (List.filter (fun r => timestamp r <? cutoff) (readings s)))).

Definition cleanup_old_data (now : DT.datetime) (days : Z) (s : store) : store * Z :=
  let cutoff_date := DT.add_days now (- days) in
  delete_before cutoff_date s.

(** [SELECT MIN(timestamp) AS oldest FROM readings] *)
Definition oldest_timestamp (rows : list readings_row) : option DT.datetime :=
  match rows with
  | [] => None
  | r :: rest => Some (fold_left Z.min (List.map timestamp rest) (timestamp r))
  end.

(** The [while True] loop of [cleanup_oldest_data].  [disk_free_gb n] is the
    free space [shutil.disk_usage] reports at the start of round [n], or
    [None] when the call raises; [except Exception] then returns 0 with
    the batches deleted so far already committed. *)
Fixpoint cleanup_loop (fuel : nat) (disk_free_gb : nat -> option Q) (round : nat)
    (target_free_space_gb : Q) (batch_days : Z) (s : store) (total_deleted : Z)
    : result (store * Z) :=
  match fuel with
  | O => NoReturn
  | S fuel' =>
      match disk_free_gb round with
      | None => Ok (s, 0)
      | Some free =>
          if Qle_bool target_free_space_gb free then Ok (s, total_deleted)
          else
            match oldest_timestamp (readings s) with
            | None => Ok (s, total_deleted)
            | Some oldest =>
                let cutoff := DT.add_days oldest batch_days in
                let '(s', deleted) := delete_before cutoff s in
                let total_deleted := total_deleted + deleted in
                if deleted =? 0 then Ok (s', total_deleted)
                else cleanup_loop fuel' disk_free_gb (S round)
                       target_free_space_gb batch_days s' total_deleted
            end
      end
  end.

(** Every round but the last deletes a row, so one round more than there
    are rows is enough. *)
Definition cleanup_oldest_data (disk_free_gb : nat -> option Q)
    (target_free_space_gb : Q) (batch_days : Z) (s : store) : result (store * Z) :=
  cleanup_loop (S (length (readings s))) disk_free_gb 0
    target_free_space_gb batch_days s 0.

(** *** Latest energy reading *)

(** [ORDER BY timestamp DESC] on energy rows; rows of equal timestamp stay
    in rowid order. *)
Fixpoint insert_energy_desc (r : energy_row) (rows : list energy_row) : list energy_row :=
  match rows with
  | [] => [r]
  | h :: t =>
      if e_timestamp h <=? e_timestamp r then r :: rows
      else h :: insert_energy_desc r t
  end.

(** [SELECT ... FROM energy_readings WHERE meter_id = ? [AND phase = ?]
    ORDER BY timestamp DESC LIMIT 1] *)
Definition get_latest_energy_reading (s : store) (mid : string) (phase : option string)
    : option energy_row :=
  head (fold_right insert_energy_desc []
          (List.filter
             (fun r =>
                String.eqb (e_meter_id r) mid
                && match phase_filtered phase with
                   | Some p => String.eqb (e_phase r) p
                   | None => true
                   end)
             (energy_readings s))).

End Database.

(** ** Poll loops and their supervisors *)

(** What one pass through the [try] block of a poll loop amounts to:
    the sample was fetched and stored, the fetch returned nothing, or an
    exception was caught. *)
Inductive outcome : Type :=
| Stored
| NoReading
| Failed.

(** State of an [asyncio.Task]. *)
Inductive task_status : Type :=
| Running
| Cancelled
| Finished.

Record task : Type := mkTask {
  polled : Models.Meter;
  status : task_status
}.

(** [task.cancel()] followed by [await task] under [except
    asyncio.CancelledError: pass]: a running task ends cancelled, a task
    that is already done is left as it is, and nothing is raised. *)
Definition cancel_and_await (t : task) : task :=
  match status t with
  | Running => {| polled := polled t; status := Cancelled |}
  | _ => t
  end.

(** [Meter( **meter_data)] on a row of [get_all_meters]: the extra key
    [last_seen] is ignored, and [enabled] is validated from the integers 0
    and 1 (any other integer is a validation error, a [ValueError]). *)
Definition meter_of_row (r : Database.meters_row) : result Models.Meter :=
  if (Database.c_enabled r =? 0) || (Database.c_enabled r =? 1) then
    Ok {| Models.meter_id := Database.c_meter_id r;
          Models.ip_address := Database.c_ip_address r;
          Models.name := Database.c_name r;
          Models.location := Database.c_location r;
          Models.enabled := Database.c_enabled r =? 1;
          Models.poll_interval := Database.c_poll_interval r;
          Models.energy_poll_interval := Database.c_energy_poll_interval r |}
  else Raise ValueError.

(** One entry of the [data] array of an [/api/read] response: whether it
    has an [error] key, and its [name] and [value] when present. *)
Record register_item : Type := mkRegisterItem {
  has_error : bool;
  item_name : option string;
  item_value : option Q
}.

(** What the HTTP exchange of [_fetch_meter_data] came to: an
    [httpx.HTTPError], or a JSON object with the truth value of
    [data.get('success', False)] and the list [data.get('data', [])]. *)
Inductive read_response : Type :=
| ReadHttpError
| ReadBody (success : bool) (data : list register_item).

(** One entry of the [phases] array of an [/api/energy] response. *)
Record phase_entry : Type := mkPhaseEntry {
  entry_phase : option string;
  entry_accumulatedKWh : option Q
}.

(** What the HTTP exchange of [_fetch_energy_data] came to; [phase] and
    [phases] are [None] when the object has no such key. *)
Inductive energy_response : Type :=
| EnergyHttpError
| EnergyBody (success : bool) (phase : option string) (accumulatedKWh : option Q)
    (phases : option (list phase_entry)).

(** *** [services/meter_poller.py] *)

Module MeterPoller.

Import Models.

Record t : Type := mkPoller {
  meters : gmap string Meter;
  tasks : gmap string nat;
  running : bool;
  event_loop : gmap nat task;
  next_handle : nat
}.

Definition add_meter (meter : Meter) (p : t) : t :=
  let meters' := <[meter_id meter := meter]> (meters p) in
  if enabled meter && running p then
    {| meters := meters';
       tasks := <[meter_id meter := next_handle p]> (tasks p);
       running := running p;
       event_loop := <[next_handle p := {| polled := meter; status := Running |}]>
                       (event_loop p);
       next_handle := S (next_handle p) |}
  else
    {| meters := meters';
       tasks := tasks p;
       running := running p;
       event_loop := event_loop p;
       next_handle := next_handle p |}.

Definition remove_meter (mid : string) (p : t) : t :=
  let p1 :=
    match tasks p !! mid with
    | Some h =>
        {| meters := meters p;
           tasks := delete mid (tasks p);
           running := running p;
           event_loop := alter cancel_and_await h (event_loop p);
           next_handle := next_handle p |}
    | None => p
    end in
  match meters p1 !! mid with
  | Some _ =>
      {| meters := delete mid (meters p1);
         tasks := tasks p1;
         running := running p1;
         event_loop := event_loop p1;
         next_handle := next_handle p1 |}
  | None => p1
  end.

Definition update_meter (mid : string) (meter : Meter) (p : t) : t :=
  add_meter meter (remove_meter mid p).

Definition max_failures : Z := 5.

(** Body of [while self.running and meter.enabled]: the [try] block, then
    the back-off test.  Returns the argument of [asyncio.sleep] and the
    counter carried to the next round. *)
Definition poll_round (meter : Meter) (consecutive_failures : Z) (o : outcome)
    : Q * Z :=
  let consecutive_failures :=
    match o with
    | Stored => 0
    | NoReading => consecutive_failures + 1
    | Failed => consecutive_failures + 1
    end in
  if max_failures <=? consecutive_failures then (30%Q, 0)
  else (poll_interval meter, consecutive_failures).

(** The loop on a finite run of outcomes: the sleeps it performs and the
    counter it is left with. *)
Fixpoint poll_from (is_running : bool) (meter : Meter) (consecutive_failures : Z)
    (outcomes : list outcome) : list Q * Z :=
  match outcomes with
  | [] => ([], consecutive_failures)
  | o :: rest =>
      if is_running && enabled meter then
        let '(slept, consecutive_failures) := poll_round meter consecutive_failures o in
        let '(sleeps, final) := poll_from is_running meter consecutive_failures rest in
        (slept :: sleeps, final)
      else ([], consecutive_failures)
  end.

Definition _poll_meter (is_running : bool) (meter : Meter) (outcomes : list outcome)
    : list Q * Z :=
  poll_from is_running meter 0 outcomes.

(** [for meter_data in meters: meter = Meter( **meter_data); if
    meter.enabled: await self.add_meter(meter)] *)
Fixpoint load_meters (rows : list Database.meters_row) (p : t) : result t :=
  match rows with
  | [] => Ok p
  | meter_data :: rest =>
      meter ← meter_of_row meter_data;
      load_meters rest (if enabled meter then add_meter meter p else p)
  end.

Definition start (db : Database.store) (p : t) : result t :=
  load_meters (Database.get_all_meters db)
    {| meters := meters p;
       tasks := tasks p;
       running := true;
       event_loop := event_loop p;
       next_handle := next_handle p |}.

(** [self.running = False], then every task of [self.tasks] is cancelled
    and awaited; the dict itself is left as it is. *)
Definition stop (p : t) : t :=
  {| meters := meters p;
     tasks := tasks p;
     running := false;
     event_loop :=
       map_fold (fun _ h el => alter cancel_and_await h el) (event_loop p) (tasks p);
     next_handle := next_handle p |}.

(** [for item in data.get('data', []): if 'error' not in item:
    values[item['name']] = item['value']]; a missing key is the [KeyError]
    the caller catches. *)
Fixpoint collect_values (data : list register_item) (values : gmap string Q)
    : option (gmap string Q) :=
  match data with
  | [] => Some values
  | item :: rest =>
      if has_error item then collect_values rest values
      else
        match item_name item, item_value item with
        | Some n, Some v => collect_values rest (<[n := v]> values)
        | _, _ => None
        end
  end.

(** [timestamp] is [datetime.utcnow()] taken after the response arrived. *)
Definition _fetch_meter_data (meter : Meter) (timestamp : DT.datetime)
    (response : read_response) : option MeterReading :=
  match response with
  | ReadHttpError => None
  | ReadBody success data =>
      if negb success then None
      else
        match collect_values data ∅ with
        | None => None
        | Some values =>
            let get (k : string) : Q := default 0%Q (values !! k) in
            let power_factor := get "PFA" in
            let power_factor :=
              if Qeq_bool power_factor 0 then
                let apparent := get "SmeanA" in
                if negb (Qle_bool apparent 0) then (get "PmeanA" / apparent)%Q
                else 0%Q
              else power_factor in
            Some {| mr_timestamp := timestamp;
                    mr_meter_id := meter_id meter;
                    mr_voltage_rms := get "UrmsA";
                    mr_current_rms := get "IrmsA";
                    mr_active_power := get "PmeanA";
                    mr_reactive_power := get "QmeanA";
                    mr_apparent_power := get "SmeanA";
                    mr_power_factor := power_factor;
                    mr_frequency := get "Freq" |}
        end
  end.

(** One pass through the [try] block of [_poll_meter] on a store that
    accepts the insert. *)
Definition poll_once (meter : Meter) (timestamp : DT.datetime)
    (response : read_response) (db : Database.store) : Database.store * outcome :=
  match _fetch_meter_data meter timestamp response with
  | Some reading => (Database.store_reading reading db, Stored)
  | None => (db, NoReading)
  end.

End MeterPoller.

(** *** [services/energy_poller.py] *)

Module EnergyPoller.

Import Models.

Record t : Type := mkPoller {
  meters : gmap string Meter;
  tasks : gmap string nat;
  running : bool;
  event_loop : gmap nat task;
  next_handle : nat
}.

Definition add_meter (meter : Meter) (p : t) : t :=
  let meters' := <[meter_id meter := meter]> (meters p) in
  if enabled meter && running p then
    {| meters := meters';
       tasks := <[meter_id meter := next_handle p]> (tasks p);
       running := running p;
       event_loop := <[next_handle p := {| polled := meter; status := Running |}]>
                       (event_loop p);
       next_handle := S (next_handle p) |}
  else
    {| meters := meters';
       tasks := tasks p;
       running := running p;
       event_loop := event_loop p;
       next_handle := next_handle p |}.

Definition remove_meter (mid : string) (p : t) : t :=
  let p1 :=
    match tasks p !! mid with
    | Some h =>
        {| meters := meters p;
           tasks := delete mid (tasks p);
           running := running p;
           event_loop := alter cancel_and_await h (event_loop p);
           next_handle := next_handle p |}
    | None => p
    end in
  match meters p1 !! mid with
  | Some _ =>
      {| meters := delete mid (meters p1);
         tasks := tasks p1;
         running := running p1;
         event_loop := event_loop p1;
         next_handle := next_handle p1 |}
  | None => p1
  end.

Definition update_meter (mid : string) (meter : Meter) (p : t) : t :=
  add_meter meter (remove_meter mid p).

Definition max_failures : Z := 5.

Definition poll_round (meter : Meter) (consecutive_failures : Z) (o : outcome)
    : Q * Z :=
  let consecutive_failures :=
    match o with
    | Stored => 0
    | NoReading => consecutive_failures + 1
    | Failed => consecutive_failures + 1
    end in
  if max_failures <=? consecutive_failures then (60%Q, 0)
  else (energy_poll_interval meter, consecutive_failures).

Fixpoint poll_from (is_running : bool) (meter : Meter) (consecutive_failures : Z)
    (outcomes : list outcome) : list Q * Z :=
  match outcomes with
  | [] => ([], consecutive_failures)
  | o :: rest =>
      if is_running && enabled meter then
        let '(slept, consecutive_failures) := poll_round meter consecutive_failures o in
        let '(sleeps, final) := poll_from is_running meter consecutive_failures rest in
        (slept :: sleeps, final)
      else ([], consecutive_failures)
  end.

Definition _poll_energy (is_running : bool) (meter : Meter) (outcomes : list outcome)
    : list Q * Z :=
  poll_from is_running meter 0 outcomes.

Fixpoint load_meters (rows : list Database.meters_row) (p : t) : result t :=
  match rows with
  | [] => Ok p
  | meter_data :: rest =>
      meter ← meter_of_row meter_data;
      load_meters rest (if enabled meter then add_meter meter p else p)
  end.

Definition start (db : Database.store) (p : t) : result t :=
  load_meters (Database.get_all_meters db)
    {| meters := meters p;
       tasks := tasks p;
       running := true;
       event_loop := event_loop p;
       next_handle := next_handle p |}.

Definition stop (p : t) : t :=
  {| meters := meters p;
     tasks := tasks p;
     running := false;
     event_loop :=
       map_fold (fun _ h el => alter cancel_and_await h el) (event_loop p) (tasks p);
     next_handle := next_handle p |}.

(** [EnergyReading(timestamp=..., phase=phase_data.get('phase'), ...)] for
    each entry of [phases]; an entry without a phase fails validation, and
    [except Exception] drops the whole response. *)
Fixpoint phase_readings (meter : Meter) (timestamp : DT.datetime)
    (entries : list phase_entry) : option (list EnergyReading) :=
  match entries with
  | [] => Some []
  | entry :: rest =>
      match entry_phase entry with
      | None => None
      | Some phase =>
          match phase_readings meter timestamp rest with
          | None => None
          | Some readings =>
              Some ({| er_timestamp := timestamp;
                       er_meter_id := meter_id meter;
                       er_phase := phase;
                       er_total_kwh := default 0%Q (entry_accumulatedKWh entry) |}
                    :: readings)
          end
      end
  end.

Definition _fetch_energy_data (meter : Meter) (timestamp : DT.datetime)
    (response : energy_response) : option (list EnergyReading) :=
  match response with
  | EnergyHttpError => None
  | EnergyBody success phase accumulatedKWh phases =>
      if negb success then None
      else
        match phase with
        | Some p =>
            Some [ {| er_timestamp := timestamp;
                      er_meter_id := meter_id meter;
                      er_phase := p;
                      er_total_kwh := default 0%Q accumulatedKWh |} ]
        | None =>
            match phases with
            | Some entries =>
                match phase_readings meter timestamp entries with
                | Some (reading :: readings) => Some (reading :: readings)
                | _ => None
                end
            | None => None
            end
        end
  end.

(** One pass through the [try] block of [_poll_energy] on a store that
    accepts the inserts. *)
Definition poll_once (meter : Meter) (timestamp : DT.datetime)
    (response : energy_response) (db : Database.store) : Database.store * outcome :=
  match _fetch_energy_data meter timestamp response with
  | Some readings =>
      (fold_left (fun s reading => Database.store_energy_reading reading s) readings db,
       Stored)
  | None => (db, NoReading)
  end.

End EnergyPoller.

(** ** [services/websocket_manager.py] *)

Module WebSocketManager.

(** [active_connections]: device id to the list of its sockets.  A socket
    is known by its identity, a number here. *)
Record t : Type := mkManager {
  active_connections : gmap string (list nat)
}.

(** [connect], once [websocket.accept()] has returned. *)
Definition connect (websocket : nat) (meter_id : string) (m : t) : t :=
  let connections := default [] (active_connections m !! meter_id) in
  {| active_connections :=
       <[meter_id := (connections ++ [websocket])%list]> (active_connections m) |}.

(** [list.remove(x)]: drops the first element equal to [x]. *)
Fixpoint list_remove (x : nat) (l : list nat) : list nat :=
  match l with
  | [] => []
  | h :: rest => if (h =? x)%nat then rest else h :: list_remove x rest
  end.

Definition disconnect (websocket : nat) (meter_id : string) (m : t) : t :=
  match active_connections m !! meter_id with
  | Some connections =>
      let connections :=
        if existsb (Nat.eqb websocket) connections
        then list_remove websocket connections
        else connections in
      match connections with
      | [] => {| active_connections := delete meter_id (active_connections m) |}
      | _ :: _ =>
          {| active_connections := <[meter_id := connections]> (active_connections m) |}
      end
  | None => m
  end.

(** The sockets of [connections] whose [send_json] raised; [send_ok n]
    tells whether the [n]-th send of the broadcast went through. *)
Fixpoint failed_sends (send_ok : nat -> bool) (n : nat) (connections : list nat)
    : list nat :=
  match connections with
  | [] => []
  | connection :: rest =>
      if send_ok n then failed_sends send_ok (S n) rest
      else connection :: failed_sends send_ok (S n) rest
  end.

Definition broadcast_to_meter (send_ok : nat -> bool) (meter_id : string) (m : t) : t :=
  match active_connections m !! meter_id with
  | Some connections =>
      let disconnected := failed_sends send_ok 0 connections in
      fold_left (fun m connection => disconnect connection meter_id m) disconnected m
  | None => m
  end.

(** [sum(len(clients) for clients in active_connections.values())] of
    [/health/resources]. *)
Definition websocket_clients (m : t) : nat :=
  map_fold (fun _ clients total => (length clients + total)%nat) 0%nat
    (active_connections m).

End WebSocketManager.

(** ** [main.py]: registration path *)

Module Main.

Record app : Type := mkApp {
  db : Database.store;
  poller : MeterPoller.t;
  energy_poller : EnergyPoller.t
}.

(** [POST /api/meters/register] *)
Definition register_meter (now : DT.datetime) (meter : Models.Meter) (a : app) : app :=
  {| db := Database.register_meter now meter (db a);
     poller := MeterPoller.add_meter meter (poller a);
     energy_poller := EnergyPoller.add_meter meter (energy_poller a) |}.

(** [PUT /api/meters/{meter_id}] *)
Definition update_meter (mid : string) (meter : Models.Meter) (a : app) : app :=
  {| db := Database.update_meter mid meter (db a);
     poller := MeterPoller.update_meter mid meter (poller a);
     energy_poller := EnergyPoller.update_meter mid meter (energy_poller a) |}.

(** [DELETE /api/meters/{meter_id}] *)
Definition delete_meter (mid : string) (a : app) : app :=
  {| db := Database.delete_meter mid (db a);
     poller := MeterPoller.remove_meter mid (poller a);
     energy_poller := EnergyPoller.remove_meter mid (energy_poller a) |}.

(** What a handler hands back: its return value or the status code of the
    [HTTPException] it raises. *)
Inductive response (A : Type) : Type :=
| Returned (a : A)
| HTTPException (status_code : Z).

Arguments Returned {A} a.
Arguments HTTPException {A} status_code.

(** [GET /api/meters/{meter_id}] *)
Definition get_meter (mid : string) (a : app) : response Database.meters_row :=
  match Database.get_meter (db a) mid with
  | Some meter => Returned meter
  | None => HTTPException 404
  end.

(** [GET /api/meters/{meter_id}/latest] *)
Definition get_latest_reading (mid : string) (a : app) : response Database.reading_out :=
  match Database.get_latest_reading (db a) mid with
  | Some reading => Returned reading
  | None => HTTPException 404
  end.

(** [GET /api/meters/{meter_id}/energy/latest] *)
Definition get_latest_energy_reading (mid : string) (phase : option string) (a : app)
    : response Database.energy_row :=
  match Database.get_latest_energy_reading (db a) mid phase with
  | Some reading => Returned reading
  | None => HTTPException 404
  end.

(** [settings.get('min_free_space_gb', 1.0)] of [maintenance_task], on the
    dict [db.get_settings()] returned. *)
Definition maintenance_min_free_gb (table : gmap string (Database.py_value * DT.datetime))
    : Database.py_value :=
  default (Database.PyFloat 1) (Database.get_settings table !! "min_free_space_gb").

End Main.

(** * Properties *)

(** ** Registration (store frame) *)

Section Registration.

Import Models.

Definition sample_meter : Meter :=
  {| meter_id := "meter_001";
     ip_address := "192.168.1.100";
     name := Some "Main Panel";
     location := Some "Garage";
     enabled := true;
     poll_interval := 1%Q;
     energy_poll_interval := 30%Q |}.

Definition empty_store : Database.store :=
  {| Database.meters := ∅;
     Database.readings := [];
     Database.next_reading_id := 1;
     Database.energy_readings := [] |}.

(** 2024-01-01 00:00:00, the reference instant of the sample data. *)
Definition T0 : DT.datetime := 1704067200000000.

Definition idle_meter_poller : MeterPoller.t :=
  {| MeterPoller.meters := ∅;
     MeterPoller.tasks := ∅;
     MeterPoller.running := true;
     MeterPoller.event_loop := ∅;
     MeterPoller.next_handle := 0 |}.

Definition idle_energy_poller : EnergyPoller.t :=
  {| EnergyPoller.meters := ∅;
     EnergyPoller.tasks := ∅;
     EnergyPoller.running := true;
     EnergyPoller.event_loop := ∅;
     EnergyPoller.next_handle := 0 |}.

Definition fresh_app : Main.app :=
  {| Main.db := empty_store;
     Main.poller := idle_meter_poller;
     Main.energy_poller := idle_energy_poller |}.

Lemma register_meter_lookup now meter s :
  Database.meters (Database.register_meter now meter s) !! meter_id meter =
  Some match Database.meters s !! meter_id meter with
       | Some old =>
           {| Database.c_meter_id := Database.c_meter_id old;
              Database.c_ip_address := ip_address meter;
              Database.c_name := Database.c_name old;
              Database.c_location := Database.c_location old;
              Database.c_enabled := Database.c_enabled old;
              Database.c_poll_interval := Database.c_poll_interval old;
              Database.c_energy_poll_interval := Database.c_energy_poll_interval old;
              Database.c_last_seen := Some now;
              Database.c_created_at := Database.c_created_at old |}
       | None =>
           {| Database.c_meter_id := meter_id meter;
              Database.c_ip_address := ip_address meter;
              Database.c_name := name meter;
              Database.c_location := location meter;
              Database.c_enabled := if enabled meter then 1 else 0;
              Database.c_poll_interval := poll_interval meter;
              Database.c_energy_poll_interval := energy_poll_interval meter;
              Database.c_last_seen := Some now;
              Database.c_created_at := now |}
       end.
Proof.
  unfold Database.register_meter; cbn [Database.meters].
  now rewrite lookup_insert_eq.
Qed.

Lemma register_meter_other now meter s other :
  other ≠ meter_id meter ->
  Database.meters (Database.register_meter now meter s) !! other =
  Database.meters s !! other.
Proof.
  intros Hne. unfold Database.register_meter; cbn [Database.meters].
  now rewrite lookup_insert_ne.
Qed.

(** C10. Registering a meter whose id is already in the store rewrites
    only [ip_address] and [last_seen] of its row; [name], [location],
    [enabled], [poll_interval] and [energy_poll_interval] (and the key and
    [created_at]) keep their stored values, and every other row of
    [meters] is untouched. *)
Theorem reregistration_updates_only_address_and_last_seen :
  forall (now : DT.datetime) (meter : Meter) (a : Main.app) (old : Database.meters_row),
    Database.get_meter (Main.db a) (meter_id meter) = Some old ->
    (exists new,
        Database.get_meter (Main.db (Main.register_meter now meter a)) (meter_id meter)
        = Some new
        /\ Database.c_ip_address new = ip_address meter
        /\ Database.c_last_seen new = Some now
        /\ Database.c_name new = Database.c_name old
        /\ Database.c_location new = Database.c_location old
        /\ Database.c_enabled new = Database.c_enabled old
        /\ Database.c_poll_interval new = Database.c_poll_interval old
        /\ Database.c_energy_poll_interval new = Database.c_energy_poll_interval old
        /\ Database.c_meter_id new = Database.c_meter_id old
        /\ Database.c_created_at new = Database.c_created_at old)
    /\ (forall other, other ≠ meter_id meter ->
          Database.get_meter (Main.db (Main.register_meter now meter a)) other
          = Database.get_meter (Main.db a) other).
Proof.
  intros now meter a old Hold. unfold Database.get_meter in *.
  cbn [Main.register_meter Main.db]. split.
  - rewrite register_meter_lookup, Hold.
    eexists; split; [reflexivity|]. cbn. repeat split.
  - intros other Hne. now apply register_meter_other.
Qed.

Definition renamed_meter : Meter :=
  {| meter_id := "meter_001";
     ip_address := "192.168.1.77";
     name := Some "Renamed";
     location := None;
     enabled := false;
     poll_interval := 5%Q;
     energy_poll_interval := 60%Q |}.

Lemma reregistration_updates_only_address_and_last_seen_witness :
  exists new,
    Database.get_meter
      (Main.db (Main.register_meter 2000000 renamed_meter
                  (Main.register_meter 1000000 sample_meter fresh_app)))
      "meter_001" = Some new
    /\ Database.c_ip_address new = "192.168.1.77"
    /\ Database.c_name new = Some "Main Panel"
    /\ Database.c_enabled new = 1.
Proof.
  destruct (reregistration_updates_only_address_and_last_seen
              2000000 renamed_meter
              (Main.register_meter 1000000 sample_meter fresh_app)
              {| Database.c_meter_id := "meter_001";
                 Database.c_ip_address := "192.168.1.100";
                 Database.c_name := Some "Main Panel";
                 Database.c_location := Some "Garage";
                 Database.c_enabled := 1;
                 Database.c_poll_interval := 1%Q;
                 Database.c_energy_poll_interval := 30%Q;
                 Database.c_last_seen := Some 1000000;
                 Database.c_created_at := 1000000 |})
    as [[new (Hn & Hip & _ & Hname & _ & Hen & _)] _].
  - vm_compute. reflexivity.
  - exists new. repeat split; assumption.
Defined.

End Registration.

(** ** Poller supervisor: removal *)

Section Removal.

Import Models.

Lemma meter_remove_no_task mid (p : MeterPoller.t) :
  MeterPoller.tasks p !! mid = None ->
  MeterPoller.tasks (MeterPoller.remove_meter mid p) = MeterPoller.tasks p
  /\ MeterPoller.event_loop (MeterPoller.remove_meter mid p) = MeterPoller.event_loop p
  /\ MeterPoller.running (MeterPoller.remove_meter mid p) = MeterPoller.running p
  /\ MeterPoller.next_handle (MeterPoller.remove_meter mid p) = MeterPoller.next_handle p
  /\ MeterPoller.meters (MeterPoller.remove_meter mid p) = delete mid (MeterPoller.meters p).
Proof.
  intros Ht. unfold MeterPoller.remove_meter. rewrite Ht.
  destruct (MeterPoller.meters p !! mid) eqn:Hm; cbn; repeat split; try reflexivity.
  symmetry. now apply delete_id.
Qed.

Lemma meter_remove_task mid h (p : MeterPoller.t) :
  MeterPoller.tasks p !! mid = Some h ->
  MeterPoller.tasks (MeterPoller.remove_meter mid p) = delete mid (MeterPoller.tasks p)
  /\ MeterPoller.event_loop (MeterPoller.remove_meter mid p)
     = alter cancel_and_await h (MeterPoller.event_loop p)
  /\ MeterPoller.running (MeterPoller.remove_meter mid p) = MeterPoller.running p
  /\ MeterPoller.next_handle (MeterPoller.remove_meter mid p) = MeterPoller.next_handle p
  /\ MeterPoller.meters (MeterPoller.remove_meter mid p) = delete mid (MeterPoller.meters p).
Proof.
  intros Ht. unfold MeterPoller.remove_meter. rewrite Ht. cbn.
  destruct (MeterPoller.meters p !! mid) eqn:Hm; cbn; repeat split; try reflexivity.
  symmetry. now apply delete_id.
Qed.

Lemma meter_poller_eq (p q : MeterPoller.t) :
  MeterPoller.meters p = MeterPoller.meters q ->
  MeterPoller.tasks p = MeterPoller.tasks q ->
  MeterPoller.running p = MeterPoller.running q ->
  MeterPoller.event_loop p = MeterPoller.event_loop q ->
  MeterPoller.next_handle p = MeterPoller.next_handle q ->
  p = q.
Proof. destruct p, q; cbn; intros; subst; reflexivity. Qed.

Lemma meter_remove_twice mid (p : MeterPoller.t) :
  MeterPoller.remove_meter mid (MeterPoller.remove_meter mid p)
  = MeterPoller.remove_meter mid p.
Proof.
  assert (Hgone : MeterPoller.tasks (MeterPoller.remove_meter mid p) !! mid = None).
  { destruct (MeterPoller.tasks p !! mid) as [h|] eqn:Ht.
    - destruct (meter_remove_task mid h p Ht) as (-> & _). apply lookup_delete_eq.
    - destruct (meter_remove_no_task mid p Ht) as (-> & _). exact Ht. }
  destruct (meter_remove_no_task mid _ Hgone) as (H1 & H2 & H3 & H4 & H5).
  apply meter_poller_eq; try assumption.
  rewrite H5.
  assert (Hm : MeterPoller.meters (MeterPoller.remove_meter mid p)
               = delete mid (MeterPoller.meters p)).
  { destruct (MeterPoller.tasks p !! mid) as [h|] eqn:Ht.
    - now destruct (meter_remove_task mid h p Ht) as (_ & _ & _ & _ & ->).
    - now destruct (meter_remove_no_task mid p Ht) as (_ & _ & _ & _ & ->). }
  rewrite Hm. apply delete_id, lookup_delete_eq.
Qed.

Lemma energy_remove_no_task mid (p : EnergyPoller.t) :
  EnergyPoller.tasks p !! mid = None ->
  EnergyPoller.tasks (EnergyPoller.remove_meter mid p) = EnergyPoller.tasks p
  /\ EnergyPoller.event_loop (EnergyPoller.remove_meter mid p) = EnergyPoller.event_loop p
  /\ EnergyPoller.running (EnergyPoller.remove_meter mid p) = EnergyPoller.running p
  /\ EnergyPoller.next_handle (EnergyPoller.remove_meter mid p) = EnergyPoller.next_handle p
  /\ EnergyPoller.meters (EnergyPoller.remove_meter mid p) = delete mid (EnergyPoller.meters p).
Proof.
  intros Ht. unfold EnergyPoller.remove_meter. rewrite Ht.
  destruct (EnergyPoller.meters p !! mid) eqn:Hm; cbn; repeat split; try reflexivity.
  symmetry. now apply delete_id.
Qed.

Lemma energy_remove_task mid h (p : EnergyPoller.t) :
  EnergyPoller.tasks p !! mid = Some h ->
  EnergyPoller.tasks (EnergyPoller.remove_meter mid p) = delete mid (EnergyPoller.tasks p)
  /\ EnergyPoller.event_loop (EnergyPoller.remove_meter mid p)
     = alter cancel_and_await h (EnergyPoller.event_loop p)
  /\ EnergyPoller.running (EnergyPoller.remove_meter mid p) = EnergyPoller.running p
  /\ EnergyPoller.next_handle (EnergyPoller.remove_meter mid p) = EnergyPoller.next_handle p
  /\ EnergyPoller.meters (EnergyPoller.remove_meter mid p) = delete mid (EnergyPoller.meters p).
Proof.
  intros Ht. unfold EnergyPoller.remove_meter. rewrite Ht. cbn.
  destruct (EnergyPoller.meters p !! mid) eqn:Hm; cbn; repeat split; try reflexivity.
  symmetry. now apply delete_id.
Qed.

Lemma energy_poller_eq (p q : EnergyPoller.t) :
  EnergyPoller.meters p = EnergyPoller.meters q ->
  EnergyPoller.tasks p = EnergyPoller.tasks q ->
  EnergyPoller.running p = EnergyPoller.running q ->
  EnergyPoller.event_loop p = EnergyPoller.event_loop q ->
  EnergyPoller.next_handle p = EnergyPoller.next_handle q ->
  p = q.
Proof. destruct p, q; cbn; intros; subst; reflexivity. Qed.

Lemma energy_remove_twice mid (p : EnergyPoller.t) :
  EnergyPoller.remove_meter mid (EnergyPoller.remove_meter mid p)
  = EnergyPoller.remove_meter mid p.
Proof.
  assert (Hgone : EnergyPoller.tasks (EnergyPoller.remove_meter mid p) !! mid = None).
  { destruct (EnergyPoller.tasks p !! mid) as [h|] eqn:Ht.
    - destruct (energy_remove_task mid h p Ht) as (-> & _). apply lookup_delete_eq.
    - destruct (energy_remove_no_task mid p Ht) as (-> & _). exact Ht. }
  destruct (energy_remove_no_task mid _ Hgone) as (H1 & H2 & H3 & H4 & H5).
  apply energy_poller_eq; try assumption.
  rewrite H5.
  assert (Hm : EnergyPoller.meters (EnergyPoller.remove_meter mid p)
               = delete mid (EnergyPoller.meters p)).
  { destruct (EnergyPoller.tasks p !! mid) as [h|] eqn:Ht.
    - now destruct (energy_remove_task mid h p Ht) as (_ & _ & _ & _ & ->).
    - now destruct (energy_remove_no_task mid p Ht) as (_ & _ & _ & _ & ->). }
  rewrite Hm. apply delete_id, lookup_delete_eq.
Qed.

(** A meter registered while disabled: it sits in the meter map and has
    no task. *)
Definition disabled_meter : Meter :=
  {| meter_id := "meter_002";
     ip_address := "192.168.1.101";
     name := None;
     location := None;
     enabled := false;
     poll_interval := 1%Q;
     energy_poll_interval := 30%Q |}.

(** C9, as stated, fails: with no task for the id, [remove] still deletes
    the id's entry of the meter map. *)
Lemma remove_without_task_changes_meter_map :
  ~ (forall (mid : string) (p : MeterPoller.t),
        MeterPoller.tasks p !! mid = None ->
        MeterPoller.tasks (MeterPoller.remove_meter mid p) = MeterPoller.tasks p
        /\ MeterPoller.meters (MeterPoller.remove_meter mid p) = MeterPoller.meters p).
Proof.
  intros H.
  destruct (H "meter_002" (MeterPoller.add_meter disabled_meter idle_meter_poller)
              eq_refl) as [_ Hm].
  apply (f_equal (fun m => m !! "meter_002")) in Hm.
  vm_compute in Hm. discriminate Hm.
Qed.

(** C9 (amended). With no task for the id, [remove] raises nothing,
    leaves the task map and every task as they are, and only deletes the
    id's entry of the meter map (so it changes nothing at all when the id
    is in neither map).  With a task [h] for the id, [remove] cancels and
    awaits exactly [h], deletes the id from the task map and from the
    meter map.  In both pollers [remove] after [remove] is [remove]. *)
Theorem remove_meter_idempotent :
  (forall (mid : string) (p : MeterPoller.t),
      (MeterPoller.tasks p !! mid = None ->
         MeterPoller.tasks (MeterPoller.remove_meter mid p) = MeterPoller.tasks p
         /\ MeterPoller.event_loop (MeterPoller.remove_meter mid p) = MeterPoller.event_loop p
         /\ MeterPoller.meters (MeterPoller.remove_meter mid p)
            = delete mid (MeterPoller.meters p)
         /\ (MeterPoller.meters p !! mid = None -> MeterPoller.remove_meter mid p = p))
      /\ (forall h, MeterPoller.tasks p !! mid = Some h ->
            MeterPoller.tasks (MeterPoller.remove_meter mid p)
            = delete mid (MeterPoller.tasks p)
            /\ MeterPoller.event_loop (MeterPoller.remove_meter mid p)
               = alter cancel_and_await h (MeterPoller.event_loop p)
            /\ MeterPoller.meters (MeterPoller.remove_meter mid p)
               = delete mid (MeterPoller.meters p))
      /\ MeterPoller.remove_meter mid (MeterPoller.remove_meter mid p)
         = MeterPoller.remove_meter mid p)
  /\ (forall (mid : string) (p : EnergyPoller.t),
      (EnergyPoller.tasks p !! mid = None ->
         EnergyPoller.tasks (EnergyPoller.remove_meter mid p) = EnergyPoller.tasks p
         /\ EnergyPoller.event_loop (EnergyPoller.remove_meter mid p) = EnergyPoller.event_loop p
         /\ EnergyPoller.meters (EnergyPoller.remove_meter mid p)
            = delete mid (EnergyPoller.meters p)
         /\ (EnergyPoller.meters p !! mid = None -> EnergyPoller.remove_meter mid p = p))
      /\ (forall h, EnergyPoller.tasks p !! mid = Some h ->
            EnergyPoller.tasks (EnergyPoller.remove_meter mid p)
            = delete mid (EnergyPoller.tasks p)
            /\ EnergyPoller.event_loop (EnergyPoller.remove_meter mid p)
               = alter cancel_and_await h (EnergyPoller.event_loop p)
            /\ EnergyPoller.meters (EnergyPoller.remove_meter mid p)
               = delete mid (EnergyPoller.meters p))
      /\ EnergyPoller.remove_meter mid (EnergyPoller.remove_meter mid p)
         = EnergyPoller.remove_meter mid p).
Proof.
  split; intros mid p; (split; [|split]).
  - intros Ht. destruct (meter_remove_no_task mid p Ht) as (H1 & H2 & H3 & H4 & H5).
    repeat split; try assumption.
    intros Hm. apply meter_poller_eq; try assumption.
    rewrite H5. now apply delete_id.
  - intros h Ht. destruct (meter_remove_task mid h p Ht) as (H1 & H2 & _ & _ & H5).
    repeat split; assumption.
  - apply meter_remove_twice.
  - intros Ht. destruct (energy_remove_no_task mid p Ht) as (H1 & H2 & H3 & H4 & H5).
    repeat split; try assumption.
    intros Hm. apply energy_poller_eq; try assumption.
    rewrite H5. now apply delete_id.
  - intros h Ht. destruct (energy_remove_task mid h p Ht) as (H1 & H2 & _ & _ & H5).
    repeat split; assumption.
  - apply energy_remove_twice.
Qed.

(** A running poller with one enabled meter: removing it cancels task 0. *)
Lemma remove_meter_idempotent_witness :
  MeterPoller.tasks
    (MeterPoller.remove_meter "meter_001"
       (MeterPoller.add_meter sample_meter idle_meter_poller))
  = delete "meter_001"
      (MeterPoller.tasks (MeterPoller.add_meter sample_meter idle_meter_poller))
  /\ MeterPoller.event_loop
       (MeterPoller.remove_meter "meter_001"
          (MeterPoller.add_meter sample_meter idle_meter_poller))
     = alter cancel_and_await 0%nat
         (MeterPoller.event_loop (MeterPoller.add_meter sample_meter idle_meter_poller))
  /\ MeterPoller.remove_meter "meter_003" idle_meter_poller = idle_meter_poller.
Proof.
  destruct remove_meter_idempotent as [Hm _].
  destruct (Hm "meter_001" (MeterPoller.add_meter sample_meter idle_meter_poller))
    as (_ & Hsome & _).
  destruct (Hsome 0%nat eq_refl) as (H1 & H2 & _).
  destruct (Hm "meter_003" idle_meter_poller) as (Hnone & _ & _).
  destruct (Hnone eq_refl) as (_ & _ & _ & Hid).
  split; [exact H1 | split; [exact H2 | apply Hid; reflexivity]].
Defined.

End Removal.

(** ** Poll loops: back-off after repeated failures *)

Section Backoff.

Import Models.

Definition is_failure (o : outcome) : Prop := o <> Stored.

Lemma meter_round_stored meter c :
  MeterPoller.poll_round meter c Stored = (poll_interval meter, 0).
Proof. reflexivity. Qed.

Lemma meter_round_failure meter c o :
  is_failure o -> 0 <= c < 5 ->
  MeterPoller.poll_round meter c o =
  if c =? 4 then (30%Q, 0) else (poll_interval meter, c + 1).
Proof.
  intros Hf Hc. unfold MeterPoller.poll_round, MeterPoller.max_failures.
  destruct o; [now elim Hf| |];
    (destruct (c =? 4) eqn:E;
     [apply Z.eqb_eq in E; subst; reflexivity
     |apply Z.eqb_neq in E;
      destruct (5 <=? c + 1) eqn:E5; [apply Z.leb_le in E5; lia|reflexivity]]).
Qed.

Lemma energy_round_stored meter c :
  EnergyPoller.poll_round meter c Stored = (energy_poll_interval meter, 0).
Proof. reflexivity. Qed.

Lemma energy_round_failure meter c o :
  is_failure o -> 0 <= c < 5 ->
  EnergyPoller.poll_round meter c o =
  if c =? 4 then (60%Q, 0) else (energy_poll_interval meter, c + 1).
Proof.
  intros Hf Hc. unfold EnergyPoller.poll_round, EnergyPoller.max_failures.
  destruct o; [now elim Hf| |];
    (destruct (c =? 4) eqn:E;
     [apply Z.eqb_eq in E; subst; reflexivity
     |apply Z.eqb_neq in E;
      destruct (5 <=? c + 1) eqn:E5; [apply Z.leb_le in E5; lia|reflexivity]]).
Qed.

(** The counter seen at the head of the loop stays below the threshold. *)
Lemma meter_counter_bounded meter outcomes : forall is_running c,
  0 <= c < 5 -> 0 <= snd (MeterPoller.poll_from is_running meter c outcomes) < 5.
Proof.
  induction outcomes as [|o rest IH]; intros is_running c Hc; cbn [MeterPoller.poll_from].
  - exact Hc.
  - destruct (is_running && enabled meter); [|exact Hc].
    destruct (MeterPoller.poll_round meter c o) as [slept c'] eqn:Er.
    assert (Hc' : 0 <= c' < 5).
    { destruct o.
      - rewrite meter_round_stored in Er. inversion Er; lia.
      - rewrite meter_round_failure in Er by (unfold is_failure; congruence || lia).
        destruct (c =? 4) eqn:E; inversion Er; [lia|apply Z.eqb_neq in E; lia].
      - rewrite meter_round_failure in Er by (unfold is_failure; congruence || lia).
        destruct (c =? 4) eqn:E; inversion Er; [lia|apply Z.eqb_neq in E; lia]. }
    specialize (IH is_running c' Hc').
    destruct (MeterPoller.poll_from is_running meter c' rest) as [sleeps final].
    exact IH.
Qed.

Lemma energy_counter_bounded meter outcomes : forall is_running c,
  0 <= c < 5 -> 0 <= snd (EnergyPoller.poll_from is_running meter c outcomes) < 5.
Proof.
  induction outcomes as [|o rest IH]; intros is_running c Hc; cbn [EnergyPoller.poll_from].
  - exact Hc.
  - destruct (is_running && enabled meter); [|exact Hc].
    destruct (EnergyPoller.poll_round meter c o) as [slept c'] eqn:Er.
    assert (Hc' : 0 <= c' < 5).
    { destruct o.
      - rewrite energy_round_stored in Er. inversion Er; lia.
      - rewrite energy_round_failure in Er by (unfold is_failure; congruence || lia).
        destruct (c =? 4) eqn:E; inversion Er; [lia|apply Z.eqb_neq in E; lia].
      - rewrite energy_round_failure in Er by (unfold is_failure; congruence || lia).
        destruct (c =? 4) eqn:E; inversion Er; [lia|apply Z.eqb_neq in E; lia]. }
    specialize (IH is_running c' Hc').
    destruct (EnergyPoller.poll_from is_running meter c' rest) as [sleeps final].
    exact IH.
Qed.

Lemma meter_failed_round meter c f rest :
  enabled meter = true -> is_failure f -> 0 <= c < 5 ->
  MeterPoller.poll_from true meter c (f :: rest) =
  if c =? 4
  then (30%Q :: fst (MeterPoller.poll_from true meter 0 rest),
        snd (MeterPoller.poll_from true meter 0 rest))
  else (poll_interval meter :: fst (MeterPoller.poll_from true meter (c + 1) rest),
        snd (MeterPoller.poll_from true meter (c + 1) rest)).
Proof.
  intros Hen Hf Hc. cbn [MeterPoller.poll_from]. rewrite Hen. cbn [andb].
  rewrite (meter_round_failure meter c f Hf Hc).
  destruct (c =? 4).
  - destruct (MeterPoller.poll_from true meter 0 rest); reflexivity.
  - destruct (MeterPoller.poll_from true meter (c + 1) rest); reflexivity.
Qed.

Lemma energy_failed_round meter c f rest :
  enabled meter = true -> is_failure f -> 0 <= c < 5 ->
  EnergyPoller.poll_from true meter c (f :: rest) =
  if c =? 4
  then (60%Q :: fst (EnergyPoller.poll_from true meter 0 rest),
        snd (EnergyPoller.poll_from true meter 0 rest))
  else (energy_poll_interval meter :: fst (EnergyPoller.poll_from true meter (c + 1) rest),
        snd (EnergyPoller.poll_from true meter (c + 1) rest)).
Proof.
  intros Hen Hf Hc. cbn [EnergyPoller.poll_from]. rewrite Hen. cbn [andb].
  rewrite (energy_round_failure meter c f Hf Hc).
  destruct (c =? 4).
  - destruct (EnergyPoller.poll_from true meter 0 rest); reflexivity.
  - destruct (EnergyPoller.poll_from true meter (c + 1) rest); reflexivity.
Qed.

Lemma five_failures (fails : list outcome) :
  length fails = 5%nat -> Forall is_failure fails ->
  exists f1 f2 f3 f4 f5,
    fails = [f1; f2; f3; f4; f5]
    /\ is_failure f1 /\ is_failure f2 /\ is_failure f3 /\ is_failure f4 /\ is_failure f5.
Proof.
  intros Hlen Hall.
  do 5 (destruct fails as [|? fails]; [discriminate Hlen|]).
  destruct fails; [|discriminate Hlen].
  repeat match goal with H : Forall _ (_ :: _) |- _ => inversion H; clear H; subst end.
  do 5 eexists. repeat split; eassumption.
Qed.

(** C7. In both poll loops the failure counter seen at the head of the
    loop stays in 0..4; a stored sample resets it and is followed by the
    normal interval; starting from a fresh or reset counter, five failures
    in a row sleep the normal interval four times and then the fixed
    back-off (30 s for instantaneous polling, 60 s for energy polling),
    which leaves the counter at zero, so the next round sleeps the normal
    interval again. *)
Theorem backoff_after_five_consecutive_failures :
  forall meter : Meter, enabled meter = true ->
    (forall outcomes,
        0 <= snd (MeterPoller._poll_meter true meter outcomes) < 5)
    /\ (forall c, MeterPoller.poll_round meter c Stored = (poll_interval meter, 0))
    /\ (forall fails rest,
          length fails = 5%nat -> Forall is_failure fails ->
          MeterPoller._poll_meter true meter (fails ++ rest)
          = (let p := poll_interval meter in
             [p; p; p; p; 30%Q] ++ fst (MeterPoller._poll_meter true meter rest),
             snd (MeterPoller._poll_meter true meter rest)))
    /\ (forall o, fst (MeterPoller.poll_round meter 0 o) = poll_interval meter)
    /\ (forall outcomes,
          0 <= snd (EnergyPoller._poll_energy true meter outcomes) < 5)
    /\ (forall c, EnergyPoller.poll_round meter c Stored = (energy_poll_interval meter, 0))
    /\ (forall fails rest,
          length fails = 5%nat -> Forall is_failure fails ->
          EnergyPoller._poll_energy true meter (fails ++ rest)
          = (let p := energy_poll_interval meter in
             [p; p; p; p; 60%Q] ++ fst (EnergyPoller._poll_energy true meter rest),
             snd (EnergyPoller._poll_energy true meter rest)))
    /\ (forall o, fst (EnergyPoller.poll_round meter 0 o) = energy_poll_interval meter).
Proof.
  intros meter Hen. repeat apply conj.
  - intros outcomes. apply meter_counter_bounded. lia.
  - apply meter_round_stored.
  - intros fails rest Hlen Hall.
    destruct (five_failures fails Hlen Hall)
      as (f1 & f2 & f3 & f4 & f5 & -> & H1 & H2 & H3 & H4 & H5).
    unfold MeterPoller._poll_meter. cbn [app].
    rewrite (meter_failed_round meter 0 f1) by (assumption || lia).
    change (0 =? 4) with false. change (0 + 1) with 1. cbn [fst snd].
    rewrite (meter_failed_round meter 1 f2) by (assumption || lia).
    change (1 =? 4) with false. change (1 + 1) with 2. cbn [fst snd].
    rewrite (meter_failed_round meter 2 f3) by (assumption || lia).
    change (2 =? 4) with false. change (2 + 1) with 3. cbn [fst snd].
    rewrite (meter_failed_round meter 3 f4) by (assumption || lia).
    change (3 =? 4) with false. change (3 + 1) with 4. cbn [fst snd].
    rewrite (meter_failed_round meter 4 f5) by (assumption || lia).
    change (4 =? 4) with true. cbn [fst snd]. reflexivity.
  - intros o. destruct o; reflexivity.
  - intros outcomes. apply energy_counter_bounded. lia.
  - apply energy_round_stored.
  - intros fails rest Hlen Hall.
    destruct (five_failures fails Hlen Hall)
      as (f1 & f2 & f3 & f4 & f5 & -> & H1 & H2 & H3 & H4 & H5).
    unfold EnergyPoller._poll_energy. cbn [app].
    rewrite (energy_failed_round meter 0 f1) by (assumption || lia).
    change (0 =? 4) with false. change (0 + 1) with 1. cbn [fst snd].
    rewrite (energy_failed_round meter 1 f2) by (assumption || lia).
    change (1 =? 4) with false. change (1 + 1) with 2. cbn [fst snd].
    rewrite (energy_failed_round meter 2 f3) by (assumption || lia).
    change (2 =? 4) with false. change (2 + 1) with 3. cbn [fst snd].
    rewrite (energy_failed_round meter 3 f4) by (assumption || lia).
    change (3 =? 4) with false. change (3 + 1) with 4. cbn [fst snd].
    rewrite (energy_failed_round meter 4 f5) by (assumption || lia).
    change (4 =? 4) with true. cbn [fst snd]. reflexivity.
  - intros o. destruct o; reflexivity.
Qed.

(** Five failed polls of the sample meter, then a stored sample. *)
Lemma backoff_after_five_consecutive_failures_witness :
  MeterPoller._poll_meter true sample_meter
    ([NoReading; Failed; Failed; NoReading; Failed] ++ [Stored])
  = ([1%Q; 1%Q; 1%Q; 1%Q; 30%Q] ++ [1%Q], 0)
  /\ EnergyPoller._poll_energy true sample_meter
       ([Failed; Failed; NoReading; NoReading; Failed] ++ [Stored])
     = ([30%Q; 30%Q; 30%Q; 30%Q; 60%Q] ++ [30%Q], 0).
Proof.
  destruct (backoff_after_five_consecutive_failures sample_meter eq_refl)
    as (_ & _ & Hm & _ & _ & _ & He & _).
  split.
  - apply (Hm [NoReading; Failed; Failed; NoReading; Failed] [Stored]); [reflexivity|].
    repeat constructor; unfold is_failure; discriminate.
  - apply (He [Failed; Failed; NoReading; NoReading; Failed] [Stored]); [reflexivity|].
    repeat constructor; unfold is_failure; discriminate.
Defined.

End Backoff.

(** ** Calendar arithmetic *)

Ltac split_ifs :=
  repeat match goal with
         | |- context [if ?b then _ else _] => destruct b eqn:?
         | H : context [if ?b then _ else _] |- _ => destruct b eqn:?
         end.

Ltac zbool :=
  repeat match goal with
         | H : (_ <=? _) = true |- _ => apply Z.leb_le in H
         | H : (_ <=? _) = false |- _ => apply Z.leb_gt in H
         | H : (_ <? _) = true |- _ => apply Z.ltb_lt in H
         | H : (_ <? _) = false |- _ => apply Z.ltb_ge in H
         | H : (_ >? _) = true |- _ => apply Z.gtb_lt in H
         | H : (_ >? _) = false |- _ => rewrite Z.gtb_ltb in H; apply Z.ltb_ge in H
         | H : (_ =? _) = true |- _ => apply Z.eqb_eq in H
         | H : (_ =? _) = false |- _ => apply Z.eqb_neq in H
         end.


Section Calendar.

Lemma civil_roundtrip z :
  DT.days_from_civil (fst (fst (DT.civil_from_days z))) (snd (fst (DT.civil_from_days z)))
                     (snd (DT.civil_from_days z)) = z.
Proof.
  unfold DT.civil_from_days, DT.days_from_civil. cbv zeta. cbn [fst snd].
  (split_ifs; zbool; Z.div_mod_to_equations; lia).
Qed.

Lemma civil_fields z :
  1 <= snd (fst (DT.civil_from_days z)) <= 12 /\ 1 <= snd (DT.civil_from_days z) <= 31.
Proof.
  unfold DT.civil_from_days. cbv zeta. cbn [fst snd].
  (split_ifs; zbool; Z.div_mod_to_equations; lia).
Qed.

Lemma yoe_recover yoe doy :
  0 <= yoe < 400 -> 0 <= doy <= 364 ->
  let doe := yoe * 365 + yoe / 4 - yoe / 100 + doy in
  (doe - doe / 1460 + doe / 36524 - doe / 146096) / 365 = yoe.
Proof.
  intros Hy Hd doe. subst doe.
  (Z.div_mod_to_equations; lia).
Qed.

Lemma civil_of_first y m :
  1 <= m <= 12 -> DT.civil_from_days (DT.days_from_civil y m 1) = (y, m, 1).
Proof.
  intros Hm.
  pose (y' := if m <=? 2 then y - 1 else y).
  pose (era := y' / 400).
  pose (yoe := y' - era * 400).
  pose (mp := if m >? 2 then m - 3 else m + 9).
  pose (doy := (153 * mp + 2) / 5).
  pose (doe := yoe * 365 + yoe / 4 - yoe / 100 + doy).
  assert (Hyoe : 0 <= yoe < 400) by (subst yoe era; Z.div_mod_to_equations; lia).
  assert (Hmp : 0 <= mp <= 11 /\ (mp < 10 -> m = mp + 3) /\ (10 <= mp -> m = mp - 9))
    by (subst mp; destruct (m >? 2) eqn:E; zbool; lia).
  assert (Hdoy : 0 <= doy <= 364) by (subst doy; Z.div_mod_to_equations; lia).
  assert (Hz : DT.days_from_civil y m 1 + 719468 = era * 146097 + doe).
  { unfold DT.days_from_civil. cbv zeta. fold y'. fold era. fold yoe. fold mp.
    subst doe doy. lia. }
  assert (Hdoe : 0 <= doe < 146097) by (subst doe; Z.div_mod_to_equations; lia).
  unfold DT.civil_from_days. cbv zeta. rewrite Hz.
  assert (E1 : (era * 146097 + doe) / 146097 = era) by (Z.div_mod_to_equations; lia).
  rewrite E1.
  replace (era * 146097 + doe - era * 146097) with doe by lia.
  assert (E2 : (doe - doe / 1460 + doe / 36524 - doe / 146096) / 365 = yoe)
    by (apply (yoe_recover yoe doy Hyoe Hdoy)).
  rewrite E2.
  replace (doe - (365 * yoe + yoe / 4 - yoe / 100)) with doy by (subst doe; lia).
  assert (E3 : (5 * doy + 2) / 153 = mp) by (subst doy; Z.div_mod_to_equations; lia).
  rewrite E3.
  replace (doy - (153 * mp + 2) / 5 + 1) with 1 by (subst doy; lia).
  destruct Hmp as (Hmp & Hlo & Hhi).
  destruct (mp <? 10) eqn:E; zbool.
  - rewrite <- (Hlo E). destruct (m <=? 2) eqn:E'; zbool; [lia|].
    f_equal. f_equal. subst yoe y'. destruct (m <=? 2) eqn:E''; zbool; lia.
  - rewrite <- (Hhi E). destruct (m <=? 2) eqn:E'; zbool; [|lia].
    f_equal. f_equal. subst yoe y'. destruct (m <=? 2) eqn:E''; zbool; lia.
Qed.

Lemma month_step y m :
  1 <= m <= 12 ->
  DT.days_from_civil y m 1 + 28 <=
  (if m =? 12 then DT.days_from_civil (y + 1) 1 1 else DT.days_from_civil y (m + 1) 1)
  /\ (if m =? 12 then DT.days_from_civil (y + 1) 1 1 else DT.days_from_civil y (m + 1) 1)
     <= DT.days_from_civil y m 1 + 31.
Proof.
  intros Hm.
  assert (Hc : m = 1 \/ m = 2 \/ m = 3 \/ m = 4 \/ m = 5 \/ m = 6 \/ m = 7 \/ m = 8
               \/ m = 9 \/ m = 10 \/ m = 11 \/ m = 12) by lia.
  (repeat (destruct Hc as [-> | Hc]); [..|subst m];
  unfold DT.days_from_civil; cbv zeta;
  change (1 + 1) with 2; change (2 + 1) with 3; change (3 + 1) with 4;
  change (4 + 1) with 5; change (5 + 1) with 6; change (6 + 1) with 7;
  change (7 + 1) with 8; change (8 + 1) with 9; change (9 + 1) with 10;
  change (10 + 1) with 11; change (11 + 1) with 12;
  cbn [Z.eqb Pos.eqb Z.leb Z.gtb Z.compare Pos.compare Pos.compare_cont];
  Z.div_mod_to_equations; lia).
Qed.

Lemma before_next_month z :
  let y := fst (fst (DT.civil_from_days z)) in
  let m := snd (fst (DT.civil_from_days z)) in
  z < (if m =? 12 then DT.days_from_civil (y + 1) 1 1 else DT.days_from_civil y (m + 1) 1).
Proof.
  cbv zeta.
  unfold DT.civil_from_days, DT.days_from_civil. cbv zeta. cbn [fst snd].
  change (1 <=? 2) with true. change (1 >? 2) with false. cbv iota.
  (split_ifs; zbool; try lia; Z.div_mod_to_equations; lia).
Qed.

End Calendar.

(** ** Bucket boundaries of the energy queries *)

Ltac dt_unfold :=
  unfold Database.floor_minute, DT.replace_microsecond, DT.replace_second,
    DT.replace_minute, DT.replace_hour, DT.add_minutes, DT.add_hours, DT.add_days,
    DT.microsecond, DT.second, DT.minute, DT.hour, DT.weekday, DT.timestamp_ms,
    DT.DAY, DT.HOUR, DT.MINUTE, DT.SECOND.

Section Buckets.

Import Database.

Definition bucket_at (next : DT.datetime -> DT.datetime) (keep_start : bool)
    (c : DT.datetime) : bucket :=
  {| start_ms := DT.timestamp_ms c;
     end_ms := DT.timestamp_ms (next c);
     bucket_start := if keep_start then Some c else None |}.

Section BucketLoop.

Variable P : DT.datetime -> Prop.
Variable next : DT.datetime -> DT.datetime.
Variable keep_start : bool.
Variable width : Z.
Hypothesis width_pos : 0 < width.
Hypothesis step : forall c, P c -> c + width <= next c /\ P (next c).

Lemma rounds_step current end_time fuel :
  P current -> current <= end_time ->
  (rounds width current end_time <= fuel)%nat ->
  exists fuel', fuel = S fuel' /\ (rounds width (next current) end_time <= fuel')%nat.
Proof.
  intros HP Hle Hfuel. unfold rounds in *.
  destruct (step current HP) as [Hn _].
  assert (H0 : 0 <= (end_time - current) / width) by (apply Z.div_pos; lia).
  assert (H1 : (end_time - next current) / width + 1 <= (end_time - current) / width).
  { assert ((end_time - next current) / width <= (end_time - current + (-1) * width) / width)
      by (apply Z.div_le_mono; lia).
    rewrite Z.div_add in H by lia. lia. }
  destruct fuel as [|fuel']; [lia|].
  exists fuel'. split; [reflexivity|]. lia.
Qed.

Lemma bucket_loop_spec : forall fuel current end_time,
  P current ->
  (rounds width current end_time <= fuel)%nat ->
  exists cs,
    bucket_loop fuel next keep_start current end_time
    = Ok (List.map (bucket_at next keep_start) cs)
    /\ Forall (fun c => P c /\ current <= c <= end_time) cs
    /\ StronglySorted Z.lt cs.
Proof.
  induction fuel as [|fuel IH]; intros current end_time HP Hfuel.
  - destruct (Z.leb_spec current end_time) as [Hle|Hgt].
    + destruct (rounds_step current end_time 0%nat HP Hle Hfuel) as (f & Hf & _).
      discriminate Hf.
    + exists []. cbn. destruct (Z.leb_spec current end_time); [lia|].
      repeat split; constructor.
  - cbn [bucket_loop].
    destruct (Z.leb_spec current end_time) as [Hle|Hgt].
    + destruct (rounds_step current end_time (S fuel) HP Hle Hfuel) as (f & Hf & Hf').
      injection Hf as <-.
      destruct (step current HP) as [Hn HPn].
      destruct (IH (next current) end_time HPn Hf') as (cs & -> & Hall & Hsorted).
      exists (current :: cs). split; [reflexivity|]. split.
      * constructor; [split; [assumption|lia]|].
        eapply Forall_impl; [exact Hall|]. cbn. intros c [? ?]. split; [assumption|lia].
      * constructor; [assumption|].
        eapply Forall_impl; [exact Hall|]. cbn. intros c [? ?]. lia.
    + exists []. repeat split; constructor.
Qed.

Lemma bucket_loop_more_fuel : forall fuel fuel' current end_time,
  P current ->
  (rounds width current end_time <= fuel)%nat ->
  (rounds width current end_time <= fuel')%nat ->
  bucket_loop fuel next keep_start current end_time
  = bucket_loop fuel' next keep_start current end_time.
Proof.
  induction fuel as [|fuel IH]; intros fuel' current end_time HP Hf Hf'.
  - destruct (Z.leb_spec current end_time) as [Hle|Hgt].
    + destruct (rounds_step current end_time 0%nat HP Hle Hf) as (f & E & _). discriminate E.
    + destruct fuel'; cbn; destruct (Z.leb_spec current end_time); (lia || reflexivity).
  - destruct (Z.leb_spec current end_time) as [Hle|Hgt].
    + destruct (rounds_step current end_time (S fuel) HP Hle Hf) as (f & E & Hr).
      injection E as <-.
      destruct (rounds_step current end_time fuel' HP Hle Hf') as (f' & -> & Hr').
      cbn [bucket_loop]. destruct (Z.leb_spec current end_time); [|lia].
      destruct (step current HP) as [_ HPn].
      now rewrite (IH f' (next current) end_time HPn Hr Hr').
    + destruct fuel'; cbn; destruct (Z.leb_spec current end_time); (lia || reflexivity).
Qed.

End BucketLoop.

Lemma floor_minute_eq t : floor_minute t = t / DT.MINUTE * DT.MINUTE.
Proof. dt_unfold. Z.div_mod_to_equations. lia. Qed.

Lemma floor_hour_eq t :
  DT.replace_minute (floor_minute t) 0 = t / DT.HOUR * DT.HOUR.
Proof. dt_unfold. Z.div_mod_to_equations. lia. Qed.

Lemma floor_day_eq t :
  DT.replace_minute (DT.replace_hour (floor_minute t) 0) 0 = t / DT.DAY * DT.DAY.
Proof. dt_unfold. (Z.div_mod_to_equations; lia). Qed.

Lemma minute_of_floor t : DT.minute (floor_minute t) = DT.minute t.
Proof. dt_unfold. Z.div_mod_to_equations. lia. Qed.

Lemma hour_of_floor t : DT.hour (DT.replace_minute (floor_minute t) 0) = DT.hour t.
Proof. dt_unfold. Z.div_mod_to_equations. lia. Qed.

Lemma digits_value_nonneg s : forall acc n,
  0 <= acc -> PyStr.digits_value acc s = Some n -> 0 <= n.
Proof.
  induction s as [|c s IH]; intros acc n Hacc H; cbn in H.
  - injection H as <-. exact Hacc.
  - unfold PyStr.digit_of in H.
    destruct ((48 <=? Z.of_nat (nat_of_ascii c)) && (Z.of_nat (nat_of_ascii c) <=? 57)) eqn:E;
      [|discriminate].
    apply andb_true_iff in E as [E1 E2]. apply Z.leb_le in E1, E2.
    eapply IH; [|exact H]. lia.
Qed.

Lemma int_nonneg s n : PyStr.int s = Ok n -> 0 <= n.
Proof.
  unfold PyStr.int. destruct s; [discriminate|].
  destruct (PyStr.digits_value 0 _) eqn:E; [|discriminate].
  intros [= <-]. eapply digits_value_nonneg; [|exact E]. lia.
Qed.

(** Buckets laid on a grid: starts [cs], strictly increasing, between
    [anchor] and [end_time], each bucket ending after it starts and after
    [start_time]. *)
Definition on_grid (anchor : DT.datetime) (next : DT.datetime -> DT.datetime)
    (keep_start : bool) (start_time end_time : DT.datetime) (bs : list bucket) : Prop :=
  exists cs,
    bs = List.map (bucket_at next keep_start) cs
    /\ StronglySorted Z.lt cs
    /\ Forall (fun c => anchor <= c <= end_time /\ c < next c /\ start_time < next c) cs.

Lemma on_grid_nil anchor next keep_start start_time end_time :
  on_grid anchor next keep_start start_time end_time [].
Proof. exists []. repeat split; constructor. Qed.

Lemma bucket_loop_on_grid (P : DT.datetime -> Prop) next keep_start width
    current start_time end_time bs :
  0 < width ->
  (forall c, P c -> c + width <= next c /\ P (next c)) ->
  P current ->
  start_time < next current ->
  bucket_loop (rounds width current end_time) next keep_start current end_time = Ok bs ->
  on_grid current next keep_start start_time end_time bs.
Proof.
  intros Hw Hstep HP Hcover Hrun.
  assert (Hstep' : forall c, P c /\ start_time < next c ->
                   c + width <= next c /\ (P (next c) /\ start_time < next (next c))).
  { intros c [HPc Hc]. destruct (Hstep c HPc) as [H1 H2].
    destruct (Hstep (next c) H2) as [H3 _]. repeat split; (assumption || lia). }
  destruct (bucket_loop_spec (fun c => P c /\ start_time < next c)
              next keep_start width Hw Hstep'
              (rounds width current end_time) current end_time (conj HP Hcover) (le_n _))
    as (cs & Hcs & Hall & Hsorted).
  rewrite Hcs in Hrun. injection Hrun as <-.
  exists cs. repeat split; [assumption|].
  eapply Forall_impl; [exact Hall|]. cbn. intros c [[HPc Hcov] Hc].
  split; [exact Hc|]. destruct (Hstep c HPc). split; [lia|exact Hcov].
Qed.

Lemma bucket_loop_total (P : DT.datetime -> Prop) next keep_start width
    current end_time :
  0 < width ->
  (forall c, P c -> c + width <= next c /\ P (next c)) ->
  P current ->
  exists bs,
    bucket_loop (rounds width current end_time) next keep_start current end_time = Ok bs.
Proof.
  intros Hw Hstep HP.
  destruct (bucket_loop_spec P next keep_start width Hw Hstep
              (rounds width current end_time) current end_time HP (le_n _))
    as (cs & Hcs & _).
  eauto.
Qed.

(** With a zero-width step the loop only returns when it is never entered. *)
Lemma bucket_loop_stuck keep_start current end_time bs :
  bucket_loop (rounds 0 current end_time) (fun c => c) keep_start current end_time = Ok bs ->
  bs = [].
Proof.
  unfold rounds. rewrite Z.div_0_r. change (Z.to_nat (0 + 1)) with 1%nat.
  cbn [bucket_loop].
  destruct (current <=? end_time) eqn:E.
  - unfold mbind, result_bind. discriminate.
  - now intros [= <-].
Qed.

Lemma hour_multiple_mod_minute x : (x * DT.HOUR) mod DT.MINUTE = 0.
Proof.
  unfold DT.HOUR. rewrite Z.mul_assoc. apply Z.mod_mul.
  unfold DT.MINUTE, DT.SECOND. lia.
Qed.

Lemma day_multiple_mod_minute x : (x * DT.DAY) mod DT.MINUTE = 0.
Proof.
  unfold DT.DAY, DT.HOUR. rewrite !Z.mul_assoc. apply Z.mod_mul.
  unfold DT.MINUTE, DT.SECOND. lia.
Qed.

Lemma div_mul_le a n : 0 < n -> a / n * n = a - a mod n.
Proof. intros Hn. pose proof (Z.div_mod a n). lia. Qed.

Lemma minute_buckets_grid keep_start aggregation t0 t1 bs :
  minute_buckets keep_start aggregation (floor_minute t0) t1 = Ok bs ->
  exists minutes anchor,
    PyStr.int (PyStr.drop_last 3 aggregation) = Ok minutes
    /\ 0 < minutes
    /\ anchor <= t0 < DT.add_minutes anchor minutes
    /\ anchor mod DT.MINUTE = 0
    /\ on_grid anchor (fun c => DT.add_minutes c minutes) keep_start t0 t1 bs.
Proof.
  unfold minute_buckets.
  destruct (PyStr.int (PyStr.drop_last 3 aggregation)) as [minutes| |] eqn:Hint;
    cbn; try discriminate.
  pose proof (int_nonneg _ _ Hint) as Hnn.
  destruct (Z.eqb_spec minutes 0) as [->|Hne]; [discriminate|].
  assert (Hpos : 0 < minutes) by lia.
  set (anchor := DT.replace_minute (floor_minute t0)
                   (DT.minute (floor_minute t0) / minutes * minutes)).
  intros Hrun. exists minutes, anchor.
  assert (Hanchor : anchor = t0 / DT.MINUTE * DT.MINUTE - DT.minute t0 mod minutes * DT.MINUTE).
  { subst anchor. unfold DT.replace_minute. rewrite minute_of_floor, floor_minute_eq.
    rewrite (div_mul_le (DT.minute t0) minutes) by assumption. lia. }
  pose proof (Z.mod_pos_bound (DT.minute t0) minutes Hpos) as Hr.
  assert (Hcover : anchor <= t0 < DT.add_minutes anchor minutes)
    by (rewrite Hanchor; dt_unfold; Z.div_mod_to_equations; nia).
  repeat split; try assumption; try apply Hcover.
  - rewrite Hanchor. dt_unfold.
    rewrite <- Z.mul_sub_distr_r. apply Z.mod_mul. lia.
  - eapply (bucket_loop_on_grid (fun _ => True)); [| |exact I|apply Hcover|exact Hrun].
    + unfold DT.MINUTE, DT.SECOND. lia.
    + intros c _. unfold DT.add_minutes. split; [lia|exact I].
Qed.

Lemma hour_buckets_grid keep_start aggregation t0 t1 bs :
  hour_buckets keep_start aggregation (floor_minute t0) t1 = Ok bs ->
  exists hours anchor,
    PyStr.int (PyStr.drop_last 4 aggregation) = Ok hours
    /\ 0 < hours
    /\ anchor <= t0 < DT.add_hours anchor hours
    /\ anchor mod DT.MINUTE = 0
    /\ on_grid anchor (fun c => DT.add_hours c hours) keep_start t0 t1 bs.
Proof.
  unfold hour_buckets.
  destruct (PyStr.int (PyStr.drop_last 4 aggregation)) as [hours| |] eqn:Hint;
    cbn; try discriminate.
  pose proof (int_nonneg _ _ Hint) as Hnn.
  destruct (Z.eqb_spec hours 0) as [->|Hne]; [discriminate|].
  assert (Hpos : 0 < hours) by lia.
  set (anchor := DT.replace_hour (DT.replace_minute (floor_minute t0) 0)
                   (DT.hour (DT.replace_minute (floor_minute t0) 0) / hours * hours)).
  intros Hrun. exists hours, anchor.
  assert (Hanchor : anchor = t0 / DT.HOUR * DT.HOUR - DT.hour t0 mod hours * DT.HOUR).
  { subst anchor. unfold DT.replace_hour. rewrite hour_of_floor, floor_hour_eq.
    rewrite (div_mul_le (DT.hour t0) hours) by assumption. lia. }
  pose proof (Z.mod_pos_bound (DT.hour t0) hours Hpos) as Hr.
  assert (Hcover : anchor <= t0 < DT.add_hours anchor hours)
    by (rewrite Hanchor; dt_unfold; Z.div_mod_to_equations; nia).
  repeat split; try assumption; try apply Hcover.
  - rewrite Hanchor, <- Z.mul_sub_distr_r. apply hour_multiple_mod_minute.
  - eapply (bucket_loop_on_grid (fun _ => True)); [| |exact I|apply Hcover|exact Hrun].
    + unfold DT.HOUR, DT.MINUTE, DT.SECOND. lia.
    + intros c _. unfold DT.add_hours. split; [lia|exact I].
Qed.

Lemma day_buckets_grid keep_start aggregation t0 t1 bs :
  day_buckets keep_start aggregation (floor_minute t0) t1 = Ok bs ->
  exists days anchor,
    PyStr.int (PyStr.drop_last 3 aggregation) = Ok days
    /\ anchor <= t0 < DT.add_days anchor 1
    /\ anchor mod DT.MINUTE = 0
    /\ ((days = 0 /\ bs = [])
        \/ (0 < days
            /\ on_grid anchor (fun c => DT.add_days c days) keep_start t0 t1 bs)).
Proof.
  unfold day_buckets.
  destruct (PyStr.int (PyStr.drop_last 3 aggregation)) as [days| |] eqn:Hint;
    cbn; try discriminate.
  pose proof (int_nonneg _ _ Hint) as Hnn.
  rewrite floor_day_eq. intros Hrun.
  exists days, (t0 / DT.DAY * DT.DAY). split; [reflexivity|].
  assert (Hcover : t0 / DT.DAY * DT.DAY <= t0 < DT.add_days (t0 / DT.DAY * DT.DAY) 1)
    by (dt_unfold; Z.div_mod_to_equations; lia).
  split; [exact Hcover|].
  split.
  { apply day_multiple_mod_minute. }
  destruct (Z.eqb_spec days 0) as [->|Hne].
  - left. split; [reflexivity|].
    revert Hrun. change (0 * DT.DAY) with 0.
    unfold rounds. rewrite Z.div_0_r. change (Z.to_nat (0 + 1)) with 1%nat.
    cbn [bucket_loop]. unfold DT.add_days. rewrite Z.add_0_r.
    destruct (_ <=? t1) eqn:E.
    + unfold mbind, result_bind. discriminate.
    + now intros [= <-].
  - right. split; [lia|].
    eapply (bucket_loop_on_grid (fun _ => True)); [| |exact I| |exact Hrun].
    + unfold DT.DAY, DT.HOUR, DT.MINUTE, DT.SECOND. lia.
    + intros c _. unfold DT.add_days. split; [lia|exact I].
    + revert Hcover. unfold DT.add_days, DT.DAY, DT.HOUR, DT.MINUTE, DT.SECOND. nia.
Qed.

Lemma week_buckets_grid keep_start t0 t1 bs :
  week_buckets keep_start (floor_minute t0) t1 = Ok bs ->
  exists anchor,
    anchor <= t0 < DT.add_days anchor 7
    /\ anchor mod DT.MINUTE = 0
    /\ on_grid anchor (fun c => DT.add_days c 7) keep_start t0 t1 bs.
Proof.
  unfold week_buckets. rewrite floor_day_eq.
  set (c := t0 / DT.DAY * DT.DAY).
  set (k := if negb (DT.weekday c =? 6) then DT.weekday c + 1 else 0).
  intros Hrun. exists (DT.add_days c (- k)).
  assert (Hk : 0 <= k <= 6).
  { subst k. destruct (Z.eqb_spec (DT.weekday c) 6) as [E|E]; cbn [negb]; [lia|].
    revert E. unfold DT.weekday. intros E.
    pose proof (Z.mod_pos_bound (c / DT.DAY + 3) 7). lia. }
  assert (Hc : c <= t0 < c + DT.DAY)
    by (subst c; dt_unfold; Z.div_mod_to_equations; lia).
  assert (Hcover : DT.add_days c (- k) <= t0 < DT.add_days (DT.add_days c (- k)) 7)
    by (unfold DT.add_days; unfold DT.DAY, DT.HOUR, DT.MINUTE, DT.SECOND in *; lia).
  split; [exact Hcover|split].
  - unfold DT.add_days. subst c. rewrite <- Z.mul_add_distr_r.
    apply day_multiple_mod_minute.
  - eapply (bucket_loop_on_grid (fun _ => True)); [| |exact I|apply Hcover|exact Hrun].
    + unfold DT.DAY, DT.HOUR, DT.MINUTE, DT.SECOND. lia.
    + intros c' _. unfold DT.add_days. split; [lia|exact I].
Qed.

Lemma floor_day_aligned x :
  x mod DT.MINUTE = 0 ->
  DT.replace_minute (DT.replace_hour x 0) 0 = x / DT.DAY * DT.DAY.
Proof. dt_unfold. intros H. Z.div_mod_to_equations. lia. Qed.

Lemma days_from_civil_day y m d :
  DT.days_from_civil y m d = DT.days_from_civil y m 1 + (d - 1).
Proof. unfold DT.days_from_civil. cbv zeta. lia. Qed.

(** First instant of a calendar month. *)
Definition month_start (c : DT.datetime) : Prop :=
  c mod DT.DAY = 0 /\ DT.day c = 1.

Lemma DAY_pos : 0 < DT.DAY.
Proof. unfold DT.DAY, DT.HOUR, DT.MINUTE, DT.SECOND. lia. Qed.

Lemma next_month_eq c :
  month_start c ->
  c = DT.days_from_civil (DT.year c) (DT.month c) 1 * DT.DAY
  /\ next_month c =
     (if DT.month c =? 12 then DT.days_from_civil (DT.year c + 1) 1 1
      else DT.days_from_civil (DT.year c) (DT.month c + 1) 1) * DT.DAY.
Proof.
  intros [Hmod Hday]. split.
  - pose proof (civil_roundtrip (c / DT.DAY)) as Hrt.
    unfold DT.day in Hday. rewrite Hday in Hrt. unfold DT.year, DT.month.
    rewrite Hrt. pose proof (Z.div_mod c DT.DAY). pose proof DAY_pos. lia.
  - unfold next_month, DT.replace_year_month. rewrite Hmod, Hday.
    destruct (DT.month c =? 12); lia.
Qed.

Lemma next_month_step c :
  month_start c -> c + 28 * DT.DAY <= next_month c /\ month_start (next_month c).
Proof.
  intros Hc. destruct (next_month_eq c Hc) as [Hceq Hnext].
  pose proof (civil_fields (c / DT.DAY)) as [Hm _]. fold (DT.month c) in Hm.
  pose proof (month_step (DT.year c) (DT.month c) Hm) as [Hstep _].
  pose proof DAY_pos as HD.
  split.
  - rewrite Hnext. rewrite Hceq at 1. nia.
  - rewrite Hnext. split.
    + apply Z.mod_mul. lia.
    + unfold DT.day. rewrite Z.div_mul by lia.
      destruct (Z.eqb_spec (DT.month c) 12).
      * now rewrite civil_of_first by lia.
      * now rewrite civil_of_first by lia.
Qed.

Lemma month_anchor t0 :
  exists anchor,
    DT.replace_minute (DT.replace_hour (DT.replace_day (floor_minute t0) 1) 0) 0 = anchor
    /\ month_start anchor
    /\ anchor <= t0 < next_month anchor
    /\ anchor mod DT.MINUTE = 0.
Proof.
  pose proof DAY_pos as HD.
  set (d := DT.day (floor_minute t0)).
  assert (Hfd : floor_minute t0 / DT.DAY = t0 / DT.DAY)
    by (dt_unfold; Z.div_mod_to_equations; lia).
  assert (Hd : d = DT.day t0) by (subst d; unfold DT.day; now rewrite Hfd).
  assert (Haligned : DT.replace_day (floor_minute t0) 1 mod DT.MINUTE = 0).
  { unfold DT.replace_day. fold d. rewrite floor_minute_eq.
    replace (t0 / DT.MINUTE * DT.MINUTE + (1 - d) * DT.DAY)
      with ((t0 / DT.MINUTE + (1 - d) * 1440) * DT.MINUTE)
      by (unfold DT.DAY, DT.HOUR; lia).
    apply Z.mod_mul. unfold DT.MINUTE, DT.SECOND. lia. }
  rewrite (floor_day_aligned _ Haligned).
  assert (Hanchor : DT.replace_day (floor_minute t0) 1 / DT.DAY * DT.DAY
                    = (t0 / DT.DAY - (d - 1)) * DT.DAY).
  { unfold DT.replace_day. fold d. f_equal.
    rewrite Z.div_add by lia. rewrite Hfd. lia. }
  rewrite Hanchor. set (anchor := (t0 / DT.DAY - (d - 1)) * DT.DAY).
  pose proof (civil_fields (t0 / DT.DAY)) as [Hm Hdr].
  fold (DT.day t0) in Hdr. rewrite <- Hd in Hdr.
  assert (Hcivil : DT.civil_from_days (anchor / DT.DAY) = (DT.year t0, DT.month t0, 1)).
  { subst anchor. rewrite Z.div_mul by lia.
    pose proof (civil_roundtrip (t0 / DT.DAY)) as Hrt.
    fold (DT.day t0) in Hrt. rewrite <- Hd in Hrt.
    rewrite days_from_civil_day in Hrt.
    replace (t0 / DT.DAY - (d - 1))
      with (DT.days_from_civil (DT.year t0) (DT.month t0) 1)
      by (unfold DT.year, DT.month; lia).
    apply civil_of_first. exact Hm. }
  assert (Hstart : month_start anchor).
  { split; [subst anchor; apply Z.mod_mul; lia|].
    unfold DT.day. now rewrite Hcivil. }
  exists anchor. split; [reflexivity|]. split; [exact Hstart|]. split.
  - split.
    + subst anchor. pose proof (Z.div_mod t0 DT.DAY).
      pose proof (Z.mod_pos_bound t0 DT.DAY HD). nia.
    + destruct (next_month_eq anchor Hstart) as [_ ->].
      unfold DT.year, DT.month. rewrite Hcivil. cbn [fst snd].
      pose proof (before_next_month (t0 / DT.DAY)) as Hb. cbv zeta in Hb.
      fold (DT.year t0) in Hb. fold (DT.month t0) in Hb.
      pose proof (Z.div_mod t0 DT.DAY). pose proof (Z.mod_pos_bound t0 DT.DAY HD).
      destruct (DT.month t0 =? 12); nia.
  - subst anchor. apply day_multiple_mod_minute.
Qed.

Lemma month_buckets_grid keep_start t0 t1 bs :
  month_buckets keep_start (floor_minute t0) t1 = Ok bs ->
  exists anchor,
    anchor <= t0 < next_month anchor
    /\ anchor mod DT.MINUTE = 0
    /\ month_start anchor
    /\ on_grid anchor next_month keep_start t0 t1 bs.
Proof.
  unfold month_buckets.
  destruct (month_anchor t0) as (anchor & -> & Hstart & Hcover & Hal).
  pose proof DAY_pos as HD.
  intros Hrun. exists anchor.
  split; [exact Hcover|split; [exact Hal|split; [exact Hstart|]]].
  eapply (bucket_loop_on_grid month_start); [| |exact Hstart|apply Hcover|exact Hrun].
  - lia.
  - apply next_month_step.
Qed.

(** *** The loops return for well-formed labels *)

Lemma minute_buckets_total keep_start aggregation minutes current t1 :
  PyStr.int (PyStr.drop_last 3 aggregation) = Ok minutes -> 0 < minutes ->
  exists bs, minute_buckets keep_start aggregation current t1 = Ok bs.
Proof.
  intros Hint Hpos. unfold minute_buckets. rewrite Hint. cbn [mbind result_bind].
  destruct (Z.eqb_spec minutes 0); [lia|].
  apply (bucket_loop_total (fun _ => True)); [| |exact I].
  - unfold DT.MINUTE, DT.SECOND. lia.
  - intros c _. unfold DT.add_minutes. split; [lia|exact I].
Qed.

Lemma hour_buckets_total keep_start aggregation hours current t1 :
  PyStr.int (PyStr.drop_last 4 aggregation) = Ok hours -> 0 < hours ->
  exists bs, hour_buckets keep_start aggregation current t1 = Ok bs.
Proof.
  intros Hint Hpos. unfold hour_buckets. rewrite Hint. cbn [mbind result_bind].
  destruct (Z.eqb_spec hours 0); [lia|].
  apply (bucket_loop_total (fun _ => True)); [| |exact I].
  - unfold DT.HOUR, DT.MINUTE, DT.SECOND. lia.
  - intros c _. unfold DT.add_hours. split; [lia|exact I].
Qed.

Lemma day_buckets_total keep_start aggregation days current t1 :
  PyStr.int (PyStr.drop_last 3 aggregation) = Ok days -> 0 < days ->
  exists bs, day_buckets keep_start aggregation current t1 = Ok bs.
Proof.
  intros Hint Hpos. unfold day_buckets. rewrite Hint. cbn [mbind result_bind].
  apply (bucket_loop_total (fun _ => True)); [| |exact I].
  - unfold DT.DAY, DT.HOUR, DT.MINUTE, DT.SECOND. lia.
  - intros c _. unfold DT.add_days. split; [lia|exact I].
Qed.

Lemma week_buckets_total keep_start current t1 :
  exists bs, week_buckets keep_start current t1 = Ok bs.
Proof.
  unfold week_buckets.
  apply (bucket_loop_total (fun _ => True)); [| |exact I].
  - unfold DT.DAY, DT.HOUR, DT.MINUTE, DT.SECOND. lia.
  - intros c _. unfold DT.add_days. split; [lia|exact I].
Qed.

Lemma month_buckets_total keep_start t0 t1 :
  exists bs, month_buckets keep_start (floor_minute t0) t1 = Ok bs.
Proof.
  unfold month_buckets.
  destruct (month_anchor t0) as (anchor & -> & Hstart & _ & _).
  pose proof DAY_pos as HD.
  apply (bucket_loop_total month_start); [lia| |exact Hstart].
  apply next_month_step.
Qed.

End Buckets.

(** ** Interpolation of the energy counter *)

Section Interpolation.

Import Database.

(** *** Binary search *)

Definition nondecreasing (a : list Z) : Prop :=
  forall i j, (i <= j < length a)%nat -> nth i a 0 <= nth j a 0.

Lemma bisect_loop_spec a x : nondecreasing a ->
  forall fuel lo hi,
    (lo <= hi <= length a)%nat ->
    (hi - lo <= fuel)%nat ->
    (forall i, (i < lo)%nat -> nth i a 0 < x) ->
    (forall i, (hi <= i < length a)%nat -> x <= nth i a 0) ->
    let r := bisect_loop fuel a x lo hi in
    (r <= length a)%nat
    /\ (forall i, (i < r)%nat -> nth i a 0 < x)
    /\ (forall i, (r <= i < length a)%nat -> x <= nth i a 0).
Proof.
  intros Hsorted. induction fuel as [|fuel IH]; intros lo hi Hb Hf Hlo Hhi; cbn [bisect_loop].
  - assert (lo = hi) by lia. subst hi. cbv zeta. repeat split; [lia|assumption|assumption].
  - destruct (Nat.ltb_spec lo hi) as [Hlt|Hge].
    + set (mid := ((lo + hi) / 2)%nat).
      assert (Hmid : (lo <= mid < hi)%nat).
      { subst mid. pose proof (Nat.div_mod_eq (lo + hi) 2).
        pose proof (Nat.mod_upper_bound (lo + hi) 2). lia. }
      destruct (Z.ltb_spec (nth mid a 0) x) as [Hm|Hm].
      * apply IH; try lia; [|assumption].
        intros i Hi. pose proof (Hsorted i mid ltac:(lia)). lia.
      * apply IH; try lia; [assumption|].
        intros i Hi. pose proof (Hsorted mid i ltac:(lia)). lia.
    + assert (lo = hi) by lia. subst hi. cbv zeta. repeat split; [lia|assumption|assumption].
Qed.

Lemma bisect_left_spec a x : nondecreasing a ->
  let r := bisect_left a x in
  (r <= length a)%nat
  /\ (forall i, (i < r)%nat -> nth i a 0 < x)
  /\ (forall i, (r <= i < length a)%nat -> x <= nth i a 0).
Proof.
  intros Hs. unfold bisect_left. apply bisect_loop_spec; try assumption; try lia.
Qed.

(** *** Readings sorted by [time_ms] *)

Definition time_le (x y : reading_ms) : Prop := time_ms x <= time_ms y.

Lemma insert_by_time_ms_sorted r rs :
  StronglySorted time_le rs -> StronglySorted time_le (insert_by_time_ms r rs).
Proof.
  induction 1 as [|h t Ht IH Hall]; cbn [insert_by_time_ms].
  - repeat constructor.
  - destruct (Z.leb_spec (time_ms r) (time_ms h)) as [Hle|Hgt].
    + constructor; [constructor; assumption|].
      constructor; [exact Hle|].
      eapply Forall_impl; [exact Hall|]. unfold time_le. intros; lia.
    + constructor; [exact IH|].
      assert (Hin : forall y, In y (insert_by_time_ms r t) -> y = r \/ In y t).
      { clear. induction t as [|h t IH]; cbn [insert_by_time_ms]; intros y Hy.
        - destruct Hy as [<-|[]]. now left.
        - destruct (time_ms r <=? time_ms h).
          + destruct Hy as [<-|Hy]; [now left|now right].
          + destruct Hy as [<-|Hy]; [right; now left|].
            destruct (IH y Hy); [now left|right; now right]. }
      apply List.Forall_forall. intros y Hy. destruct (Hin y Hy) as [->|Hy'].
      * unfold time_le. lia.
      * rewrite List.Forall_forall in Hall. now apply Hall.
Qed.

Lemma sort_by_time_ms_sorted rs : StronglySorted time_le (sort_by_time_ms rs).
Proof.
  induction rs as [|r rs IH]; cbn; [constructor|].
  now apply insert_by_time_ms_sorted.
Qed.

Lemma preprocess_sorted energy_readings :
  StronglySorted time_le (preprocess energy_readings).
Proof. apply sort_by_time_ms_sorted. Qed.

Lemma sorted_times rs :
  StronglySorted time_le rs -> nondecreasing (List.map time_ms rs).
Proof.
  induction 1 as [|h t Ht IH Hall]; intros i j Hij; cbn [List.map length] in *.
  - cbn in Hij. lia.
  - destruct i as [|i]; destruct j as [|j]; cbn [nth]; try lia.
    + rewrite List.Forall_forall in Hall.
      assert (Hj : (j < length t)%nat) by (rewrite length_map in Hij; lia).
      rewrite <- (length_map time_ms) in Hj.
      pose proof (nth_In (List.map time_ms t) 0 Hj) as Hn.
      apply in_map_iff in Hn as (y & <- & Hy). apply (Hall y Hy).
    + apply IH. lia.
Qed.

(** *** Interpolation *)

Lemma interpolate_unfold r0 rest t :
  let rs := r0 :: rest in
  let times := List.map time_ms rs in
  let idx := bisect_left times t in
  _interpolate_kwh_at_time rs t =
  if (idx <? length rs)%nat && (nth idx times 0 =? t)
  then Some (kwh (nth idx rs r0))
  else if (idx =? 0)%nat then Some (kwh r0)
  else if (length rs <=? idx)%nat then Some (kwh (List.last rs r0))
  else
    let before := nth (idx - 1) rs r0 in
    let after := nth idx rs r0 in
    if time_ms after - time_ms before =? 0 then Some (kwh before)
    else Some (kwh before
               + (kwh after - kwh before)
                 * (inject_Z (t - time_ms before)
                    / inject_Z (time_ms after - time_ms before)))%Q.
Proof. reflexivity. Qed.

Lemma interpolate_some rs t :
  rs <> [] -> exists v, _interpolate_kwh_at_time rs t = Some v.
Proof.
  destruct rs as [|r0 rest]; [congruence|]. intros _.
  rewrite interpolate_unfold. cbv zeta.
  repeat match goal with |- context [if ?b then _ else _] => destruct b end; eauto.
Qed.

Lemma interpolate_before r0 rest t :
  StronglySorted time_le (r0 :: rest) ->
  t <= time_ms r0 ->
  _interpolate_kwh_at_time (r0 :: rest) t = Some (kwh r0).
Proof.
  intros Hs Ht.
  destruct (bisect_left_spec (List.map time_ms (r0 :: rest)) t (sorted_times _ Hs))
    as (_ & Hlt & _).
  assert (Hidx : bisect_left (List.map time_ms (r0 :: rest)) t = 0%nat).
  { destruct (bisect_left _ t) as [|k] eqn:E; [reflexivity|].
    specialize (Hlt 0%nat ltac:(lia)). cbn in Hlt. lia. }
  rewrite interpolate_unfold. cbv zeta. rewrite Hidx.
  destruct (_ && _); reflexivity.
Qed.

Lemma nth_time_ms (rs : list reading_ms) i d :
  (i < length rs)%nat -> nth i (List.map time_ms rs) 0 = time_ms (nth i rs d).
Proof.
  intros Hi. rewrite (nth_indep _ 0 (time_ms d)) by (now rewrite length_map).
  apply map_nth.
Qed.

Lemma interpolate_after pre rl t :
  StronglySorted time_le (pre ++ [rl]) ->
  time_ms rl < t ->
  _interpolate_kwh_at_time (pre ++ [rl]) t = Some (kwh rl).
Proof.
  intros Hs Ht.
  pose proof (sorted_times _ Hs) as Hnd.
  destruct (bisect_left_spec (List.map time_ms (pre ++ [rl])) t Hnd) as (Hle & _ & Hge).
  rewrite length_map in Hle, Hge.
  assert (Hlen : length (pre ++ [rl]) = S (length pre))
    by (rewrite length_app; cbn; lia).
  assert (Hidx : bisect_left (List.map time_ms (pre ++ [rl])) t = S (length pre)).
  { destruct (Nat.eq_dec (bisect_left (List.map time_ms (pre ++ [rl])) t) (S (length pre)))
      as [E|E]; [exact E|].
    specialize (Hge (length pre) ltac:(lia)).
    rewrite (nth_time_ms _ _ rl) in Hge by lia.
    rewrite nth_middle in Hge. lia. }
  destruct (pre ++ [rl]) as [|r0 rest] eqn:Ers; [cbn in Hlen; lia|].
  rewrite interpolate_unfold. cbv zeta. rewrite Hidx, Hlen.
  rewrite Nat.ltb_irrefl. cbn [andb Nat.eqb].
  rewrite Nat.leb_refl. rewrite <- Ers. now rewrite last_last.
Qed.

Lemma interpolate_between pre a b post t :
  StronglySorted time_le (pre ++ a :: b :: post) ->
  time_ms a < t <= time_ms b ->
  exists v,
    _interpolate_kwh_at_time (pre ++ a :: b :: post) t = Some v
    /\ (v == kwh a + (kwh b - kwh a)
                     * (inject_Z (t - time_ms a) / inject_Z (time_ms b - time_ms a)))%Q.
Proof.
  intros Hs [Hta Htb].
  pose proof (sorted_times _ Hs) as Hnd.
  destruct (bisect_left_spec (List.map time_ms (pre ++ a :: b :: post)) t Hnd)
    as (Hle & Hlt & Hge).
  rewrite length_map in Hle, Hge.
  assert (Hlen : length (pre ++ a :: b :: post) = (length pre + 2 + length post)%nat)
    by (rewrite length_app; cbn; lia).
  assert (Ha : forall d, nth (length pre) (pre ++ a :: b :: post) d = a)
    by (intros d; apply nth_middle).
  assert (Hb : forall d, nth (S (length pre)) (pre ++ a :: b :: post) d = b).
  { intros d. replace (S (length pre)) with (length pre + 1)%nat by lia.
    now rewrite app_nth2_plus. }
  assert (Hidx : bisect_left (List.map time_ms (pre ++ a :: b :: post)) t = S (length pre)).
  { destruct (lt_eq_lt_dec (bisect_left (List.map time_ms (pre ++ a :: b :: post)) t)
                (S (length pre))) as [[Hl|He]|Hg]; [|exact He|].
    - specialize (Hge (length pre) ltac:(lia)).
      rewrite (nth_time_ms _ _ a) in Hge by lia. rewrite Ha in Hge. lia.
    - specialize (Hlt (S (length pre)) Hg).
      rewrite (nth_time_ms _ _ a) in Hlt by lia. rewrite Hb in Hlt. lia. }
  destruct (pre ++ a :: b :: post) as [|r0 rest] eqn:Ers; [cbn in Hlen; lia|].
  rewrite interpolate_unfold. cbv zeta. rewrite Hidx.
  rewrite (nth_time_ms _ _ r0) by lia. rewrite Hb.
  replace (S (length pre) - 1)%nat with (length pre) by lia. rewrite Ha.
  destruct (Nat.ltb_spec (S (length pre)) (length (r0 :: rest))) as [_|]; [|lia].
  cbn [andb Nat.eqb].
  assert (Hpos : (0 < inject_Z (time_ms b - time_ms a))%Q).
  { change 0%Q with (inject_Z 0). rewrite <- Zlt_Qlt. lia. }
  destruct (Z.eqb_spec (time_ms b) t) as [E|E].
  - subst t. eexists; split; [reflexivity|]. field.
    intros Hz. rewrite Hz in Hpos. now apply Qlt_irrefl in Hpos.
  - destruct (Nat.leb_spec (length (r0 :: rest)) (S (length pre))); [lia|].
    destruct (Z.eqb_spec (time_ms b - time_ms a) 0); [lia|].
    eexists; split; reflexivity.
Qed.

End Interpolation.

(** ** Per-bucket deltas *)

Section Deltas.

Import Database.

(** The samples of [rs] that fall in bucket [b], in list order. *)
Definition in_bucket (b : bucket) (r : reading_ms) : bool :=
  (start_ms b <=? time_ms r) && (time_ms r <? end_ms b).

Definition inside (b : bucket) (rs : list reading_ms) : list reading_ms :=
  List.filter (in_bucket b) rs.

(** The delta the first/last strategy computes for a bucket. *)
Definition first_last_delta (rs : list reading_ms) (b : bucket) : option Q :=
  match head (inside b rs), last (inside b rs) with
  | Some first_reading, Some last_reading =>
      Some (kwh last_reading - kwh first_reading)%Q
  | _, _ => None
  end.

(** The delta the interpolating strategy computes for a bucket. *)
Definition interpolated_delta (rs : list reading_ms) (b : bucket) : option Q :=
  match _interpolate_kwh_at_time rs (start_ms b),
        _interpolate_kwh_at_time rs (end_ms b) with
  | Some start_kwh, Some end_kwh => Some (end_kwh - start_kwh)%Q
  | _, _ => None
  end.

(** The entry appended for a bucket starting at [c] with computed delta [d]. *)
Definition emit (c : DT.datetime) (d : option Q) : option energy_out :=
  match d with
  | Some delta =>
      if Qle_bool 0 delta
      then Some {| b_timestamp := c; energy_kwh := delta |}
      else None
  | None => None
  end.

Lemma first_last_in_acc b rs : forall f l,
  first_last_in b rs f l =
  (match f with Some x => Some x | None => head (inside b rs) end,
   match last (inside b rs) with Some x => Some x | None => l end).
Proof.
  induction rs as [|r rs IH]; intros f l; cbn [first_last_in inside List.filter].
  - destruct f; reflexivity.
  - fold (in_bucket b r). destruct (in_bucket b r) eqn:E.
    + rewrite IH. fold (inside b rs). cbn [head]. rewrite last_cons.
      destruct f; destruct (last (inside b rs)); reflexivity.
    + rewrite IH. reflexivity.
Qed.

Lemma first_last_in_spec b rs :
  first_last_in b rs None None = (head (inside b rs), last (inside b rs)).
Proof.
  rewrite first_last_in_acc. f_equal. now destruct (last (inside b rs)).
Qed.

Lemma first_last_deltas_spec rs next cs :
  first_last_deltas rs (List.map (bucket_at next true) cs)
  = Ok (omap (fun c => emit c (first_last_delta rs (bucket_at next true c))) cs).
Proof.
  induction cs as [|c cs IH]; [reflexivity|].
  cbn [List.map first_last_deltas omap list_omap].
  rewrite first_last_in_spec. unfold first_last_delta at 1.
  destruct (head (inside (bucket_at next true c) rs)) as [f|];
    destruct (last (inside (bucket_at next true c) rs)) as [l|]; cbn [emit];
    try (rewrite IH; reflexivity).
  destruct (Qle_bool 0 (kwh l - kwh f)); [|rewrite IH; reflexivity].
  rewrite IH. reflexivity.
Qed.

Lemma interpolated_deltas_spec rs next cs :
  interpolated_deltas rs (List.map (bucket_at next true) cs)
  = Ok (omap (fun c => emit c (interpolated_delta rs (bucket_at next true c))) cs).
Proof.
  induction cs as [|c cs IH]; [reflexivity|].
  cbn [List.map interpolated_deltas omap list_omap].
  unfold interpolated_delta at 1.
  destruct (_interpolate_kwh_at_time rs (start_ms (bucket_at next true c))) as [s|];
    destruct (_interpolate_kwh_at_time rs (end_ms (bucket_at next true c))) as [e|];
    cbn [emit]; try (rewrite IH; reflexivity).
  destruct (Qle_bool 0 (e - s)); [|rewrite IH; reflexivity].
  rewrite IH. reflexivity.
Qed.



Section Emitted.

Variable d : DT.datetime -> option Q.





End Emitted.

End Deltas.

(** ** Energy queries *)

Section EnergyQuery.

Import Database.

(** The end boundary the code gives to a bucket that starts at [c]. *)
Definition label_step (aggregation : string) : option (DT.datetime -> DT.datetime) :=
  if PyStr.endswith aggregation "min" then
    match PyStr.int (PyStr.drop_last 3 aggregation) with
    | Ok minutes => Some (fun c => DT.add_minutes c minutes)
    | _ => None
    end
  else if PyStr.endswith aggregation "hour" then
    match PyStr.int (PyStr.drop_last 4 aggregation) with
    | Ok hours => Some (fun c => DT.add_hours c hours)
    | _ => None
    end
  else if PyStr.endswith aggregation "day" then
    match PyStr.int (PyStr.drop_last 3 aggregation) with
    | Ok days => Some (fun c => DT.add_days c days)
    | _ => None
    end
  else if String.eqb aggregation "1week" then Some (fun c => DT.add_days c 7)
  else if String.eqb aggregation "1month" then Some next_month
  else None.

(** The bucket list an energy query builds for its label. *)
Definition query_buckets (aggregation : string) (t0 t1 : DT.datetime)
    : result (list bucket) :=
  if PyStr.endswith aggregation "min"
  then interpolation_buckets aggregation t0 t1
  else first_last_buckets aggregation t0 t1.

(** The delta an energy query computes for a bucket under its label. *)
Definition computed_delta (aggregation : string) (rs : list reading_ms) (b : bucket)
    : option Q :=
  if PyStr.endswith aggregation "min"
  then interpolated_delta rs b
  else first_last_delta rs b.

(** Shape of a successful bucket construction: starts [cs] on the grid of
    the label, ascending, each bucket starting no later than [t1] and
    ending after [t0]. *)
Definition laid_out (aggregation : string) (t0 t1 : DT.datetime) (bs : list bucket)
    : Prop :=
  exists (next : DT.datetime -> DT.datetime) (cs : list DT.datetime),
    bs = List.map (bucket_at next true) cs
    /\ StronglySorted Z.lt cs
    /\ (cs <> [] -> label_step aggregation = Some next)
    /\ Forall (fun c => c <= t1 /\ c < next c /\ t0 < next c) cs.

Lemma laid_out_nil aggregation t0 t1 : laid_out aggregation t0 t1 [].
Proof.
  exists (fun c => c), [].
  split; [reflexivity|]. split; [constructor|]. split; [congruence|constructor].
Qed.

Lemma on_grid_laid_out aggregation anchor next t0 t1 bs :
  label_step aggregation = Some next ->
  on_grid anchor next true t0 t1 bs ->
  laid_out aggregation t0 t1 bs.
Proof.
  intros Hstep (cs & -> & Hsorted & Hall).
  exists next, cs.
  split; [reflexivity|]. split; [assumption|]. split; [intros _; exact Hstep|].
  eapply Forall_impl; [exact Hall|]. cbn. intros c (H1 & H2 & H3).
  split; [lia|]. split; assumption.
Qed.

Lemma first_last_buckets_laid_out aggregation t0 t1 bs :
  PyStr.endswith aggregation "min" = false ->
  first_last_buckets aggregation t0 t1 = Ok bs ->
  laid_out aggregation t0 t1 bs.
Proof.
  intros Hmin. unfold first_last_buckets.
  destruct (PyStr.endswith aggregation "hour") eqn:Eh;
    [|destruct (PyStr.endswith aggregation "day") eqn:Ed;
      [|destruct (String.eqb aggregation "1week") eqn:Ew;
        [|destruct (String.eqb aggregation "1month") eqn:Em]]].
  - intros H. apply hour_buckets_grid in H as (hours & anchor & Hint & _ & _ & _ & Hg).
    eapply on_grid_laid_out; [|exact Hg].
    unfold label_step. now rewrite Hmin, Eh, Hint.
  - intros H.
    apply day_buckets_grid in H as (days & anchor & Hint & _ & _ & [[_ ->]|[_ Hg]]).
    + apply laid_out_nil.
    + eapply on_grid_laid_out; [|exact Hg].
      unfold label_step. now rewrite Hmin, Eh, Ed, Hint.
  - intros H. apply week_buckets_grid in H as (anchor & _ & _ & Hg).
    eapply on_grid_laid_out; [|exact Hg].
    unfold label_step. now rewrite Hmin, Eh, Ed, Ew.
  - intros H. apply month_buckets_grid in H as (anchor & _ & _ & _ & Hg).
    eapply on_grid_laid_out; [|exact Hg].
    unfold label_step. now rewrite Hmin, Eh, Ed, Ew, Em.
  - intros [= <-]. apply laid_out_nil.
Qed.

Lemma interpolation_buckets_laid_out aggregation t0 t1 bs :
  PyStr.endswith aggregation "min" = true ->
  interpolation_buckets aggregation t0 t1 = Ok bs ->
  laid_out aggregation t0 t1 bs.
Proof.
  intros Hmin. unfold interpolation_buckets. rewrite Hmin.
  intros H. apply minute_buckets_grid in H as (minutes & anchor & Hint & _ & _ & _ & Hg).
  eapply on_grid_laid_out; [|exact Hg].
  unfold label_step. now rewrite Hmin, Hint.
Qed.

Lemma query_buckets_laid_out aggregation t0 t1 bs :
  query_buckets aggregation t0 t1 = Ok bs -> laid_out aggregation t0 t1 bs.
Proof.
  unfold query_buckets. destruct (PyStr.endswith aggregation "min") eqn:E.
  - now apply interpolation_buckets_laid_out.
  - now apply first_last_buckets_laid_out.
Qed.

(** The list an energy query returns for its buckets. *)
Definition query_deltas (aggregation : string) (rs : list reading_ms) (bs : list bucket)
    : result (list energy_out) :=
  if PyStr.endswith aggregation "min"
  then interpolated_deltas rs bs
  else first_last_deltas rs bs.

Lemma query_deltas_spec aggregation rs next cs :
  query_deltas aggregation rs (List.map (bucket_at next true) cs)
  = Ok (omap (fun c => emit c (computed_delta aggregation rs (bucket_at next true c))) cs).
Proof.
  unfold query_deltas, computed_delta.
  destruct (PyStr.endswith aggregation "min").
  - apply interpolated_deltas_spec.
  - apply first_last_deltas_spec.
Qed.

(** What a successful energy query returned, in terms of its parts. *)
Lemma get_energy_aggregated_inv s mid t0 t1 phase aggregation r :
  get_energy_aggregated s mid t0 t1 phase aggregation = Ok r ->
  let raw := get_energy_readings s mid t0 t1 phase in
  let label := energy_aggregation_applied r in
  (if String.eqb aggregation "auto"
   then _calculate_optimal_aggregation (Z.of_nat (length raw))
          (DT.total_seconds t0 t1) 10000
   else Ok aggregation) = Ok label
  /\ raw_readings_count r = Z.of_nat (length raw)
  /\ raw_total_kwh r =
     match raw with
     | first :: _ :: _ => (total_kwh (List.last raw first) - total_kwh first)%Q
     | _ => 0%Q
     end
  /\ ((String.eqb label "none" = true \/ (length raw < 2)%nat) -> aggregated r = [])
  /\ (String.eqb label "none" = false -> (2 <= length raw)%nat ->
      exists bs,
        query_buckets label t0 t1 = Ok bs
        /\ query_deltas label (preprocess raw) bs = Ok (aggregated r)).
Proof.
  unfold get_energy_aggregated. cbv zeta.
  set (raw := get_energy_readings s mid t0 t1 phase).
  destruct (if String.eqb aggregation "auto" then _ else _) as [label| |] eqn:Hlabel;
    cbn [mbind result_bind]; try discriminate.
  destruct (String.eqb label "none") eqn:Hnone; cbn [negb andb].
  - intros [= <-]. cbn. rewrite Hnone.
    split; [reflexivity|]. split; [reflexivity|]. split; [reflexivity|].
    split; [reflexivity|discriminate].
  - destruct (Nat.leb_spec 2 (length raw)) as [Hlen|Hlen].
    + destruct (PyStr.endswith label "min") eqn:Hmin.
      * unfold _calculate_energy_deltas_with_interpolation.
        destruct (Nat.ltb_spec (length raw) 2) as [|_]; [lia|].
        destruct (interpolation_buckets label t0 t1) as [bs| |] eqn:Hbs;
          cbn [mbind result_bind]; try discriminate.
        destruct (interpolated_deltas (preprocess raw) bs) as [out| |] eqn:Hout;
          cbn [mbind result_bind]; try discriminate.
        intros [= <-]. cbn. rewrite Hnone.
        split; [reflexivity|]. split; [reflexivity|]. split; [reflexivity|].
        split; [intros [?|?]; [discriminate|lia]|].
        intros _ _. exists bs. unfold query_buckets, query_deltas. rewrite Hmin.
        split; assumption.
      * unfold _calculate_energy_deltas_without_interpolation.
        destruct (Nat.ltb_spec (length raw) 2) as [|_]; [lia|].
        destruct (first_last_buckets label t0 t1) as [bs| |] eqn:Hbs;
          cbn [mbind result_bind]; try discriminate.
        destruct (first_last_deltas (preprocess raw) bs) as [out| |] eqn:Hout;
          cbn [mbind result_bind]; try discriminate.
        intros [= <-]. cbn. rewrite Hnone.
        split; [reflexivity|]. split; [reflexivity|]. split; [reflexivity|].
        split; [intros [?|?]; [discriminate|lia]|].
        intros _ _. exists bs. unfold query_buckets, query_deltas. rewrite Hmin.
        split; assumption.
    + intros [= <-]. cbn. rewrite Hnone.
      split; [reflexivity|]. split; [reflexivity|]. split; [reflexivity|].
      split; [reflexivity|]. intros _ ?. lia.
Qed.

End EnergyQuery.

(** ** Resolution selection and query totality *)

Section Resolution.

Import Database.

(** *** Resolution ladder *)

(** The ladder as (label, width in minutes) pairs. *)
Definition ladder : list (string * Z) := combine nice_bucket_names nice_buckets_minutes.

(** [label] is the ladder member of least width that is at least
    [ideal] minutes wide, or [1month] when no member is wide enough. *)
Definition smallest_sufficient (ideal : Q) (label : string) : Prop :=
  (exists width,
      In (label, width) ladder
      /\ (ideal <= inject_Z width)%Q
      /\ forall label' width',
          In (label', width') ladder -> (ideal <= inject_Z width')%Q -> width <= width')
  \/ (label = "1month"
      /\ forall label' width', In (label', width') ladder -> ~ (ideal <= inject_Z width')%Q).

Lemma first_nice_bucket_scan ideal : forall buckets i,
  (exists pre minutes post,
      buckets = pre ++ minutes :: post
      /\ Forall (fun m => ~ (ideal <= inject_Z m)%Q) pre
      /\ (ideal <= inject_Z minutes)%Q
      /\ first_nice_bucket ideal i buckets = nth (i + length pre) nice_bucket_names "")
  \/ (Forall (fun m => ~ (ideal <= inject_Z m)%Q) buckets
      /\ first_nice_bucket ideal i buckets = "1month").
Proof.
  induction buckets as [|m rest IH]; intros i; cbn [first_nice_bucket].
  - right. split; [constructor|reflexivity].
  - destruct (Qle_bool ideal (inject_Z m)) eqn:E.
    + left. exists [], m, rest. apply Qle_bool_iff in E.
      repeat split; try assumption; [constructor|].
      cbn. now rewrite Nat.add_0_r.
    + assert (Hm : ~ (ideal <= inject_Z m)%Q).
      { intros H. apply Qle_bool_iff in H. congruence. }
      destruct (IH (S i)) as [(pre & m' & post & -> & Hpre & Hm' & Hres)|[Hall Hres]].
      * left. exists (m :: pre), m', post. repeat split; try assumption.
        -- now constructor.
        -- rewrite Hres. f_equal. cbn. lia.
      * right. split; [now constructor|exact Hres].
Qed.

Lemma ladder_sorted : StronglySorted Z.le nice_buckets_minutes.
Proof. repeat constructor; lia. Qed.

Lemma first_nice_bucket_smallest ideal :
  smallest_sufficient ideal (first_nice_bucket ideal 0 nice_buckets_minutes).
Proof.
  destruct (first_nice_bucket_scan ideal nice_buckets_minutes 0%nat)
    as [(pre & m & post & Hsplit & Hpre & Hm & ->)|[Hall ->]].
  - left. exists m. cbn [Nat.add].
    assert (Hlen : (length pre < 16)%nat).
    { apply (f_equal (@length Z)) in Hsplit. rewrite length_app in Hsplit.
      cbn in Hsplit. lia. }
    assert (Hnth : nth (length pre) nice_buckets_minutes 0 = m).
    { rewrite Hsplit. apply nth_middle. }
    split; [|split; [exact Hm|]].
    + unfold ladder.
      assert (Hc : nth (length pre) (combine nice_bucket_names nice_buckets_minutes) ("", 0)
                   = (nth (length pre) nice_bucket_names "", m)).
      { rewrite combine_nth by reflexivity. now rewrite Hnth. }
      rewrite <- Hc. apply nth_In. cbn. exact Hlen.
    + intros label' width' Hin Hle.
      apply in_combine_r in Hin. rewrite Hsplit in Hin.
      apply in_app_or in Hin as [Hin|[<-|Hin]].
      * rewrite List.Forall_forall in Hpre. now elim (Hpre width' Hin).
      * lia.
      * pose proof ladder_sorted as Hs. rewrite Hsplit in Hs.
        apply StronglySorted_app_1_r in Hs.
        apply StronglySorted_inv in Hs as [_ Hs].
        rewrite List.Forall_forall in Hs. now apply Hs.
  - right. split; [reflexivity|].
    intros label' width' Hin. apply in_combine_r in Hin.
    rewrite List.Forall_forall in Hall. now apply Hall.
Qed.

Lemma first_nice_bucket_in ideal :
  In (first_nice_bucket ideal 0 nice_buckets_minutes) nice_bucket_names.
Proof.
  destruct (first_nice_bucket_scan ideal nice_buckets_minutes 0%nat)
    as [(pre & m & post & Hsplit & _ & _ & ->)|[_ ->]].
  - apply nth_In. apply (f_equal (@length Z)) in Hsplit. rewrite length_app in Hsplit.
    cbn in Hsplit. cbn. lia.
  - cbn. tauto.
Qed.

Lemma optimal_aggregation_cases count span :
  (count <= 10000 /\ _calculate_optimal_aggregation count span 10000 = Ok "none")
  \/ (10000 < count
      /\ _calculate_optimal_aggregation count span 10000
         = Ok (first_nice_bucket (span / 60 / inject_Z 10000) 0 nice_buckets_minutes)).
Proof.
  unfold _calculate_optimal_aggregation.
  destruct (Z.leb_spec count 10000); [left|right]; split; (assumption || reflexivity).
Qed.

(** *** Well-formed labels *)

Definition positive_prefix (k : nat) (label : string) : Prop :=
  exists n, PyStr.int (PyStr.drop_last k label) = Ok n /\ 0 < n.

(** A label whose numeric prefix, where it has one, is a positive integer. *)
Definition well_formed (label : string) : Prop :=
  if PyStr.endswith label "min" then positive_prefix 3 label
  else if PyStr.endswith label "hour" then positive_prefix 4 label
  else if PyStr.endswith label "day" then positive_prefix 3 label
  else True.

Lemma ladder_well_formed : Forall well_formed ("none" :: nice_bucket_names).
Proof.
  repeat constructor;
    (vm_compute; first [exact I | eexists; split; [reflexivity|reflexivity]]).
Qed.

Lemma query_buckets_total label t0 t1 :
  well_formed label -> exists bs, query_buckets label t0 t1 = Ok bs.
Proof.
  unfold well_formed, query_buckets, interpolation_buckets, first_last_buckets.
  destruct (PyStr.endswith label "min").
  { intros (n & Hint & Hpos). eapply minute_buckets_total; eassumption. }
  destruct (PyStr.endswith label "hour").
  { intros (n & Hint & Hpos). eapply hour_buckets_total; eassumption. }
  destruct (PyStr.endswith label "day").
  { intros (n & Hint & Hpos). eapply day_buckets_total; eassumption. }
  intros _.
  destruct (String.eqb label "1week"); [apply week_buckets_total|].
  destruct (String.eqb label "1month"); [apply month_buckets_total|].
  eauto.
Qed.

(** An energy query returns whenever the label it applies is well formed. *)
Lemma energy_query_returns s mid t0 t1 phase aggregation label :
  (if String.eqb aggregation "auto"
   then _calculate_optimal_aggregation
          (Z.of_nat (length (get_energy_readings s mid t0 t1 phase)))
          (DT.total_seconds t0 t1) 10000
   else Ok aggregation) = Ok label ->
  well_formed label ->
  exists r,
    get_energy_aggregated s mid t0 t1 phase aggregation = Ok r
    /\ energy_aggregation_applied r = label.
Proof.
  intros Hlabel Hwf. unfold get_energy_aggregated. cbv zeta.
  rewrite Hlabel. cbn [mbind result_bind].
  set (raw := get_energy_readings s mid t0 t1 phase).
  destruct (negb (String.eqb label "none") && (2 <=? length raw)%nat) eqn:E;
    [|cbn [mbind result_bind]; eauto].
  apply andb_true_iff in E as [_ Hlen]. apply Nat.leb_le in Hlen.
  destruct (query_buckets_total label t0 t1 Hwf) as (bs & Hbs).
  destruct (query_buckets_laid_out _ _ _ _ Hbs) as (next & cs & -> & _).
  pose proof (query_deltas_spec label (preprocess raw) next cs) as Hd.
  unfold query_buckets in Hbs. unfold query_deltas in Hd.
  destruct (PyStr.endswith label "min").
  - unfold _calculate_energy_deltas_with_interpolation.
    destruct (Nat.ltb_spec (length raw) 2); [lia|].
    rewrite Hbs. cbn [mbind result_bind]. rewrite Hd. cbn [mbind result_bind]. eauto.
  - unfold _calculate_energy_deltas_without_interpolation.
    destruct (Nat.ltb_spec (length raw) 2); [lia|].
    rewrite Hbs. cbn [mbind result_bind]. rewrite Hd. cbn [mbind result_bind]. eauto.
Qed.

(** *** Historical scans *)




Lemma ladder_parses :
  Forall (fun label => exists parsed, _parse_aggregation_to_sql label = Ok parsed)
         ("none" :: nice_bucket_names).
Proof. repeat constructor; eexists; vm_compute; reflexivity. Qed.

Lemma historical_query_returns s mid t0 t1 limit aggregation label :
  (if String.eqb aggregation "auto"
   then _calculate_optimal_aggregation (get_reading_count s mid t0 t1)
          (DT.total_seconds t0 t1) 10000
   else Ok aggregation) = Ok label ->
  (exists parsed, _parse_aggregation_to_sql label = Ok parsed) ->
  exists r,
    get_historical_readings s mid t0 t1 limit aggregation = Ok r
    /\ aggregation_applied r = label
    /\ original_count r =
       (if String.eqb aggregation "auto" then Some (get_reading_count s mid t0 t1) else None).
Proof.
  intros Hlabel (parsed & Hp). unfold get_historical_readings. cbv zeta.
  destruct (String.eqb aggregation "auto").
  - rewrite Hlabel. cbn [mbind result_bind].
    destruct (String.eqb label "none"); [eauto|].
    rewrite Hp. cbn [mbind result_bind]. destruct parsed as [[g w]|]; eauto.
  - injection Hlabel as ->. cbn [mbind result_bind].
    destruct (String.eqb label "none"); [eauto|].
    rewrite Hp. cbn [mbind result_bind]. destruct parsed as [[g w]|]; eauto.
Qed.



(** C1. A historical query at resolution [auto] returns, reports the row
    count it found, and applies [none] when that count is at most 10,000;
    otherwise it applies the ladder member of least width that is at least
    (span in minutes) / 10000 minutes wide, and [1month] when no member is
    that wide.  An energy query at [auto] makes the same selection from
    the number of energy readings in range. *)
Theorem auto_resolution_follows_the_ladder :
  (forall s mid t0 t1 limit,
      let count := get_reading_count s mid t0 t1 in
      let ideal_minutes := (DT.total_seconds t0 t1 / 60 / inject_Z 10000)%Q in
      exists r,
        get_historical_readings s mid t0 t1 limit "auto" = Ok r
        /\ original_count r = Some count
        /\ (count <= 10000 -> aggregation_applied r = "none")
        /\ (10000 < count -> smallest_sufficient ideal_minutes (aggregation_applied r)))
  /\ (forall s mid t0 t1 phase,
        let count := Z.of_nat (length (get_energy_readings s mid t0 t1 phase)) in
        let ideal_minutes := (DT.total_seconds t0 t1 / 60 / inject_Z 10000)%Q in
        exists r,
          get_energy_aggregated s mid t0 t1 phase "auto" = Ok r
          /\ raw_readings_count r = count
          /\ (count <= 10000 -> energy_aggregation_applied r = "none")
          /\ (10000 < count ->
              smallest_sufficient ideal_minutes (energy_aggregation_applied r))).
Proof.
  split.
  - intros s mid t0 t1 limit count ideal_minutes.
    destruct (optimal_aggregation_cases count (DT.total_seconds t0 t1))
      as [[Hc Hcalc]|[Hc Hcalc]].
    + destruct (historical_query_returns s mid t0 t1 limit "auto" "none" Hcalc)
        as (r & Hr & Hl & Ho).
      { eexists. reflexivity. }
      exists r. split; [exact Hr|]. split; [exact Ho|].
      split; [intros _; exact Hl|]. intros H; lia.
    + pose proof ladder_parses as Hparse. rewrite List.Forall_forall in Hparse.
      destruct (historical_query_returns s mid t0 t1 limit "auto" _ Hcalc)
        as (r & Hr & Hl & Ho).
      { apply Hparse. right. apply first_nice_bucket_in. }
      exists r. split; [exact Hr|]. split; [exact Ho|].
      split; [intros H; lia|].
      intros _. rewrite Hl. apply first_nice_bucket_smallest.
  - intros s mid t0 t1 phase count ideal_minutes.
    pose proof ladder_well_formed as Hwf. rewrite List.Forall_forall in Hwf.
    destruct (optimal_aggregation_cases count (DT.total_seconds t0 t1))
      as [[Hc Hcalc]|[Hc Hcalc]].
    + destruct (energy_query_returns s mid t0 t1 phase "auto" "none" Hcalc)
        as (r & Hr & Hl).
      { apply Hwf. now left. }
      exists r. destruct (get_energy_aggregated_inv _ _ _ _ _ _ _ Hr) as (_ & Hn & _).
      split; [exact Hr|]. split; [exact Hn|].
      split; [intros _; exact Hl|]. intros H; lia.
    + destruct (energy_query_returns s mid t0 t1 phase "auto" _ Hcalc) as (r & Hr & Hl).
      { apply Hwf. right. apply first_nice_bucket_in. }
      exists r. destruct (get_energy_aggregated_inv _ _ _ _ _ _ _ Hr) as (_ & Hn & _).
      split; [exact Hr|]. split; [exact Hn|].
      split; [intros H; lia|].
      intros _. rewrite Hl. apply first_nice_bucket_smallest.
Qed.

(** A store holding 10,001 readings of one meter, one per second. *)
Definition crowded_store : store :=
  {| meters := ∅;
     readings :=
       List.map
         (fun i : nat =>
            {| id := Z.of_nat i;
               timestamp := T0 + Z.of_nat i * DT.SECOND;
               r_meter_id := "meter_001";
               voltage_rms := 230; current_rms := 1; active_power := 100;
               reactive_power := 0; apparent_power := 100; power_factor := 1;
               frequency := 50 |})
         (seq 1 (Z.to_nat 10001));
     next_reading_id := 10002;
     energy_readings := [] |}.

Lemma auto_resolution_follows_the_ladder_witness :
  exists r,
    get_historical_readings crowded_store "meter_001" T0 (DT.add_days T0 1) None "auto" = Ok r
    /\ original_count r = Some 10001
    /\ smallest_sufficient (DT.total_seconds T0 (DT.add_days T0 1) / 60 / inject_Z 10000)%Q
         (aggregation_applied r).
Proof.
  destruct auto_resolution_follows_the_ladder as [H _].
  destruct (H crowded_store "meter_001" T0 (DT.add_days T0 1) None)
    as (r & Hr & Ho & _ & Hgt).
  exists r. split; [exact Hr|]. split.
  - rewrite Ho. vm_compute. reflexivity.
  - apply Hgt. vm_compute. reflexivity.
Defined.

End Resolution.

(** ** Energy queries: returned buckets *)

Section EnergyClaims.

Import Database.

(** A successful energy query with a resolution and at least two raw
    readings returns, in bucket order, one entry per bucket whose computed
    delta exists and is not negative. *)
Lemma energy_query_outputs s mid t0 t1 phase aggregation r :
  get_energy_aggregated s mid t0 t1 phase aggregation = Ok r ->
  let raw := get_energy_readings s mid t0 t1 phase in
  let label := energy_aggregation_applied r in
  String.eqb label "none" = false -> (2 <= length raw)%nat ->
  exists (next : DT.datetime -> DT.datetime) (cs : list DT.datetime),
    query_buckets label t0 t1 = Ok (List.map (bucket_at next true) cs)
    /\ StronglySorted Z.lt cs
    /\ (cs <> [] -> label_step label = Some next)
    /\ Forall (fun c => c <= t1 /\ c < next c /\ t0 < next c) cs
    /\ aggregated r =
       omap (fun c => emit c (computed_delta label (preprocess raw) (bucket_at next true c)))
            cs.
Proof.
  intros Hr raw label Hnone Hlen.
  destruct (get_energy_aggregated_inv _ _ _ _ _ _ _ Hr) as (_ & _ & _ & _ & Hq).
  destruct (Hq Hnone Hlen) as (bs & Hbs & Hout).
  destruct (query_buckets_laid_out _ _ _ _ Hbs) as (next & cs & -> & Hs & Hstep & Hall).
  exists next, cs. rewrite query_deltas_spec in Hout. injection Hout as Hout.
  fold raw in Hout. fold label in Hout.
  repeat (split; [assumption|]). now symmetry.
Qed.



(** Sample series with one counter reset between 01:05 and 01:50. *)
Definition energy_sample (minutes : Z) (value : Q) : Models.EnergyReading :=
  {| Models.er_timestamp := DT.add_minutes T0 minutes;
     Models.er_meter_id := "meter_001";
     Models.er_phase := "A";
     Models.er_total_kwh := value |}.



Lemma last_is_List_last {A : Type} (l : list A) (x d : A) :
  last (x :: l) = Some (List.last (x :: l) d).
Proof.
  revert x. induction l as [|y l IH]; intros x; [reflexivity|].
  change (last (x :: y :: l)) with (last (y :: l)).
  change (List.last (x :: y :: l) d) with (List.last (y :: l) d).
  apply IH.
Qed.

Definition timestamp_le (x y : energy_row) : Prop := e_timestamp x <= e_timestamp y.

Lemma insert_energy_asc_in r rows y :
  In y (insert_energy_asc r rows) -> y = r \/ In y rows.
Proof.
  induction rows as [|h t IH]; cbn [insert_energy_asc]; intros Hy.
  - destruct Hy as [<-|[]]. now left.
  - destruct (e_timestamp r <=? e_timestamp h).
    + destruct Hy as [<-|Hy]; [now left|now right].
    + destruct Hy as [<-|Hy]; [right; now left|].
      destruct (IH Hy); [now left|right; now right].
Qed.

Lemma insert_energy_asc_sorted r rows :
  StronglySorted timestamp_le rows -> StronglySorted timestamp_le (insert_energy_asc r rows).
Proof.
  induction 1 as [|h t Ht IH Hall]; cbn [insert_energy_asc].
  - repeat constructor.
  - destruct (Z.leb_spec (e_timestamp r) (e_timestamp h)) as [Hle|Hgt].
    + constructor; [constructor; assumption|].
      constructor; [exact Hle|].
      eapply Forall_impl; [exact Hall|]. unfold timestamp_le. intros; lia.
    + constructor; [exact IH|].
      apply List.Forall_forall. intros y Hy.
      destruct (insert_energy_asc_in _ _ _ Hy) as [->|Hy'].
      * unfold timestamp_le. lia.
      * rewrite List.Forall_forall in Hall. now apply Hall.
Qed.

Lemma get_energy_readings_sorted s mid t0 t1 phase :
  StronglySorted timestamp_le (get_energy_readings s mid t0 t1 phase).
Proof.
  unfold get_energy_readings.
  induction (List.filter _ _) as [|r rows IH]; cbn; [constructor|].
  now apply insert_energy_asc_sorted.
Qed.
















End EnergyClaims.

(** ** Order and range of returned buckets *)

Section BucketOrder.

Import Database.

(** *** Order of the aggregated scan *)












Lemma firstn_incl {A : Type} n (l : list A) x : In x (firstn n l) -> In x l.
Proof.
  intros H. rewrite <- (firstn_skipn n l). apply in_or_app. now left.
Qed.







End BucketOrder.

(** ** Retention compaction *)

Section Compaction.

Import Database.

Definition power_reading (t : DT.datetime) (watts : Q) : Models.MeterReading :=
  {| Models.mr_timestamp := t;
     Models.mr_meter_id := "meter_001";
     Models.mr_voltage_rms := 230; Models.mr_current_rms := 1;
     Models.mr_active_power := watts; Models.mr_reactive_power := 0;
     Models.mr_apparent_power := watts; Models.mr_power_factor := 1;
     Models.mr_frequency := 50 |}.

(** Two raw readings in the hour 05:00 of 2024-01-01: 05:10 (100 W) and
    05:20 (200 W). *)
Definition compaction_store : store :=
  store_reading (power_reading (DT.add_minutes (DT.add_hours T0 5) 20) 200)
    (store_reading (power_reading (DT.add_minutes (DT.add_hours T0 5) 10) 100)
       empty_store).

(** [datetime.utcnow()] at the pass: 2024-07-19 00:00:00. *)
Definition compaction_now : DT.datetime := DT.add_days T0 200.

(** C6. On a store whose only old data are two raw rows of one hour
    (05:10 and 05:20), the compaction pass inserts the hour's average
    stamped 10:00 (the start of the hour moved forward by the hour
    number), deletes only the 05:10 row and keeps the raw 05:20 row: the
    hour is not replaced by a single averaged row stamped at that hour. *)
Theorem compaction_misdates_average_and_keeps_raw_row :
  let '(s', deleted) := aggregate_old_data compaction_now 90 1 compaction_store in
  List.map (fun r => (id r, timestamp r)) (readings s')
  = [ (2, DT.add_minutes (DT.add_hours T0 5) 20); (3, DT.add_hours T0 10) ]
  /\ Forall2 (fun r watts => (active_power r == watts)%Q) (readings s') [200%Q; 150%Q]
  /\ deleted = 1
  /\ ~ (exists r, In r (readings s') /\ timestamp r = DT.add_hours T0 5).
Proof.
  vm_compute. split; [reflexivity|]. split; [|split; [reflexivity|]].
  - repeat constructor.
  - intros (r & [<-|[<-|[]]] & Hr); discriminate Hr.
Qed.

End Compaction.

(** ** Energy conservation at minute resolution *)

Section Conservation.

Import Database.

(** The bucket starts a [while current <= end_time] loop visits from
    [current], and the first instant past [end_time] it stops at. *)
Inductive chain (next : DT.datetime -> DT.datetime) (end_time : DT.datetime)
    : DT.datetime -> list DT.datetime -> DT.datetime -> Prop :=
| chain_done current :
    end_time < current -> chain next end_time current [] current
| chain_step current cs final :
    current <= end_time ->
    chain next end_time (next current) cs final ->
    chain next end_time current (current :: cs) final.

Lemma bucket_loop_chain next keep_start end_time : forall fuel current bs,
  bucket_loop fuel next keep_start current end_time = Ok bs ->
  exists cs final,
    bs = List.map (bucket_at next keep_start) cs
    /\ chain next end_time current cs final.
Proof.
  induction fuel as [|fuel IH]; intros current bs; cbn [bucket_loop];
    destruct (Z.leb_spec current end_time) as [Hle|Hgt]; try discriminate.
  - intros [= <-]. exists [], current. split; [reflexivity|now constructor].
  - destruct (bucket_loop fuel next keep_start (next current) end_time) as [rest| |] eqn:E;
      cbn [mbind result_bind]; try discriminate.
    intros [= <-]. destruct (IH _ _ E) as (cs & final & -> & Hc).
    exists (current :: cs), final. split; [reflexivity|now constructor].
  - intros [= <-]. exists [], current. split; [reflexivity|now constructor].
Qed.

Lemma chain_final (P : DT.datetime -> Prop) next end_time current cs final :
  (forall c, P c -> P (next c)) ->
  chain next end_time current cs final ->
  P current -> P final /\ end_time < final.
Proof.
  intros Hstep. induction 1 as [current Hgt|current cs final Hle Hc IH]; intros HP.
  - split; assumption.
  - apply IH. now apply Hstep.
Qed.

Lemma minute_buckets_chain aggregation t0 t1 bs :
  minute_buckets true aggregation (floor_minute t0) t1 = Ok bs ->
  exists minutes anchor cs final,
    PyStr.int (PyStr.drop_last 3 aggregation) = Ok minutes
    /\ 0 < minutes
    /\ anchor <= t0
    /\ anchor mod DT.MINUTE = 0
    /\ final mod DT.MINUTE = 0
    /\ t1 < final
    /\ bs = List.map (bucket_at (fun c => DT.add_minutes c minutes) true) cs
    /\ chain (fun c => DT.add_minutes c minutes) t1 anchor cs final.
Proof.
  intros Hrun.
  destruct (minute_buckets_grid _ _ _ _ _ Hrun) as (minutes & _ & Hint & Hpos & _).
  unfold minute_buckets in Hrun. rewrite Hint in Hrun. cbn [mbind result_bind] in Hrun.
  destruct (Z.eqb_spec minutes 0) as [E|_]; [lia|].
  set (anchor := DT.replace_minute (floor_minute t0)
                   (DT.minute (floor_minute t0) / minutes * minutes)) in Hrun.
  assert (Hanchor : anchor = t0 / DT.MINUTE * DT.MINUTE - DT.minute t0 mod minutes * DT.MINUTE).
  { subst anchor. unfold DT.replace_minute. rewrite minute_of_floor, floor_minute_eq.
    rewrite (div_mul_le (DT.minute t0) minutes) by assumption. lia. }
  pose proof (Z.mod_pos_bound (DT.minute t0) minutes Hpos) as Hr.
  assert (Hle : anchor <= t0)
    by (rewrite Hanchor; dt_unfold; Z.div_mod_to_equations; nia).
  assert (Hal : anchor mod DT.MINUTE = 0).
  { rewrite Hanchor. rewrite <- Z.mul_sub_distr_r. apply Z.mod_mul.
    unfold DT.MINUTE, DT.SECOND. lia. }
  destruct (bucket_loop_chain _ _ _ _ _ _ Hrun) as (cs & final & -> & Hc).
  destruct (chain_final (fun c => c mod DT.MINUTE = 0) _ _ _ _ _
              ltac:(intros c Hc0; unfold DT.add_minutes;
                    rewrite Z.mod_add by (unfold DT.MINUTE, DT.SECOND; lia); exact Hc0)
              Hc Hal) as [Hfa Hft].
  exists minutes, anchor, cs, final. repeat (split; [assumption|]). split; [reflexivity|exact Hc].
Qed.

(** *** A reference reading of the interpolation *)

Definition linear (a b : reading_ms) (t : Z) : Q :=
  (kwh a + (kwh b - kwh a)
           * (inject_Z (t - time_ms a) / inject_Z (time_ms b - time_ms a)))%Q.

(** The value at [t], for [t] after the reading [prev] that precedes [rs]. *)
Fixpoint interpolate_from (prev : reading_ms) (rs : list reading_ms) (t : Z) : Q :=
  match rs with
  | [] => kwh prev
  | b :: rest => if t <=? time_ms b then linear prev b t else interpolate_from b rest t
  end.

Definition interpolate_ref (r0 : reading_ms) (rest : list reading_ms) (t : Z) : Q :=
  if t <=? time_ms r0 then kwh r0 else interpolate_from r0 rest t.

Lemma interpolate_from_spec : forall rest pre a t,
  StronglySorted time_le (pre ++ a :: rest) ->
  time_ms a < t ->
  exists v, _interpolate_kwh_at_time (pre ++ a :: rest) t = Some v
            /\ (v == interpolate_from a rest t)%Q.
Proof.
  induction rest as [|b post IH]; intros pre a t Hs Ht; cbn [interpolate_from].
  - rewrite (interpolate_after pre a t Hs Ht). eexists; split; [reflexivity|reflexivity].
  - destruct (Z.leb_spec t (time_ms b)) as [Hle|Hgt].
    + apply interpolate_between; [assumption|lia].
    + specialize (IH (pre ++ [a]) b t).
      rewrite <- app_assoc in IH. cbn [app] in IH. now apply IH.
Qed.

Lemma interpolate_ref_spec r0 rest t :
  StronglySorted time_le (r0 :: rest) ->
  exists v, _interpolate_kwh_at_time (r0 :: rest) t = Some v
            /\ (v == interpolate_ref r0 rest t)%Q.
Proof.
  intros Hs. unfold interpolate_ref.
  destruct (Z.leb_spec t (time_ms r0)) as [Hle|Hgt].
  - rewrite (interpolate_before r0 rest t Hs Hle). eexists; split; reflexivity.
  - apply (interpolate_from_spec rest [] r0 t Hs Hgt).
Qed.

Definition kwh_le (x y : reading_ms) : Prop := (kwh x <= kwh y)%Q.

Lemma linear_bounds a b t :
  time_ms a < t <= time_ms b -> kwh_le a b ->
  (kwh a <= linear a b t <= kwh b)%Q.
Proof.
  intros [H1 H2] Hk. unfold linear, kwh_le in *.
  set (d := inject_Z (time_ms b - time_ms a)).
  set (n := inject_Z (t - time_ms a)).
  assert (Hd : (0 < d)%Q) by (subst d; change 0%Q with (inject_Z 0); rewrite <- Zlt_Qlt; lia).
  assert (Hn : (0 <= n)%Q) by (subst n; change 0%Q with (inject_Z 0); rewrite <- Zle_Qle; lia).
  assert (Hnd : (n <= d)%Q) by (subst n d; rewrite <- Zle_Qle; lia).
  assert (Hr0 : (0 <= n / d)%Q).
  { apply Qle_shift_div_l; [exact Hd|]. lra. }
  assert (Hr1 : (n / d <= 1)%Q).
  { apply Qle_shift_div_r; [exact Hd|]. lra. }
  split; nra.
Qed.

Lemma linear_monotone a b t t' :
  time_ms a < t -> t <= t' -> t' <= time_ms b -> kwh_le a b ->
  (linear a b t <= linear a b t')%Q.
Proof.
  intros H1 H2 H3 Hk. unfold linear, kwh_le in *.
  set (d := inject_Z (time_ms b - time_ms a)).
  assert (Hd : (0 < d)%Q) by (subst d; change 0%Q with (inject_Z 0); rewrite <- Zlt_Qlt; lia).
  assert (Hn : (inject_Z (t - time_ms a) <= inject_Z (t' - time_ms a))%Q)
    by (rewrite <- Zle_Qle; lia).
  assert (Hr : (inject_Z (t - time_ms a) / d <= inject_Z (t' - time_ms a) / d)%Q).
  { unfold Qdiv. apply Qmult_le_compat_r; [exact Hn|].
    apply Qlt_le_weak. now apply Qinv_lt_0_compat. }
  nra.
Qed.

Lemma interpolate_from_lower : forall rs prev t,
  StronglySorted time_le (prev :: rs) ->
  StronglySorted kwh_le (prev :: rs) ->
  time_ms prev < t ->
  (kwh prev <= interpolate_from prev rs t)%Q.
Proof.
  induction rs as [|b rest IH]; intros prev t Ht Hk Hp; cbn [interpolate_from].
  - apply Qle_refl.
  - apply StronglySorted_inv in Ht as [Ht _].
    apply StronglySorted_inv in Hk as [Hk Hall].
    apply Forall_cons in Hall as [Hpb _].
    destruct (Z.leb_spec t (time_ms b)) as [Hle|Hgt].
    + now apply linear_bounds.
    + eapply Qle_trans; [exact Hpb|]. now apply IH.
Qed.

Lemma interpolate_from_monotone : forall rs prev t t',
  StronglySorted time_le (prev :: rs) ->
  StronglySorted kwh_le (prev :: rs) ->
  time_ms prev < t -> t <= t' ->
  (interpolate_from prev rs t <= interpolate_from prev rs t')%Q.
Proof.
  induction rs as [|b rest IH]; intros prev t t' Ht Hk Hp Htt; cbn [interpolate_from].
  - apply Qle_refl.
  - apply StronglySorted_inv in Ht as [Ht _].
    apply StronglySorted_inv in Hk as [Hk Hall].
    apply Forall_cons in Hall as [Hpb _].
    destruct (Z.leb_spec t (time_ms b)) as [Hle|Hgt];
      destruct (Z.leb_spec t' (time_ms b)) as [Hle'|Hgt']; try lia.
    + now apply linear_monotone.
    + eapply Qle_trans; [apply linear_bounds; [lia|exact Hpb]|].
      now apply interpolate_from_lower.
    + apply IH; assumption.
Qed.

Lemma interpolate_ref_monotone r0 rest t t' :
  StronglySorted time_le (r0 :: rest) ->
  StronglySorted kwh_le (r0 :: rest) ->
  t <= t' ->
  (interpolate_ref r0 rest t <= interpolate_ref r0 rest t')%Q.
Proof.
  intros Ht Hk Htt. unfold interpolate_ref.
  destruct (Z.leb_spec t (time_ms r0)) as [Hle|Hgt];
    destruct (Z.leb_spec t' (time_ms r0)) as [Hle'|Hgt']; try lia.
  - apply Qle_refl.
  - now apply interpolate_from_lower.
  - now apply interpolate_from_monotone.
Qed.

(** On readings sorted by time whose counter never decreases, the
    interpolated value never decreases with the target time. *)
Lemma interpolate_monotone rs t t' v v' :
  StronglySorted time_le rs ->
  StronglySorted kwh_le rs ->
  t <= t' ->
  _interpolate_kwh_at_time rs t = Some v ->
  _interpolate_kwh_at_time rs t' = Some v' ->
  (v <= v')%Q.
Proof.
  intros Ht Hk Htt Hv Hv'. destruct rs as [|r0 rest]; [discriminate|].
  destruct (interpolate_ref_spec r0 rest t Ht) as (w & Hw & Ew).
  destruct (interpolate_ref_spec r0 rest t' Ht) as (w' & Hw' & Ew').
  rewrite Hv in Hw. injection Hw as <-. rewrite Hv' in Hw'. injection Hw' as <-.
  rewrite Ew, Ew'. now apply interpolate_ref_monotone.
Qed.

(** *** Readings as the query hands them to the delta loop *)

Lemma sort_by_time_ms_sorted_id rs :
  StronglySorted time_le rs -> sort_by_time_ms rs = rs.
Proof.
  induction 1 as [|r rs Hs IH Hall]; [reflexivity|].
  cbn [sort_by_time_ms fold_right]. fold (sort_by_time_ms rs). rewrite IH.
  destruct rs as [|h t]; [reflexivity|]. cbn [insert_by_time_ms].
  apply Forall_cons in Hall as [Hh _]. unfold time_le in Hh.
  destruct (Z.leb_spec (time_ms r) (time_ms h)); [reflexivity|lia].
Qed.

Lemma with_time_ms_sorted raw :
  StronglySorted timestamp_le raw -> StronglySorted time_le (List.map with_time_ms raw).
Proof.
  induction 1 as [|r rs Hs IH Hall]; cbn [List.map]; constructor; [exact IH|].
  apply Forall_map. eapply Forall_impl; [exact Hall|].
  intros x Hx. unfold time_le, timestamp_le in *. cbn.
  unfold DT.timestamp_ms. apply Z.div_le_mono; lia.
Qed.

Lemma preprocess_of_query s mid t0 t1 phase :
  preprocess (get_energy_readings s mid t0 t1 phase)
  = List.map with_time_ms (get_energy_readings s mid t0 t1 phase).
Proof.
  unfold preprocess. apply sort_by_time_ms_sorted_id, with_time_ms_sorted.
  apply get_energy_readings_sorted.
Qed.

Lemma sorted_energy_in rows r :
  In r (fold_right insert_energy_asc [] rows) -> In r rows.
Proof.
  induction rows as [|h rows IH]; cbn [fold_right]; [intros []|].
  intros H. apply insert_energy_asc_in in H as [->|H]; [now left|right; now apply IH].
Qed.

Lemma get_energy_readings_selected s mid t0 t1 phase r :
  In r (get_energy_readings s mid t0 t1 phase) ->
  In r (energy_readings s) /\ energy_selected mid t0 t1 phase r = true.
Proof.
  unfold get_energy_readings. intros H. apply sorted_energy_in in H.
  now apply filter_In in H.
Qed.

Lemma get_energy_readings_in_range s mid t0 t1 phase r :
  In r (get_energy_readings s mid t0 t1 phase) -> t0 <= e_timestamp r <= t1.
Proof.
  intros H. apply get_energy_readings_selected in H as [_ H].
  unfold energy_selected in H.
  apply andb_true_iff in H as [H H2]. apply andb_true_iff in H as [_ H1].
  apply Z.leb_le in H1, H2. lia.
Qed.

(** *** Telescoping over the bucket chain *)

Definition value_at (rs : list reading_ms) (t : Z) : Q :=
  match _interpolate_kwh_at_time rs t with
  | Some v => v
  | None => 0%Q
  end.

Lemma chain_deltas rs next end_time current cs final :
  rs <> [] ->
  StronglySorted time_le rs ->
  StronglySorted kwh_le rs ->
  (forall c, c <= next c) ->
  chain next end_time current cs final ->
  let out := omap (fun c => emit c (interpolated_delta rs (bucket_at next true c))) cs in
  List.map b_timestamp out = cs
  /\ (Qsum (List.map energy_kwh out)
      == value_at rs (DT.timestamp_ms final) - value_at rs (DT.timestamp_ms current))%Q.
Proof.
  intros Hne Ht Hk Hnext. induction 1 as [current Hgt|current cs final Hle Hc IH]; cbv zeta.
  - split; [reflexivity|]. cbn. ring.
  - destruct (interpolate_some rs (DT.timestamp_ms current) Hne) as (v0 & Hv0).
    destruct (interpolate_some rs (DT.timestamp_ms (next current)) Hne) as (v1 & Hv1).
    assert (Hmono : (v0 <= v1)%Q).
    { eapply (interpolate_monotone rs); [exact Ht|exact Hk| |exact Hv0|exact Hv1].
      unfold DT.timestamp_ms. apply Z.div_le_mono; [lia|apply Hnext]. }
    assert (Hemit : emit current (interpolated_delta rs (bucket_at next true current))
                    = Some {| b_timestamp := current; energy_kwh := v1 - v0 |}).
    { unfold interpolated_delta. cbn [bucket_at start_ms end_ms]. rewrite Hv0, Hv1.
      cbn [emit]. assert (Hpos : Qle_bool 0 (v1 - v0) = true) by (apply Qle_bool_iff; lra).
      now rewrite Hpos. }
    cbn [omap list_omap]. rewrite Hemit. destruct IH as [IH1 IH2].
    cbn [List.map b_timestamp energy_kwh].
    split; [now f_equal|].
    unfold Qsum in *. cbn [fold_right]. unfold value_at in *.
    rewrite Hv0. rewrite Hv1 in IH2. lra.
Qed.

(** X1. With a counter that never decreases over the raw readings of the
    range, an energy query at a minute resolution drops no bucket (the
    returned timestamps are the starts of all the buckets it built, in
    order) and its bucket deltas add up to the raw total it reports. *)
Theorem minute_deltas_add_up_to_raw_total :
  forall s mid t0 t1 phase aggregation r,
    get_energy_aggregated s mid t0 t1 phase aggregation = Ok r ->
    PyStr.endswith (energy_aggregation_applied r) "min" = true ->
    (2 <= length (get_energy_readings s mid t0 t1 phase))%nat ->
    StronglySorted (fun a b => (total_kwh a <= total_kwh b)%Q)
      (get_energy_readings s mid t0 t1 phase) ->
    (exists next cs,
        query_buckets (energy_aggregation_applied r) t0 t1
        = Ok (List.map (bucket_at next true) cs)
        /\ List.map b_timestamp (aggregated r) = cs)
    /\ (Qsum (List.map energy_kwh (aggregated r)) == raw_total_kwh r)%Q.
Proof.
  intros s mid t0 t1 phase aggregation r Hr Hmin Hlen Hmono.
  set (raw := get_energy_readings s mid t0 t1 phase) in *.
  destruct (get_energy_aggregated_inv _ _ _ _ _ _ _ Hr) as (_ & _ & Htotal & _ & Hq).
  fold raw in Htotal, Hq.
  assert (Hnone : String.eqb (energy_aggregation_applied r) "none" = false).
  { destruct (String.eqb_spec (energy_aggregation_applied r) "none") as [E|]; [|reflexivity].
    rewrite E in Hmin. discriminate Hmin. }
  destruct (Hq Hnone Hlen) as (bs & Hbs & Hout).
  unfold query_deltas in Hout. rewrite Hmin in Hout.
  pose proof Hbs as Hbs'. unfold query_buckets, interpolation_buckets in Hbs'.
  rewrite Hmin in Hbs'.
  destruct (minute_buckets_chain _ _ _ _ Hbs')
    as (minutes & anchor & cs & final & _ & Hpos & Hanchor & _ & Hfinal & Hend & -> & Hchain).
  rewrite interpolated_deltas_spec in Hout. injection Hout as Hout.
  unfold raw in Hout. rewrite preprocess_of_query in Hout. fold raw in Hout.
  destruct raw as [|first [|second more]] eqn:Eraw; try (cbn in Hlen; lia).
  set (rs := List.map with_time_ms (first :: second :: more)) in *.
  assert (Hts : StronglySorted time_le rs).
  { subst rs. rewrite <- Eraw. apply with_time_ms_sorted, get_energy_readings_sorted. }
  assert (Hks : StronglySorted kwh_le rs).
  { subst rs. clear -Hmono. induction Hmono as [|x l Hs IH Hall]; cbn [List.map];
      constructor; [exact IH|].
    apply Forall_map. eapply Forall_impl; [exact Hall|]. intros y Hy. exact Hy. }
  destruct (chain_deltas rs (fun c : DT.datetime => DT.add_minutes c minutes)
              t1 anchor cs final)
    as [Hstamps Hsum]; try assumption.
  { subst rs. discriminate. }
  { intros c. unfold DT.add_minutes, DT.MINUTE, DT.SECOND. lia. }
  rewrite Hout in Hstamps, Hsum.
  split; [exists (fun c => DT.add_minutes c minutes), cs; split; assumption|].
  rewrite Hsum, Htotal.
  assert (Hin : forall x, In x (first :: second :: more) -> t0 <= e_timestamp x <= t1).
  { intros x Hx. apply (get_energy_readings_in_range s mid t0 t1 phase).
    fold raw. rewrite Eraw. exact Hx. }
  (* value at the first boundary *)
  assert (Hstart : value_at rs (DT.timestamp_ms anchor) = total_kwh first).
  { unfold value_at. subst rs. cbn [List.map] in *.
    rewrite interpolate_before; [reflexivity|exact Hts|].
    cbn. unfold DT.timestamp_ms. apply Z.div_le_mono; [lia|].
    specialize (Hin first ltac:(now left)). lia. }
  (* value at the last boundary *)
  set (l := List.last (first :: second :: more) first).
  assert (Hsplit : first :: second :: more
                   = removelast (first :: second :: more) ++ [l]).
  { apply app_removelast_last. discriminate. }
  assert (Hstop : value_at rs (DT.timestamp_ms final) = total_kwh l).
  { unfold value_at. subst rs. rewrite Hsplit in Hts |- *.
    rewrite List.map_app in Hts |- *. cbn [List.map] in Hts |- *.
    rewrite interpolate_after; [reflexivity|exact Hts|].
    cbn [with_time_ms time_ms]. unfold DT.timestamp_ms.
    assert (Hl : In l (first :: second :: more)).
    { rewrite Hsplit. apply in_or_app. right. now left. }
    specialize (Hin l Hl).
    assert (Hm : final mod 1000 = 0).
    { unfold DT.MINUTE, DT.SECOND in Hfinal. Z.div_mod_to_equations. lia. }
    Z.div_mod_to_equations. lia. }
  rewrite Hstart, Hstop. reflexivity.
Qed.

(** *** Buckets of the first/last strategy *)

(** Buckets stacked one after the other from [T] on: each starts no
    earlier than the one before it ends. *)
Inductive stacked : Z -> list bucket -> Prop :=
| stacked_nil T : stacked T []
| stacked_cons T b bs :
    T <= start_ms b -> start_ms b <= end_ms b ->
    stacked (end_ms b) bs -> stacked T (b :: bs).

Lemma stacked_weaken T T' bs : T' <= T -> stacked T bs -> stacked T' bs.
Proof. intros Hle H. destruct H; constructor; (assumption || lia). Qed.

Lemma chain_stacked (P : DT.datetime -> Prop) next keep_start end_time current cs final :
  (forall c, P c -> c <= next c /\ P (next c)) ->
  chain next end_time current cs final ->
  P current ->
  stacked (DT.timestamp_ms current) (List.map (bucket_at next keep_start) cs).
Proof.
  intros Hstep. induction 1 as [current Hgt|current cs final Hle Hc IH]; intros HP;
    cbn [List.map]; constructor; cbn [bucket_at start_ms end_ms].
  - lia.
  - unfold DT.timestamp_ms. apply Z.div_le_mono; [lia|]. now apply Hstep.
  - apply IH. now apply Hstep.
Qed.

Lemma first_last_buckets_stacked aggregation t0 t1 bs :
  first_last_buckets aggregation t0 t1 = Ok bs ->
  exists T, stacked T bs.
Proof.
  unfold first_last_buckets.
  destruct (PyStr.endswith aggregation "hour");
    [|destruct (PyStr.endswith aggregation "day");
      [|destruct (String.eqb aggregation "1week");
        [|destruct (String.eqb aggregation "1month")]]].
  - unfold hour_buckets.
    destruct (PyStr.int (PyStr.drop_last 4 aggregation)) as [hours| |] eqn:Hint;
      cbn [mbind result_bind]; try discriminate.
    pose proof (int_nonneg _ _ Hint) as Hnn.
    destruct (hours =? 0); [discriminate|]. intros Hrun.
    destruct (bucket_loop_chain _ _ _ _ _ _ Hrun) as (cs & final & -> & Hc).
    eexists. eapply (chain_stacked (fun _ => True)); [|exact Hc|exact I].
    intros c _. split; [|exact I]. unfold DT.add_hours, DT.HOUR, DT.MINUTE, DT.SECOND. lia.
  - unfold day_buckets.
    destruct (PyStr.int (PyStr.drop_last 3 aggregation)) as [days| |] eqn:Hint;
      cbn [mbind result_bind]; try discriminate.
    pose proof (int_nonneg _ _ Hint) as Hnn. intros Hrun.
    destruct (bucket_loop_chain _ _ _ _ _ _ Hrun) as (cs & final & -> & Hc).
    eexists. eapply (chain_stacked (fun _ => True)); [|exact Hc|exact I].
    intros c _. split; [|exact I].
    unfold DT.add_days, DT.DAY, DT.HOUR, DT.MINUTE, DT.SECOND. lia.
  - unfold week_buckets. intros Hrun.
    destruct (bucket_loop_chain _ _ _ _ _ _ Hrun) as (cs & final & -> & Hc).
    eexists. eapply (chain_stacked (fun _ => True)); [|exact Hc|exact I].
    intros c _. split; [|exact I].
    unfold DT.add_days, DT.DAY, DT.HOUR, DT.MINUTE, DT.SECOND. lia.
  - unfold month_buckets. intros Hrun.
    destruct (month_anchor t0) as (anchor & Ha & Hstart & _).
    rewrite Ha in Hrun.
    destruct (bucket_loop_chain _ _ _ _ _ _ Hrun) as (cs & final & -> & Hc).
    eexists. eapply (chain_stacked month_start); [|exact Hc|exact Hstart].
    intros c Hm. destruct (next_month_step c Hm) as [H1 H2]. split; [|exact H2].
    pose proof DAY_pos. lia.
  - intros [= <-]. exists 0. constructor.
Qed.

(** *** Spread of the counter over a run of readings *)

Definition spread (rs : list reading_ms) : Q :=
  match rs with
  | [] => 0%Q
  | f :: _ => (kwh (List.last rs f) - kwh f)%Q
  end.

Lemma sorted_head_last (f : reading_ms) (rest : list reading_ms) :
  StronglySorted kwh_le (f :: rest) -> (kwh f <= kwh (List.last (f :: rest) f))%Q.
Proof.
  intros H. apply StronglySorted_inv in H as [_ Hall].
  destruct rest as [|x rest']; [apply Qle_refl|].
  rewrite List.Forall_forall in Hall. apply Hall.
  change (List.last (f :: x :: rest') f) with (List.last (x :: rest') f).
  assert (Hne : x :: rest' <> []) by discriminate.
  destruct (exists_last Hne) as (pre & y & E). rewrite E, last_last.
  apply in_or_app. right. now left.
Qed.

Lemma spread_nonneg rs : StronglySorted kwh_le rs -> (0 <= spread rs)%Q.
Proof.
  destruct rs as [|f rest]; [intros _; apply Qle_refl|].
  intros H. pose proof (sorted_head_last f rest H). unfold spread. lra.
Qed.

Lemma spread_app A B :
  StronglySorted kwh_le (A ++ B) -> (spread A + spread B <= spread (A ++ B))%Q.
Proof.
  intros H. destruct A as [|f A'].
  - cbn [app spread]. lra.
  - destruct B as [|g B'].
    + rewrite app_nil_r. cbn [spread]. lra.
    + pose proof (StronglySorted_app_1_r _ _ _ H) as HB.
      pose proof (sorted_head_last g B' HB) as HgL.
      assert (HlastA : (kwh (List.last (f :: A') f) <= kwh g)%Q).
      { assert (Hne : f :: A' <> []) by discriminate.
        destruct (exists_last Hne) as (pre & y & E). rewrite E, last_last.
        rewrite E in H. rewrite <- app_assoc in H. cbn [app] in H.
        apply StronglySorted_app_1_r in H. apply StronglySorted_inv in H as [_ Hall].
        apply Forall_cons in Hall as [Hy _]. exact Hy. }
      assert (Hlast : List.last ((f :: A') ++ g :: B') f = List.last (g :: B') g).
      { assert (Hne : g :: B' <> []) by discriminate.
        destruct (exists_last Hne) as (pre & y & E). rewrite E.
        rewrite app_assoc, !last_last. reflexivity. }
      unfold spread at 3. cbn [app]. change (f :: A' ++ g :: B') with ((f :: A') ++ g :: B').
      rewrite Hlast. cbn [spread]. lra.
Qed.

Definition from (T : Z) (rs : list reading_ms) : list reading_ms :=
  List.filter (fun r => T <=? time_ms r) rs.

Lemma from_all T rs : Forall (fun r => T <= time_ms r) rs -> from T rs = rs.
Proof.
  induction 1 as [|r rs Hr Hall IH]; [reflexivity|].
  cbn [from List.filter]. destruct (Z.leb_spec T (time_ms r)); [|lia].
  f_equal. exact IH.
Qed.

Lemma inside_none b rs :
  Forall (fun r => end_ms b <= time_ms r) rs -> inside b rs = [].
Proof.
  induction 1 as [|r rs Hr Hall IH]; [reflexivity|].
  cbn [inside List.filter]. unfold in_bucket at 1.
  destruct (Z.ltb_spec (time_ms r) (end_ms b)); [lia|].
  rewrite andb_false_r. exact IH.
Qed.

Lemma from_split b rs :
  StronglySorted time_le rs ->
  start_ms b <= end_ms b ->
  from (start_ms b) rs = inside b rs ++ from (end_ms b) rs.
Proof.
  intros Hs Hb. induction Hs as [|r rs Hs IH Hall].
  - reflexivity.
  - destruct (Z.leb_spec (end_ms b) (time_ms r)) as [Hge|Hlt].
    + assert (Hall' : Forall (fun x => end_ms b <= time_ms x) (r :: rs)).
      { constructor; [exact Hge|]. eapply Forall_impl; [exact Hall|].
        unfold time_le. intros; lia. }
      rewrite (inside_none b _ Hall'), (from_all (end_ms b) _ Hall').
      apply from_all. eapply Forall_impl; [exact Hall'|]. cbn. intros; lia.
    + cbn [from inside List.filter]. unfold in_bucket at 1.
      destruct (Z.leb_spec (start_ms b) (time_ms r)) as [H1|H1];
        destruct (Z.ltb_spec (time_ms r) (end_ms b)) as [H2|H2];
        destruct (Z.leb_spec (end_ms b) (time_ms r)) as [H3|H3]; try lia; cbn [andb app].
      * f_equal. exact IH.
      * exact IH.
Qed.

Lemma filter_sorted {A : Type} (R : A -> A -> Prop) (f : A -> bool) (l : list A) :
  StronglySorted R l -> StronglySorted R (List.filter f l).
Proof.
  induction 1 as [|x l Hs IH Hall]; cbn [List.filter]; [constructor|].
  destruct (f x); [|exact IH]. constructor; [exact IH|].
  apply List.Forall_forall. intros y Hy. apply filter_In in Hy as [Hy _].
  rewrite List.Forall_forall in Hall. now apply Hall.
Qed.

Lemma first_last_delta_spread b rs :
  first_last_delta rs b =
  match inside b rs with
  | [] => None
  | _ :: _ => Some (spread (inside b rs))
  end.
Proof.
  unfold first_last_delta. destruct (inside b rs) as [|f rest]; [reflexivity|].
  cbn [head]. rewrite (last_is_List_last rest f f). reflexivity.
Qed.

Lemma first_last_sum rs :
  StronglySorted time_le rs ->
  StronglySorted kwh_le rs ->
  forall T bs, stacked T bs ->
  forall out, first_last_deltas rs bs = Ok out ->
  (Qsum (List.map energy_kwh out) <= spread (from T rs))%Q.
Proof.
  intros Ht Hk T bs Hst. induction Hst as [T|T b bs HT Hb Hst IH]; intros out Hout.
  - injection Hout as <-. cbn. apply spread_nonneg. now apply filter_sorted.
  - assert (Hlow : (spread (from (start_ms b) rs) <= spread (from T rs))%Q).
    { pose proof (from_split {| start_ms := T; end_ms := start_ms b; bucket_start := None |}
                    rs Ht HT) as E. cbn [start_ms end_ms] in E. rewrite E.
      assert (Hs : StronglySorted kwh_le (from T rs)) by now apply filter_sorted.
      rewrite E in Hs. pose proof (spread_app _ _ Hs) as Happ.
      apply StronglySorted_app_1_l in Hs. apply spread_nonneg in Hs. lra. }
    eapply Qle_trans; [|exact Hlow].
    assert (Hs : StronglySorted kwh_le (from (start_ms b) rs)) by now apply filter_sorted.
    rewrite (from_split b rs Ht Hb) in Hs |- *.
    pose proof (spread_app _ _ Hs) as Happ.
    pose proof (spread_nonneg _ (StronglySorted_app_1_l _ _ _ Hs)) as Hin.
    cbn [first_last_deltas] in Hout. rewrite first_last_in_spec in Hout.
    destruct (inside b rs) as [|f rest] eqn:Ein.
    + cbn [head] in Hout. specialize (IH _ Hout). cbn [app]. exact IH.
    + cbn [head] in Hout. rewrite (last_is_List_last rest f f) in Hout.
      fold (spread (f :: rest)) in Hout.
      remember (spread (f :: rest)) as d eqn:Ed.
      destruct (Qle_bool 0 d).
      * destruct (get_bucket_start b) as [t| |]; cbn [mbind result_bind] in Hout;
          try discriminate.
        destruct (first_last_deltas rs bs) as [out'| |]; cbn [mbind result_bind] in Hout;
          try discriminate.
        injection Hout as <-. specialize (IH _ eq_refl).
        cbn [List.map energy_kwh]. unfold Qsum in *. cbn [fold_right]. lra.
      * specialize (IH _ Hout). lra.
Qed.

Lemma kwh_sorted_with_time_ms raw :
  StronglySorted (fun a b => (total_kwh a <= total_kwh b)%Q) raw ->
  StronglySorted kwh_le (List.map with_time_ms raw).
Proof.
  induction 1 as [|x l Hs IH Hall]; cbn [List.map]; constructor; [exact IH|].
  apply Forall_map. eapply Forall_impl; [exact Hall|]. intros y Hy. exact Hy.
Qed.

Lemma spread_of_query (first second : energy_row) (more : list energy_row) :
  spread (List.map with_time_ms (first :: second :: more))
  = (total_kwh (List.last (first :: second :: more) first) - total_kwh first)%Q.
Proof.
  cbn [List.map spread]. unfold kwh at 2. cbn [with_time_ms row]. f_equal.
  change (with_time_ms first :: with_time_ms second :: List.map with_time_ms more)
    with (List.map with_time_ms (first :: second :: more)).
  assert (Hne : first :: second :: more <> []) by discriminate.
  destruct (exists_last Hne) as (pre & y & E). rewrite E.
  rewrite List.map_app. cbn [List.map]. rewrite !last_last. reflexivity.
Qed.

(** Three samples of a steadily rising counter. *)
Definition rising_store : store :=
  fold_left (fun s r => store_energy_reading r s)
    [ energy_sample 10 5%Q; energy_sample 50 6%Q; energy_sample 110 (13 # 2)%Q ]
    empty_store.

Lemma minute_deltas_add_up_to_raw_total_witness :
  exists r,
    get_energy_aggregated rising_store "meter_001" T0 (DT.add_minutes T0 119)
      (Some "A") "30min" = Ok r
    /\ List.map b_timestamp (aggregated r)
       = [T0; DT.add_minutes T0 30; DT.add_minutes T0 60; DT.add_minutes T0 90]
    /\ (Qsum (List.map energy_kwh (aggregated r)) == raw_total_kwh r)%Q
    /\ (raw_total_kwh r == 3 # 2)%Q.
Proof.
  eassert (Hr : get_energy_aggregated rising_store "meter_001" T0 (DT.add_minutes T0 119)
                  (Some "A") "30min" = Ok _) by (vm_compute; reflexivity).
  eexists. split; [exact Hr|].
  split; [vm_compute; reflexivity|].
  split; [|vm_compute; reflexivity].
  apply (minute_deltas_add_up_to_raw_total _ _ _ _ _ _ _ Hr).
  - vm_compute. reflexivity.
  - vm_compute. lia.
  - eassert (E : get_energy_readings rising_store "meter_001" T0 (DT.add_minutes T0 119)
                   (Some "A") = _) by (vm_compute; reflexivity).
    rewrite E. repeat constructor; apply Qle_bool_iff; reflexivity.
Defined.

(** X2. With a counter that never decreases, an energy query at an hour,
    day, week or month resolution returns every bucket that holds a
    sample, and its bucket deltas add up to at most the raw total: what
    the counter gained between the last sample of one bucket and the
    first sample of the next is in no bucket. *)
Theorem coarse_deltas_never_exceed_raw_total :
  forall s mid t0 t1 phase aggregation r,
    get_energy_aggregated s mid t0 t1 phase aggregation = Ok r ->
    PyStr.endswith (energy_aggregation_applied r) "min" = false ->
    (2 <= length (get_energy_readings s mid t0 t1 phase))%nat ->
    StronglySorted (fun a b => (total_kwh a <= total_kwh b)%Q)
      (get_energy_readings s mid t0 t1 phase) ->
    (Qsum (List.map energy_kwh (aggregated r)) <= raw_total_kwh r)%Q
    /\ (String.eqb (energy_aggregation_applied r) "none" = false ->
        exists next cs,
          query_buckets (energy_aggregation_applied r) t0 t1
          = Ok (List.map (bucket_at next true) cs)
          /\ forall c, c ∈ cs ->
               inside (bucket_at next true c)
                 (preprocess (get_energy_readings s mid t0 t1 phase)) <> [] ->
               exists o, o ∈ aggregated r /\ b_timestamp o = c).
Proof.
  intros s mid t0 t1 phase aggregation r Hr Hmin Hlen Hmono.
  set (raw := get_energy_readings s mid t0 t1 phase) in *.
  destruct (get_energy_aggregated_inv _ _ _ _ _ _ _ Hr) as (_ & _ & Htotal & Hempty & Hq).
  fold raw in Htotal, Hq, Hempty.
  pose proof (preprocess_of_query s mid t0 t1 phase) as Hpre. fold raw in Hpre.
  assert (Hts : StronglySorted time_le (preprocess raw)) by apply preprocess_sorted.
  assert (Hks : StronglySorted kwh_le (preprocess raw)).
  { rewrite Hpre. now apply kwh_sorted_with_time_ms. }
  assert (Hspread : spread (preprocess raw) = raw_total_kwh r).
  { rewrite Hpre, Htotal. destruct raw as [|first [|second more]]; try (cbn in Hlen; lia).
    apply spread_of_query. }
  split.
  - destruct (String.eqb (energy_aggregation_applied r) "none") eqn:Hnone.
    + rewrite Hempty by now left. cbn. rewrite <- Hspread. now apply spread_nonneg.
    + destruct (Hq eq_refl Hlen) as (bs & Hbs & Hout).
      unfold query_buckets in Hbs. unfold query_deltas in Hout. rewrite Hmin in Hbs, Hout.
      destruct (first_last_buckets_stacked _ _ _ _ Hbs) as (T & Hst).
      destruct (preprocess raw) as [|f rest] eqn:Ers.
      { rewrite Hpre in Ers. destruct raw; [cbn in Hlen; lia|discriminate]. }
      set (T' := Z.min T (time_ms f)).
      pose proof (first_last_sum _ Hts Hks T' bs
                    (stacked_weaken T T' bs ltac:(lia) Hst) _ Hout) as Hsum.
      rewrite from_all in Hsum; [now rewrite <- Hspread|].
      constructor; [lia|]. apply StronglySorted_inv in Hts as [_ Hall].
      eapply Forall_impl; [exact Hall|]. unfold time_le. intros; lia.
  - intros Hnone.
    destruct (energy_query_outputs _ _ _ _ _ _ _ Hr Hnone Hlen)
      as (next & cs & Hbs & _ & _ & _ & Hagg).
    fold raw in Hagg. exists next, cs. split; [exact Hbs|].
    intros c Hc Hin. unfold computed_delta in Hagg. rewrite Hmin in Hagg.
    pose proof (first_last_delta_spread (bucket_at next true c) (preprocess raw)) as Hd.
    destruct (inside (bucket_at next true c) (preprocess raw)) as [|f rest] eqn:Ein;
      [congruence|].
    assert (Hpos : Qle_bool 0 (spread (f :: rest)) = true).
    { apply Qle_bool_iff, spread_nonneg. rewrite <- Ein. now apply filter_sorted. }
    exists {| b_timestamp := c; energy_kwh := spread (f :: rest) |}.
    split; [|reflexivity]. rewrite Hagg. apply list_elem_of_omap.
    exists c. split; [exact Hc|]. rewrite Hd. cbn [emit]. now rewrite Hpos.
Qed.

Lemma coarse_deltas_never_exceed_raw_total_witness :
  exists r,
    get_energy_aggregated rising_store "meter_001" T0 (DT.add_minutes T0 119)
      (Some "A") "1hour" = Ok r
    /\ (Qsum (List.map energy_kwh (aggregated r)) <= raw_total_kwh r)%Q
    /\ (Qsum (List.map energy_kwh (aggregated r)) == 1)%Q
    /\ (raw_total_kwh r == 3 # 2)%Q.
Proof.
  eassert (Hr : get_energy_aggregated rising_store "meter_001" T0 (DT.add_minutes T0 119)
                  (Some "A") "1hour" = Ok _) by (vm_compute; reflexivity).
  eexists. split; [exact Hr|].
  split; [|split; vm_compute; reflexivity].
  apply (coarse_deltas_never_exceed_raw_total _ _ _ _ _ _ _ Hr).
  - vm_compute. reflexivity.
  - vm_compute. lia.
  - eassert (E : get_energy_readings rising_store "meter_001" T0 (DT.add_minutes T0 119)
                   (Some "A") = _) by (vm_compute; reflexivity).
    rewrite E. repeat constructor; apply Qle_bool_iff; reflexivity.
Defined.

End Conservation.

(** ** Data maintenance *)

Section Maintenance.

Import Database.

Lemma delete_before_spec cutoff s :
  readings (fst (delete_before cutoff s))
  = List.filter (fun r => negb (timestamp r <? cutoff)) (readings s)
  /\ snd (delete_before cutoff s)
     = Z.of_nat (length (readings s))
       - Z.of_nat (length (readings (fst (delete_before cutoff s))))
  /\ meters (fst (delete_before cutoff s)) = meters s
  /\ energy_readings (fst (delete_before cutoff s)) = energy_readings s
  /\ next_reading_id (fst (delete_before cutoff s)) = next_reading_id s.
Proof.
  unfold delete_before. cbn [fst snd readings meters energy_readings next_reading_id].
  split; [reflexivity|]. split; [|repeat split].
  pose proof (filter_length (fun r => timestamp r <? cutoff) (readings s)) as H.
  cbv beta in H. lia.
Qed.

(** X3. [cleanup_old_data] removes exactly the instantaneous readings older
    than [now - days], reports how many it removed, leaves meters and
    energy readings alone, and finds nothing more to remove when run
    again at the same instant. *)
Theorem cleanup_old_data_removes_exactly_the_old_rows :
  forall now days s,
    let cutoff := DT.add_days now (- days) in
    let s' := fst (cleanup_old_data now days s) in
    let deleted := snd (cleanup_old_data now days s) in
    (forall r, r ∈ readings s' <-> r ∈ readings s /\ cutoff <= timestamp r)
    /\ deleted = Z.of_nat (length (readings s)) - Z.of_nat (length (readings s'))
    /\ meters s' = meters s
    /\ energy_readings s' = energy_readings s
    /\ cleanup_old_data now days s' = (s', 0).
Proof.
  intros now days s cutoff s' deleted. subst s' deleted. unfold cleanup_old_data.
  fold cutoff.
  destruct (delete_before_spec cutoff s) as (Hr & Hn & Hm & He & Hi).
  split; [|split; [exact Hn|split; [exact Hm|split; [exact He|]]]].
  - intros r. rewrite Hr. rewrite !list_elem_of_In, filter_In.
    destruct (Z.ltb_spec (timestamp r) cutoff); cbn [negb]; intuition (try lia; try discriminate).
  - set (s1 := fst (delete_before cutoff s)) in *.
    assert (Hid : List.filter (fun r => negb (timestamp r <? cutoff)) (readings s1)
                  = readings s1).
    { rewrite Hr. clear. induction (readings s) as [|r rows IH]; [reflexivity|].
      cbn [List.filter]. destruct (negb (timestamp r <? cutoff)) eqn:E; [|exact IH].
      cbn [List.filter]. rewrite E. now f_equal. }
    unfold delete_before at 1. f_equal.
    + rewrite Hid. now destruct s1.
    + pose proof (filter_length (fun r => timestamp r <? cutoff) (readings s1)) as H.
      cbv beta in H. rewrite Hid in H. lia.
Qed.

(** *** Freeing disk space *)

Lemma fold_min_le (ts : list Z) : forall m, fold_left Z.min ts m <= m.
Proof.
  induction ts as [|t ts IH]; intros m; cbn [fold_left]; [lia|].
  specialize (IH (Z.min m t)). lia.
Qed.

Lemma fold_min_lower (ts : list Z) : forall m t,
  In t ts -> fold_left Z.min ts m <= t.
Proof.
  induction ts as [|t0 ts IH]; intros m t Hin; [destruct Hin|].
  cbn [fold_left]. destruct Hin as [<-|Hin].
  - pose proof (fold_min_le ts (Z.min m t0)). lia.
  - now apply IH.
Qed.

Lemma fold_min_in (ts : list Z) : forall m,
  fold_left Z.min ts m = m \/ In (fold_left Z.min ts m) ts.
Proof.
  induction ts as [|t ts IH]; intros m; cbn [fold_left]; [now left|].
  destruct (IH (Z.min m t)) as [E|Hin].
  - rewrite E. destruct (Z.min_spec m t) as [[_ ->]|[_ ->]]; [now left|right; now left].
  - right. now right.
Qed.

(** The oldest timestamp belongs to a row and no row is older. *)
Lemma oldest_timestamp_spec rows oldest :
  oldest_timestamp rows = Some oldest ->
  (exists r, In r rows /\ timestamp r = oldest)
  /\ (forall r, In r rows -> oldest <= timestamp r).
Proof.
  destruct rows as [|r0 rest]; [discriminate|]. cbn [oldest_timestamp]. intros [= <-].
  split.
  - destruct (fold_min_in (List.map timestamp rest) (timestamp r0)) as [E|Hin].
    + exists r0. split; [now left|now rewrite E].
    + apply in_map_iff in Hin as (r & E & Hr). exists r. split; [now right|exact E].
  - intros r [<-|Hin]; [apply fold_min_le|].
    apply fold_min_lower. now apply in_map.
Qed.

Lemma oldest_timestamp_none rows : oldest_timestamp rows = None -> rows = [].
Proof. destruct rows; [reflexivity|discriminate]. Qed.

Lemma filter_after_twice (c1 c2 : Z) (rows : list readings_row) :
  List.filter (fun r => negb (timestamp r <? c2))
    (List.filter (fun r => negb (timestamp r <? c1)) rows)
  = List.filter (fun r => negb (timestamp r <? Z.max c1 c2)) rows.
Proof.
  induction rows as [|r rows IH]; [reflexivity|]. cbn [List.filter].
  destruct (Z.ltb_spec (timestamp r) c1); destruct (Z.ltb_spec (timestamp r) c2);
    destruct (Z.ltb_spec (timestamp r) (Z.max c1 c2)); try lia; cbn [negb List.filter].
  - exact IH.
  - exact IH.
  - destruct (Z.ltb_spec (timestamp r) c2); [|lia]. exact IH.
  - destruct (Z.ltb_spec (timestamp r) c2); [lia|]. cbn [negb]. now f_equal.
Qed.

Lemma filter_after_none (rows : list readings_row) :
  exists cutoff, rows = List.filter (fun r => negb (timestamp r <? cutoff)) rows.
Proof.
  destruct (oldest_timestamp rows) as [oldest|] eqn:E.
  - exists oldest. apply oldest_timestamp_spec in E as [_ Hlow].
    induction rows as [|r rows IH]; [reflexivity|]. cbn [List.filter].
    destruct (Z.ltb_spec (timestamp r) oldest) as [Hlt|_].
    + specialize (Hlow r ltac:(now left)). lia.
    + cbn [negb]. f_equal. apply IH. intros x Hx. apply Hlow. now right.
  - apply oldest_timestamp_none in E. subst rows. now exists 0.
Qed.

(** What the loop comes to, from any round on. *)
Lemma cleanup_loop_spec disk_free_gb target batch_days :
  forall fuel round s total,
    (length (readings s) < fuel)%nat ->
    exists s' n,
      cleanup_loop fuel disk_free_gb round target batch_days s total = Ok (s', n)
      /\ meters s' = meters s
      /\ energy_readings s' = energy_readings s
      /\ next_reading_id s' = next_reading_id s
      /\ (exists cutoff,
             readings s' = List.filter (fun r => negb (timestamp r <? cutoff)) (readings s))
      /\ ((forall k, is_Some (disk_free_gb k)) ->
          n = total + (Z.of_nat (length (readings s)) - Z.of_nat (length (readings s')))).
Proof.
  induction fuel as [|fuel IH]; intros round s total Hfuel; [lia|].
  cbn [cleanup_loop].
  destruct (disk_free_gb round) as [free|] eqn:Edisk.
  2:{ exists s, 0. repeat (split; [reflexivity|]). split; [apply filter_after_none|].
      intros Hall. destruct (Hall round) as [x Hx]. congruence. }
  destruct (Qle_bool target free).
  { exists s, total. repeat (split; [reflexivity|]). split; [apply filter_after_none|].
    intros _. lia. }
  destruct (oldest_timestamp (readings s)) as [oldest|] eqn:Eold.
  2:{ exists s, total. repeat (split; [reflexivity|]). split; [apply filter_after_none|].
      intros _. lia. }
  set (cutoff := DT.add_days oldest batch_days).
  destruct (delete_before_spec cutoff s) as (Hr & Hn & Hm & He & Hi).
  destruct (delete_before cutoff s) as [s1 deleted] eqn:Edel. cbn [fst snd] in *.
  destruct (Z.eqb_spec deleted 0) as [Hz|Hnz].
  - exists s1, (total + deleted). split; [reflexivity|]. repeat (split; [assumption|]).
    split; [exists cutoff; exact Hr|]. intros _. lia.
  - assert (Hless : (length (readings s1) < fuel)%nat).
    { rewrite Hr in Hn |- *.
      pose proof (filter_length_le (fun r => negb (timestamp r <? cutoff)) (readings s)).
      lia. }
    destruct (IH (S round) s1 (total + deleted) Hless)
      as (s' & n & Hrun & Hm' & He' & Hi' & (c2 & Hr') & Hn').
    exists s', n. split; [exact Hrun|].
    split; [congruence|]. split; [congruence|]. split; [congruence|].
    split.
    + exists (Z.max cutoff c2). rewrite Hr', Hr. apply filter_after_twice.
    + intros Hall. rewrite (Hn' Hall). lia.
Qed.

(** X4. [cleanup_oldest_data] always returns, whatever the disk reports
    and whatever the batch size: it leaves meters and energy readings
    alone, what it keeps of the instantaneous readings is every row from
    some instant on, and, when no disk query fails, the number it returns
    is the number of rows it removed. *)
Theorem cleanup_oldest_data_returns :
  forall disk_free_gb target_free_space_gb batch_days s,
  exists s' n,
    cleanup_oldest_data disk_free_gb target_free_space_gb batch_days s = Ok (s', n)
    /\ meters s' = meters s
    /\ energy_readings s' = energy_readings s
    /\ (exists cutoff,
           readings s' = List.filter (fun r => negb (timestamp r <? cutoff)) (readings s))
    /\ ((forall k, is_Some (disk_free_gb k)) ->
        n = Z.of_nat (length (readings s)) - Z.of_nat (length (readings s'))).
Proof.
  intros disk_free_gb target batch_days s. unfold cleanup_oldest_data.
  destruct (cleanup_loop_spec disk_free_gb target batch_days
              (S (length (readings s))) 0%nat s 0 ltac:(lia))
    as (s' & n & Hrun & Hm & He & _ & Hc & Hn).
  exists s', n. repeat (split; [assumption|]). intros Hall. rewrite (Hn Hall). lia.
Qed.

Definition emptied (s : store) : store :=
  {| meters := meters s;
     readings := [];
     next_reading_id := next_reading_id s;
     energy_readings := energy_readings s |}.

Lemma cleanup_loop_empties disk_free_gb target batch_days :
  (forall k, exists free, disk_free_gb k = Some free /\ Qle_bool target free = false) ->
  0 < batch_days ->
  forall fuel round s total,
    (length (readings s) < fuel)%nat ->
    cleanup_loop fuel disk_free_gb round target batch_days s total
    = Ok (emptied s, total + Z.of_nat (length (readings s))).
Proof.
  intros Hlow Hbatch. induction fuel as [|fuel IH]; intros round s total Hfuel; [lia|].
  cbn [cleanup_loop].
  destruct (Hlow round) as (free & -> & ->).
  destruct (oldest_timestamp (readings s)) as [oldest|] eqn:Eold.
  2:{ apply oldest_timestamp_none in Eold. destruct s as [m rs i e]. cbn in Eold. subst rs.
      unfold emptied. cbn. do 2 f_equal. lia. }
  set (cutoff := DT.add_days oldest batch_days).
  destruct (delete_before_spec cutoff s) as (Hr & Hn & Hm & He & Hi).
  destruct (delete_before cutoff s) as [s1 deleted] eqn:Edel. cbn [fst snd] in *.
  assert (Hpos : (length (readings s1) < length (readings s))%nat).
  { apply oldest_timestamp_spec in Eold as [(r & Hin & Hts) _].
    rewrite Hr. clear -Hin Hts Hbatch. subst cutoff.
    induction (readings s) as [|x rows IH]; [destruct Hin|]. cbn [List.filter].
    destruct Hin as [->|Hin].
    - destruct (Z.ltb_spec (timestamp r) (DT.add_days oldest batch_days)) as [_|Hge].
      + cbn [negb length].
        pose proof (filter_length_le
          (fun r => negb (timestamp r <? DT.add_days oldest batch_days)) rows). lia.
      + unfold DT.add_days, DT.DAY, DT.HOUR, DT.MINUTE, DT.SECOND in Hge. lia.
    - specialize (IH Hin).
      destruct (negb (timestamp x <? DT.add_days oldest batch_days)); cbn [length]; lia. }
  destruct (Z.eqb_spec deleted 0) as [Hz|_]; [lia|].
  rewrite IH by lia. unfold emptied. rewrite Hm, He, Hi. do 2 f_equal. lia.
Qed.

(** X5. While the disk keeps reporting less free space than the target and
    a batch is at least one day long, [cleanup_oldest_data] deletes batch
    after batch until no instantaneous reading is left, and returns how
    many rows the table held. *)
Theorem cleanup_oldest_data_empties_the_table_when_space_stays_low :
  forall disk_free_gb target_free_space_gb batch_days s,
    (forall k, exists free,
        disk_free_gb k = Some free /\ Qle_bool target_free_space_gb free = false) ->
    0 < batch_days ->
    cleanup_oldest_data disk_free_gb target_free_space_gb batch_days s
    = Ok (emptied s, Z.of_nat (length (readings s))).
Proof.
  intros disk_free_gb target batch_days s Hlow Hbatch. unfold cleanup_oldest_data.
  rewrite (cleanup_loop_empties disk_free_gb target batch_days Hlow Hbatch) by lia.
  reflexivity.
Qed.

(** Two readings taken forty days apart. *)
Definition aged_store : store :=
  store_reading (power_reading (DT.add_days T0 40) 200%Q)
    (store_reading (power_reading T0 100%Q) empty_store).

Lemma cleanup_oldest_data_empties_the_table_when_space_stays_low_witness :
  cleanup_oldest_data (fun _ => Some (1 # 2)%Q) 1%Q 30 aged_store
  = Ok (emptied aged_store, 2).
Proof.
  apply (cleanup_oldest_data_empties_the_table_when_space_stays_low
           (fun _ => Some (1 # 2)%Q) 1%Q 30 aged_store).
  - intros _. exists (1 # 2)%Q. split; reflexivity.
  - lia.
Defined.

Lemma cleanup_oldest_data_returns_witness :
  exists s',
    cleanup_oldest_data (fun k => if (k <? 1)%nat then Some (1 # 2)%Q else Some 2%Q)
      1%Q 30 aged_store = Ok (s', 1)
    /\ List.map timestamp (readings s') = [DT.add_days T0 40].
Proof.
  destruct (cleanup_oldest_data_returns
              (fun k => if (k <? 1)%nat then Some (1 # 2)%Q else Some 2%Q) 1%Q 30 aged_store)
    as (s' & n & Hrun & _ & _ & _ & Hn).
  exists s'.
  assert (Hall : forall k : nat,
             is_Some ((fun k => if (k <? 1)%nat then Some (1 # 2)%Q else Some 2%Q) k)).
  { intros k. cbv beta. destruct (k <? 1)%nat; eauto. }
  specialize (Hn Hall).
  eassert (Hv : cleanup_oldest_data
                  (fun k => if (k <? 1)%nat then Some (1 # 2)%Q else Some 2%Q)
                  1%Q 30 aged_store = Ok _) by (vm_compute; reflexivity).
  rewrite Hv in Hrun. injection Hrun as <- <-. split; reflexivity.
Defined.

(** *** Retention compaction *)

Lemma assign_ids_spec : forall rows next inserted,
  assign_ids next rows = Some inserted ->
  length inserted = length rows
  /\ Forall (fun r => next <= id r < next + Z.of_nat (length rows)) inserted
  /\ NoDup (List.map id inserted).
Proof.
  induction rows as [|[[t|] r] rows IH]; intros next inserted H; cbn [assign_ids] in H.
  - injection H as <-. repeat split; constructor.
  - destruct (assign_ids (next + 1) rows) as [rest|] eqn:E; [|discriminate].
    injection H as <-. destruct (IH _ _ E) as (Hlen & Hall & Hnd).
    cbn [length List.map id]. split; [now f_equal|]. split.
    + constructor; [cbn; lia|]. eapply Forall_impl; [exact Hall|]. cbn. intros; lia.
    + constructor; [|exact Hnd]. intros Hin. apply list_elem_of_In in Hin.
      apply in_map_iff in Hin as (x & Hx & Hin).
      rewrite List.Forall_forall in Hall. specialize (Hall x Hin). lia.
  - discriminate.
Qed.

Lemma assign_ids_some : forall rows next,
  Forall (fun p => fst p <> None) rows -> exists inserted, assign_ids next rows = Some inserted.
Proof.
  induction rows as [|[[t|] r] rows IH]; intros next Hall; cbn [assign_ids].
  - eauto.
  - apply Forall_cons in Hall as [_ Hall]. destruct (IH (next + 1) Hall) as (rest & ->). eauto.
  - apply Forall_cons in Hall as [H _]. now elim H.
Qed.

Lemma compaction_select_stamped aggregation_hours old :
  aggregation_hours <> 0 ->
  Forall (fun p => fst p <> None) (compaction_select aggregation_hours old).
Proof.
  intros Hne. unfold compaction_select. apply List.Forall_forall. intros p Hp.
  apply in_flat_map in Hp as (k & _ & Hp).
  destruct (List.filter _ old) as [|first group]; [destruct Hp|].
  destruct (1 <? _); [|destruct Hp]. destruct Hp as [<-|[]]. cbn [fst].
  unfold compaction_timestamp. destruct (Z.eqb_spec aggregation_hours 0); [lia|discriminate].
Qed.

Lemma NoDup_map_eq {A B : Type} (f : A -> B) (l : list A) x y :
  NoDup (List.map f l) -> In x l -> In y l -> f x = f y -> x = y.
Proof.
  induction l as [|a l IH]; intros Hnd Hx Hy E; [destruct Hx|].
  cbn [List.map] in Hnd. apply NoDup_cons in Hnd as [Ha Hnd].
  destruct Hx as [->|Hx]; destruct Hy as [->|Hy]; try reflexivity.
  - elim Ha. apply list_elem_of_In. rewrite E. now apply in_map.
  - elim Ha. apply list_elem_of_In. rewrite <- E. now apply in_map.
  - now apply IH.
Qed.

Lemma NoDup_map_filter {A B : Type} (f : A -> B) (p : A -> bool) (l : list A) :
  NoDup (List.map f l) -> NoDup (List.map f (List.filter p l)).
Proof.
  induction l as [|x l IH]; intros Hnd; [constructor|].
  cbn [List.map] in Hnd. apply NoDup_cons in Hnd as [Hx Hnd].
  cbn [List.filter]. destruct (p x); [|now apply IH].
  cbn [List.map]. constructor; [|now apply IH].
  intros Hin. apply Hx. rewrite list_elem_of_In in Hin |- *.
  apply in_map_iff in Hin as (y & E & Hy).
  apply filter_In in Hy as [Hy _]. rewrite <- E. now apply in_map.
Qed.

Lemma is_max_id_of_hour_spec old r :
  is_max_id_of_hour old r = true ->
  forall r', In r' old ->
    r_meter_id r' = r_meter_id r -> timestamp r' / DT.HOUR = timestamp r / DT.HOUR ->
    id r' <= id r.
Proof.
  unfold is_max_id_of_hour. rewrite forallb_forall. intros H r' Hin Hm Hh.
  specialize (H r' Hin). rewrite Hm, Hh, String.eqb_refl, Z.eqb_refl in H. cbn in H.
  now apply Z.leb_le in H.
Qed.

(** X6. On a table whose ids are distinct and below the next id to hand
    out, a compaction pass with a non-zero bucket width leaves at most one
    reading older than the cutoff per meter and clock hour, keeps every
    reading at or after the cutoff, leaves meters and energy readings
    alone, keeps the ids distinct, and returns the number of rows it
    removed. *)
Theorem compaction_leaves_one_old_row_per_meter_and_hour :
  forall now days_old aggregation_hours s,
    aggregation_hours <> 0 ->
    NoDup (List.map id (readings s)) ->
    Forall (fun r => id r < next_reading_id s) (readings s) ->
    let cutoff := DT.add_days now (- days_old) in
    let s' := fst (aggregate_old_data now days_old aggregation_hours s) in
    let deleted := snd (aggregate_old_data now days_old aggregation_hours s) in
    (forall r r', r ∈ readings s' -> r' ∈ readings s' ->
        timestamp r < cutoff -> timestamp r' < cutoff ->
        r_meter_id r = r_meter_id r' ->
        timestamp r / DT.HOUR = timestamp r' / DT.HOUR ->
        r = r')
    /\ (forall r, r ∈ readings s -> cutoff <= timestamp r -> r ∈ readings s')
    /\ meters s' = meters s
    /\ energy_readings s' = energy_readings s
    /\ NoDup (List.map id (readings s'))
    /\ Forall (fun r => id r < next_reading_id s') (readings s')
    /\ deleted = Z.of_nat (length (readings s))
                 + (next_reading_id s' - next_reading_id s)
                 - Z.of_nat (length (readings s')).
Proof.
  intros now days_old aggregation_hours s Hne Hnd Hids cutoff s' deleted.
  subst s' deleted. unfold aggregate_old_data. fold cutoff.
  set (old := List.filter (fun r => timestamp r <? cutoff) (readings s)).
  destruct (assign_ids_some (compaction_select aggregation_hours old) (next_reading_id s)
              (compaction_select_stamped aggregation_hours old Hne)) as (inserted & Hins).
  rewrite Hins. cbv zeta.
  destruct (assign_ids_spec _ _ _ Hins) as (Hlen & Hrange & Hndi).
  set (rows := (readings s ++ inserted)%list).
  set (old' := List.filter (fun r => timestamp r <? cutoff) rows).
  set (doomed := fun r => (timestamp r <? cutoff) && negb (is_max_id_of_hour old' r)).
  cbn [fst snd readings meters energy_readings next_reading_id].
  assert (Hrows : NoDup (List.map id rows)).
  { subst rows. rewrite List.map_app. apply NoDup_app. split; [exact Hnd|].
    split; [|exact Hndi]. intros x Hx Hx'. rewrite list_elem_of_In in Hx, Hx'.
    apply in_map_iff in Hx as (a & <- & Ha). apply in_map_iff in Hx' as (b & E & Hb).
    rewrite List.Forall_forall in Hids, Hrange.
    specialize (Hids a Ha). specialize (Hrange b Hb). lia. }
  assert (Hkept : forall r, In r (List.filter (fun r => negb (doomed r)) rows) ->
                  In r rows /\ (timestamp r < cutoff -> is_max_id_of_hour old' r = true)).
  { intros r Hr. apply filter_In in Hr as [Hin Hd]. split; [exact Hin|].
    intros Hold. subst doomed. cbv beta in Hd.
    destruct (Z.ltb_spec (timestamp r) cutoff) as [_|]; [|lia].
    cbn [andb] in Hd. now destruct (is_max_id_of_hour old' r). }
  split; [|split; [|split; [reflexivity|split; [reflexivity|split; [|split]]]]].
  - intros r r' Hr Hr' Hold Hold' Hm Hh. rewrite list_elem_of_In in Hr, Hr'.
    destruct (Hkept r Hr) as [Hin Hmax]. destruct (Hkept r' Hr') as [Hin' Hmax'].
    specialize (Hmax Hold). specialize (Hmax' Hold').
    assert (Ho : In r old') by (apply filter_In; split; [exact Hin|now apply Z.ltb_lt]).
    assert (Ho' : In r' old') by (apply filter_In; split; [exact Hin'|now apply Z.ltb_lt]).
    pose proof (is_max_id_of_hour_spec old' r Hmax r' Ho' (eq_sym Hm) (eq_sym Hh)).
    pose proof (is_max_id_of_hour_spec old' r' Hmax' r Ho Hm Hh).
    apply (NoDup_map_eq id rows); [exact Hrows|exact Hin|exact Hin'|lia].
  - intros r Hr Hnew. rewrite list_elem_of_In in Hr |- *. apply filter_In. split.
    + subst rows. apply in_or_app. now left.
    + subst doomed. cbv beta. destruct (Z.ltb_spec (timestamp r) cutoff); [lia|reflexivity].
  - now apply NoDup_map_filter.
  - apply List.Forall_forall. intros r Hr. apply filter_In in Hr as [Hr _].
    subst rows. apply in_app_or in Hr as [Hr|Hr].
    + rewrite List.Forall_forall in Hids. specialize (Hids r Hr). lia.
    + rewrite List.Forall_forall in Hrange. specialize (Hrange r Hr). lia.
  - pose proof (filter_length doomed rows) as H. cbv beta in H.
    subst rows. rewrite length_app in H.
    change (fun r => negb ((timestamp r <? cutoff) && negb (is_max_id_of_hour old' r)))
      with (fun r => negb (doomed r)).
    lia.
Qed.

Lemma compaction_leaves_one_old_row_per_meter_and_hour_witness :
  let s' := fst (aggregate_old_data compaction_now 90 1 compaction_store) in
  (forall r r', r ∈ readings s' -> r' ∈ readings s' ->
      timestamp r < DT.add_days compaction_now (- 90) ->
      timestamp r' < DT.add_days compaction_now (- 90) ->
      r_meter_id r = r_meter_id r' ->
      timestamp r / DT.HOUR = timestamp r' / DT.HOUR ->
      r = r')
  /\ List.map id (readings s') = [2; 3]
  /\ snd (aggregate_old_data compaction_now 90 1 compaction_store) = 1.
Proof.
  cbv zeta. split; [|split; vm_compute; reflexivity].
  apply (compaction_leaves_one_old_row_per_meter_and_hour
           compaction_now 90 1 compaction_store).
  - lia.
  - apply NoDup_ListNoDup. vm_compute. repeat constructor; cbn; intuition discriminate.
  - vm_compute. repeat constructor.
Defined.

End Maintenance.

(** ** Reading queries *)

Section ReadingQueries.

Import Database.

(** *** Descending scans *)

Definition newer_first (a b : readings_row) : Prop := timestamp b <= timestamp a.

Lemma insert_row_desc_perm r rows : Permutation (insert_row_desc r rows) (r :: rows).
Proof.
  induction rows as [|h t IH]; cbn [insert_row_desc]; [reflexivity|].
  destruct (timestamp h <=? timestamp r); [reflexivity|].
  rewrite IH. apply perm_swap.
Qed.

Lemma order_rows_desc_perm rows : Permutation (order_rows_desc rows) rows.
Proof.
  induction rows as [|r rows IH]; [reflexivity|].
  cbn [order_rows_desc fold_right]. fold (order_rows_desc rows).
  rewrite insert_row_desc_perm. now constructor.
Qed.

Lemma insert_row_desc_sorted r rows :
  StronglySorted newer_first rows -> StronglySorted newer_first (insert_row_desc r rows).
Proof.
  induction 1 as [|h t Ht IH Hall]; cbn [insert_row_desc].
  - repeat constructor.
  - destruct (Z.leb_spec (timestamp h) (timestamp r)) as [Hle|Hgt].
    + constructor; [constructor; assumption|].
      constructor; [exact Hle|].
      eapply Forall_impl; [exact Hall|]. unfold newer_first. intros; lia.
    + constructor; [exact IH|].
      apply List.Forall_forall. intros y Hy.
      apply (Permutation_in _ (insert_row_desc_perm r t)) in Hy. destruct Hy as [<-|Hy].
      * unfold newer_first. lia.
      * rewrite List.Forall_forall in Hall. now apply Hall.
Qed.

Lemma order_rows_desc_sorted rows : StronglySorted newer_first (order_rows_desc rows).
Proof.
  induction rows as [|r rows IH]; [constructor|].
  cbn [order_rows_desc fold_right]. now apply insert_row_desc_sorted.
Qed.

(** The first row of a descending scan is a newest row, and there is one
    as soon as there is a row. *)
Lemma newest_first rows :
  match head (order_rows_desc rows) with
  | None => rows = []
  | Some r => In r rows /\ forall r', In r' rows -> timestamp r' <= timestamp r
  end.
Proof.
  pose proof (order_rows_desc_perm rows) as Hp.
  pose proof (order_rows_desc_sorted rows) as Hs.
  destruct (order_rows_desc rows) as [|r rest]; cbn [head].
  - now apply Permutation_nil.
  - split; [apply (Permutation_in _ Hp); now left|].
    intros r' Hr'. apply (Permutation_in _ (Permutation_sym Hp)) in Hr'.
    apply StronglySorted_inv in Hs as [_ Hall]. destruct Hr' as [<-|Hr']; [lia|].
    rewrite List.Forall_forall in Hall. now apply Hall.
Qed.

Lemma order_rows_desc_newest rows x :
  (forall y, In y rows -> timestamp y < timestamp x) ->
  order_rows_desc (rows ++ [x]) = x :: order_rows_desc rows.
Proof.
  induction rows as [|a rows IH]; intros Hlt; [reflexivity|].
  cbn [app order_rows_desc fold_right]. fold (order_rows_desc (rows ++ [x])).
  fold (order_rows_desc rows).
  rewrite IH by (intros y Hy; apply Hlt; now right).
  cbn [insert_row_desc]. specialize (Hlt a ltac:(now left)).
  destruct (Z.leb_spec (timestamp x) (timestamp a)); [lia|reflexivity].
Qed.

(** Same facts for the descending scan of energy rows. *)
Lemma insert_energy_desc_perm r rows : Permutation (insert_energy_desc r rows) (r :: rows).
Proof.
  induction rows as [|h t IH]; cbn [insert_energy_desc]; [reflexivity|].
  destruct (e_timestamp h <=? e_timestamp r); [reflexivity|].
  rewrite IH. apply perm_swap.
Qed.

Lemma energy_desc_perm rows :
  Permutation (fold_right insert_energy_desc [] rows) rows.
Proof.
  induction rows as [|r rows IH]; [reflexivity|].
  cbn [fold_right]. rewrite insert_energy_desc_perm. now constructor.
Qed.

Lemma insert_energy_desc_sorted r rows :
  StronglySorted (fun a b => e_timestamp b <= e_timestamp a) rows ->
  StronglySorted (fun a b => e_timestamp b <= e_timestamp a) (insert_energy_desc r rows).
Proof.
  induction 1 as [|h t Ht IH Hall]; cbn [insert_energy_desc].
  - repeat constructor.
  - destruct (Z.leb_spec (e_timestamp h) (e_timestamp r)) as [Hle|Hgt].
    + constructor; [constructor; assumption|].
      constructor; [exact Hle|].
      eapply Forall_impl; [exact Hall|]. cbn. intros; lia.
    + constructor; [exact IH|].
      apply List.Forall_forall. intros y Hy.
      apply (Permutation_in _ (insert_energy_desc_perm r t)) in Hy. destruct Hy as [<-|Hy].
      * lia.
      * rewrite List.Forall_forall in Hall. now apply Hall.
Qed.

Lemma newest_energy_first rows :
  match head (fold_right insert_energy_desc [] rows) with
  | None => rows = []
  | Some r => In r rows /\ forall r', In r' rows -> e_timestamp r' <= e_timestamp r
  end.
Proof.
  pose proof (energy_desc_perm rows) as Hp.
  assert (Hs : StronglySorted (fun a b => e_timestamp b <= e_timestamp a)
                 (fold_right insert_energy_desc [] rows)).
  { clear. induction rows as [|r rows IH]; [constructor|].
    cbn [fold_right]. now apply insert_energy_desc_sorted. }
  destruct (fold_right insert_energy_desc [] rows) as [|r rest]; cbn [head].
  - now apply Permutation_nil.
  - split; [apply (Permutation_in _ Hp); now left|].
    intros r' Hr'. apply (Permutation_in _ (Permutation_sym Hp)) in Hr'.
    apply StronglySorted_inv in Hs as [_ Hall]. destruct Hr' as [<-|Hr']; [lia|].
    rewrite List.Forall_forall in Hall. now apply Hall.
Qed.

(** X7. [get_latest_reading] returns nothing exactly when the meter has no
    stored reading, and otherwise a stored reading of that meter that no
    other reading of the meter is newer than; [get_latest_energy_reading]
    does the same among the energy rows of the meter and, unless the phase
    is missing, empty or [ALL], of that phase. *)
Theorem latest_reading_is_the_newest_of_the_meter :
  forall s mid phase,
    match get_latest_reading s mid with
    | None => forall r, r ∈ readings s -> r_meter_id r <> mid
    | Some o =>
        exists r, r ∈ readings s /\ r_meter_id r = mid /\ o = raw_out r
                  /\ forall r', r' ∈ readings s -> r_meter_id r' = mid ->
                                timestamp r' <= timestamp r
    end
    /\ let wanted (r : energy_row) :=
         e_meter_id r = mid
         /\ match phase_filtered phase with
            | Some p => e_phase r = p
            | None => True
            end in
       match get_latest_energy_reading s mid phase with
       | None => forall r, r ∈ energy_readings s -> ~ wanted r
       | Some r =>
           r ∈ energy_readings s /\ wanted r
           /\ forall r', r' ∈ energy_readings s -> wanted r' ->
                         e_timestamp r' <= e_timestamp r
       end.
Proof.
  intros s mid phase. split.
  - unfold get_latest_reading.
    pose proof (newest_first
                  (List.filter (fun r => String.eqb (r_meter_id r) mid) (readings s))) as H.
    destruct (order_rows_desc _) as [|r rest]; cbn [head List.map] in *.
    + intros r Hr Hm. apply list_elem_of_In in Hr.
      assert (Hin : In r (List.filter (fun r => String.eqb (r_meter_id r) mid) (readings s))).
      { apply filter_In. split; [exact Hr|]. now apply String.eqb_eq. }
      rewrite H in Hin. destruct Hin.
    + destruct H as [Hin Hmax]. apply filter_In in Hin as [Hin Hm].
      apply String.eqb_eq in Hm. exists r. rewrite list_elem_of_In.
      repeat (split; [assumption || reflexivity|]).
      intros r' Hr' Hm'. apply Hmax. apply filter_In. rewrite <- list_elem_of_In.
      split; [exact Hr'|]. now apply String.eqb_eq.
  - cbv zeta. unfold get_latest_energy_reading.
    set (keep := fun r => String.eqb (e_meter_id r) mid
                          && match phase_filtered phase with
                             | Some p => String.eqb (e_phase r) p
                             | None => true
                             end).
    assert (Hkeep : forall r, keep r = true <->
                      e_meter_id r = mid
                      /\ match phase_filtered phase with
                         | Some p => e_phase r = p
                         | None => True
                         end).
    { intros r. subst keep. cbv beta. rewrite andb_true_iff, String.eqb_eq.
      destruct (phase_filtered phase); [rewrite String.eqb_eq|]; intuition. }
    pose proof (newest_energy_first (List.filter keep (energy_readings s))) as H.
    destruct (fold_right insert_energy_desc [] _) as [|r rest]; cbn [head] in *.
    + intros r Hr Hw. apply list_elem_of_In in Hr.
      assert (Hin : In r (List.filter keep (energy_readings s))).
      { apply filter_In. split; [exact Hr|]. now apply Hkeep. }
      rewrite H in Hin. destruct Hin.
    + destruct H as [Hin Hmax]. apply filter_In in Hin as [Hin Hk].
      rewrite list_elem_of_In. split; [exact Hin|]. split; [now apply Hkeep|].
      intros r' Hr' Hw. apply Hmax. apply filter_In. rewrite <- list_elem_of_In.
      split; [exact Hr'|]. now apply Hkeep.
Qed.

(** X8. A reading stored with a timestamp after every stored reading of its
    meter is what [get_latest_reading] then returns for that meter, field
    by field; the latest reading of every other meter is unchanged. *)
Theorem stored_reading_becomes_the_latest :
  forall s reading,
    (forall r, r ∈ readings s -> r_meter_id r = Models.mr_meter_id reading ->
               timestamp r < Models.mr_timestamp reading) ->
    get_latest_reading (store_reading reading s) (Models.mr_meter_id reading)
    = Some {| o_timestamp := Some (Models.mr_timestamp reading);
              o_meter_id := Models.mr_meter_id reading;
              o_voltage_rms := Models.mr_voltage_rms reading;
              o_current_rms := Models.mr_current_rms reading;
              o_active_power := Models.mr_active_power reading;
              o_reactive_power := Models.mr_reactive_power reading;
              o_apparent_power := Models.mr_apparent_power reading;
              o_power_factor := Models.mr_power_factor reading;
              o_frequency := Models.mr_frequency reading |}
    /\ forall other, other <> Models.mr_meter_id reading ->
         get_latest_reading (store_reading reading s) other = get_latest_reading s other.
Proof.
  intros s reading Hnew. unfold get_latest_reading, store_reading.
  cbn [readings]. split.
  - rewrite List.filter_app. cbn [List.filter r_meter_id]. rewrite String.eqb_refl.
    rewrite order_rows_desc_newest; [reflexivity|].
    intros y Hy. apply filter_In in Hy as [Hy Hm]. apply String.eqb_eq in Hm.
    cbn [timestamp]. apply Hnew; [now apply list_elem_of_In|exact Hm].
  - intros other Hne. rewrite List.filter_app. cbn [List.filter r_meter_id].
    destruct (String.eqb_spec (Models.mr_meter_id reading) other) as [E|_]; [congruence|].
    now rewrite app_nil_r.
Qed.

Lemma stored_reading_becomes_the_latest_witness :
  o_active_power
    <$> get_latest_reading
          (store_reading (power_reading (DT.add_days T0 41) 300%Q) aged_store) "meter_001"
  = Some 300%Q.
Proof.
  destruct (stored_reading_becomes_the_latest aged_store
              (power_reading (DT.add_days T0 41) 300%Q)) as [H _].
  - intros r Hr _. apply list_elem_of_In in Hr. vm_compute in Hr.
    destruct Hr as [<-|[<-|[]]]; vm_compute; reflexivity.
  - cbn [power_reading Models.mr_meter_id] in H. rewrite H. reflexivity.
Defined.

(** *** The raw scan *)

Lemma firstn_sorted_desc {A : Type} (R : A -> A -> Prop) n (l : list A) :
  StronglySorted R l -> StronglySorted R (firstn n l).
Proof.
  intros H. revert n. induction H as [|x l Hs IH Hall]; intros [|n]; cbn [firstn];
    try constructor; [apply IH|].
  apply List.Forall_forall. intros y Hy. apply firstn_incl in Hy.
  rewrite List.Forall_forall in Hall. now apply Hall.
Qed.


(** *** Statistics *)

Lemma fold_max_spec (column : readings_row -> Q) (rest : list readings_row) : forall m,
  let hi := fold_left (fun m r' => if Qle_bool m (column r') then column r' else m) rest m in
  (m <= hi)%Q /\ Forall (fun r => (column r <= hi)%Q) rest.
Proof.
  induction rest as [|r rest IH]; intros m; cbn [fold_left]; cbv zeta.
  - split; [apply Qle_refl|constructor].
  - destruct (Qle_bool m (column r)) eqn:E.
    + apply Qle_bool_iff in E. destruct (IH (column r)) as [H1 H2]. cbv zeta in H1, H2.
      split; [now apply Qle_trans with (column r)|]. now constructor.
    + assert (Hlt : (column r <= m)%Q).
      { destruct (Qlt_le_dec m (column r)) as [Hlt|Hle]; [|exact Hle].
        apply Qlt_le_weak in Hlt. apply Qle_bool_iff in Hlt. congruence. }
      destruct (IH m) as [H1 H2]. cbv zeta in H1, H2.
      split; [exact H1|]. constructor; [now apply Qle_trans with m|exact H2].
Qed.

Lemma fold_min_spec (column : readings_row -> Q) (rest : list readings_row) : forall m,
  let lo := fold_left (fun m r' => if Qle_bool (column r') m then column r' else m) rest m in
  (lo <= m)%Q /\ Forall (fun r => (lo <= column r)%Q) rest.
Proof.
  induction rest as [|r rest IH]; intros m; cbn [fold_left]; cbv zeta.
  - split; [apply Qle_refl|constructor].
  - destruct (Qle_bool (column r) m) eqn:E.
    + apply Qle_bool_iff in E. destruct (IH (column r)) as [H1 H2]. cbv zeta in H1, H2.
      split; [now apply Qle_trans with (column r)|]. now constructor.
    + assert (Hlt : (m <= column r)%Q).
      { destruct (Qlt_le_dec (column r) m) as [Hlt|Hle]; [|exact Hle].
        apply Qlt_le_weak in Hlt. apply Qle_bool_iff in Hlt. congruence. }
      destruct (IH m) as [H1 H2]. cbv zeta in H1, H2.
      split; [exact H1|]. constructor; [now apply Qle_trans with m|exact H2].
Qed.

Lemma Qsum_bounds (xs : list Q) (lo hi : Q) :
  Forall (fun x => (lo <= x <= hi)%Q) xs ->
  (inject_Z (Z.of_nat (length xs)) * lo <= Qsum xs
   /\ Qsum xs <= inject_Z (Z.of_nat (length xs)) * hi)%Q.
Proof.
  induction 1 as [|x xs [Hlo Hhi] Hall [IH1 IH2]].
  - unfold Qsum. cbn [length fold_right Z.of_nat]. change (inject_Z (Z.of_nat 0)) with 0%Q. split; lra.
  - cbn [length Qsum fold_right]. fold (Qsum xs).
    rewrite Nat2Z.inj_succ. unfold Z.succ. rewrite inject_Z_plus.
    change (inject_Z 1) with 1%Q. split; lra.
Qed.

(** Minimum, mean and maximum of a column over at least one row. *)
Lemma column_statistics (column : readings_row -> Q) (rows : list readings_row) :
  rows <> [] ->
  exists lo av hi,
    SQL_MIN column rows = Some lo /\ SQL_AVG column rows = Some av
    /\ SQL_MAX column rows = Some hi
    /\ (lo <= av <= hi)%Q
    /\ Forall (fun r => (lo <= column r <= hi)%Q) rows
    /\ (av * inject_Z (Z.of_nat (length rows)) == Qsum (List.map column rows))%Q.
Proof.
  destruct rows as [|r rest]; [congruence|]. intros _.
  cbn [SQL_MIN SQL_AVG SQL_MAX].
  destruct (fold_max_spec column rest (column r)) as [Hm1 Hm2].
  destruct (fold_min_spec column rest (column r)) as [Hn1 Hn2].
  cbv zeta in *.
  set (hi := fold_left _ rest (column r)) in *.
  set (lo := fold_left (fun m r' => if Qle_bool (column r') m then column r' else m)
                       rest (column r)) in *.
  exists lo, (AVG column (r :: rest)), hi.
  repeat (split; [reflexivity|]).
  assert (Hall : Forall (fun x => (lo <= column x <= hi)%Q) (r :: rest)).
  { constructor; [split; assumption|].
    apply List.Forall_forall. intros x Hx. rewrite List.Forall_forall in Hm2, Hn2.
    split; [now apply Hn2|now apply Hm2]. }
  set (n := inject_Z (Z.of_nat (length (r :: rest)))).
  assert (Hn : (0 < n)%Q).
  { subst n. change 0%Q with (inject_Z 0). rewrite <- Zlt_Qlt. cbn [length]. lia. }
  assert (Hb : Forall (fun x => (lo <= x <= hi)%Q) (List.map column (r :: rest))).
  { apply Forall_map. exact Hall. }
  destruct (Qsum_bounds _ lo hi Hb) as [Hs1 Hs2]. rewrite length_map in Hs1, Hs2.
  fold n in Hs1, Hs2. unfold AVG. fold n.
  split; [|split; [exact Hall|]].
  - split.
    + apply Qle_shift_div_l; [exact Hn|]. lra.
    + apply Qle_shift_div_r; [exact Hn|]. lra.
  - field. intros Hz. rewrite Hz in Hn. now apply Qlt_irrefl in Hn.
Qed.

(** X10. [get_statistics] always returns a row.  Its sample count is the
    count of the range; with no sample every other aggregate is NULL; with
    samples, the mean voltage lies between the minimum and the maximum,
    the mean current and power are at most their maxima, and the reported
    energy is the mean power times the sample count over 3,600,000. *)
Theorem statistics_are_consistent :
  forall s mid t0 t1,
  exists st,
    get_statistics s mid t0 t1 = Some st
    /\ sample_count st = get_reading_count s mid t0 t1
    /\ (sample_count st = 0 ->
        avg_voltage st = None /\ max_voltage st = None /\ min_voltage st = None
        /\ avg_current st = None /\ max_current st = None
        /\ avg_power st = None /\ max_power st = None /\ total_energy_kwh st = None)
    /\ (0 < sample_count st ->
        exists vmin vavg vmax iavg imax pavg pmax energy,
          min_voltage st = Some vmin /\ avg_voltage st = Some vavg
          /\ max_voltage st = Some vmax /\ (vmin <= vavg <= vmax)%Q
          /\ avg_current st = Some iavg /\ max_current st = Some imax /\ (iavg <= imax)%Q
          /\ avg_power st = Some pavg /\ max_power st = Some pmax /\ (pavg <= pmax)%Q
          /\ total_energy_kwh st = Some energy
          /\ (energy * 3600000 == pavg * inject_Z (sample_count st))%Q).
Proof.
  intros s mid t0 t1. unfold get_statistics, get_reading_count.
  set (rows := List.filter (reading_selected mid t0 t1) (readings s)).
  eexists. split; [reflexivity|]. cbn [sample_count avg_voltage max_voltage min_voltage
    avg_current max_current avg_power max_power total_energy_kwh].
  split; [reflexivity|]. split.
  - intros Hz. destruct rows; [|cbn [length] in Hz; lia]. repeat split.
  - intros Hpos. assert (Hne : rows <> []) by (intros E; rewrite E in Hpos; cbn in Hpos; lia).
    destruct (column_statistics voltage_rms rows Hne)
      as (vmin & vavg & vmax & -> & -> & -> & Hv & _ & _).
    destruct (column_statistics current_rms rows Hne)
      as (imin & iavg & imax & _ & -> & -> & Hi & _ & _).
    destruct (column_statistics active_power rows Hne)
      as (pmin & pavg & pmax & _ & Hpa & -> & Hp & _ & Hsum).
    rewrite Hpa.
    exists vmin, vavg, vmax, iavg, imax, pavg, pmax,
           (Qsum (List.map active_power rows) / 3600000)%Q.
    repeat (split; [reflexivity || tauto|]). split.
    + unfold SQL_SUM. destruct rows; [congruence|]. reflexivity.
    + rewrite <- Hsum. field.
Qed.

Lemma statistics_are_consistent_witness :
  exists st,
    get_statistics aged_store "meter_001" T0 (DT.add_days T0 40) = Some st
    /\ sample_count st = 2
    /\ exists pavg pmax,
         avg_power st = Some pavg /\ max_power st = Some pmax /\ (pavg <= pmax)%Q.
Proof.
  destruct (statistics_are_consistent aged_store "meter_001" T0 (DT.add_days T0 40))
    as (st & Hst & Hcount & _ & Hpos).
  assert (Hc : sample_count st = 2) by (rewrite Hcount; vm_compute; reflexivity).
  exists st. split; [exact Hst|]. split; [exact Hc|].
  destruct (Hpos ltac:(lia))
    as (_ & _ & _ & _ & _ & pavg & pmax & _ & _ & _ & _ & _ & _ & _ & _ & Hp & Hm & Hle & _).
  exists pavg, pmax. repeat split; assumption.
Defined.

(** *** Energy readings of a range *)




End ReadingQueries.

(** ** The meters table *)

Section MetersTable.

Import Database.

Definition meters_row_le (a b : meters_row) : Prop := meters_row_leb a b = true.

Lemma string_trichotomy (x y : string) :
  String.ltb x y = true \/ x = y \/ String.ltb y x = true.
Proof.
  unfold String.ltb. destruct (String.compare x y) eqn:E.
  - right. left. now apply String.compare_eq_iff.
  - now left.
  - right. right. rewrite String.compare_antisym, E. reflexivity.
Qed.

Lemma meters_row_leb_total a b : meters_row_leb a b = false -> meters_row_leb b a = true.
Proof.
  unfold meters_row_leb, name_ltb, name_eqb. intros H.
  apply orb_false_iff in H as [H1 H2].
  destruct (c_name a) as [x|]; destruct (c_name b) as [y|]; cbn in *; try discriminate;
    try reflexivity.
  - destruct (string_trichotomy x y) as [Hlt|[->|Hgt]]; [congruence| |now rewrite Hgt].
    rewrite String.eqb_refl in H2 |- *. cbn in H2 |- *.
    destruct (String.leb_total (c_meter_id a) (c_meter_id b)) as [E|E]; [congruence|].
    rewrite E. apply orb_true_r.
  - destruct (String.leb_total (c_meter_id a) (c_meter_id b)) as [E|E]; [congruence|exact E].
Qed.

Lemma insert_meters_row_perm r rows : Permutation (insert_meters_row r rows) (r :: rows).
Proof.
  induction rows as [|h t IH]; cbn [insert_meters_row]; [reflexivity|].
  destruct (meters_row_leb r h); [reflexivity|].
  rewrite IH. apply perm_swap.
Qed.

Lemma insert_meters_row_sorted r rows :
  Sorted meters_row_le rows -> Sorted meters_row_le (insert_meters_row r rows).
Proof.
  induction 1 as [|h t Ht IH Hhd]; cbn [insert_meters_row].
  - repeat constructor.
  - destruct (meters_row_leb r h) eqn:E.
    + constructor; [now constructor|]. now constructor.
    + constructor; [exact IH|].
      destruct t as [|h' t']; cbn [insert_meters_row].
      * constructor. now apply meters_row_leb_total.
      * destruct (meters_row_leb r h'); constructor.
        -- now apply meters_row_leb_total.
        -- now inversion Hhd.
Qed.

(** X12. [get_all_meters] lists every row of the meters table exactly once,
    ordered by name and then by id: unnamed meters first, names and ids
    compared as byte strings. *)
Theorem get_all_meters_lists_every_meter_once_in_order :
  forall s,
    Permutation (get_all_meters s) (List.map snd (map_to_list (meters s)))
    /\ (forall row, row ∈ get_all_meters s <-> exists mid, meters s !! mid = Some row)
    /\ length (get_all_meters s) = size (meters s)
    /\ Sorted meters_row_le (get_all_meters s).
Proof.
  intros s. unfold get_all_meters.
  assert (Hp : forall rows, Permutation (fold_right insert_meters_row [] rows) rows).
  { induction rows as [|r rows IH]; [reflexivity|].
    cbn [fold_right]. rewrite insert_meters_row_perm. now constructor. }
  split; [apply Hp|]. split; [|split].
  - intros row. rewrite (Hp _). rewrite list_elem_of_In, in_map_iff. split.
    + intros ([mid r] & <- & Hin). exists mid. apply elem_of_map_to_list.
      now apply list_elem_of_In.
    + intros (mid & Hm). exists (mid, row). split; [reflexivity|].
      apply list_elem_of_In. now apply elem_of_map_to_list.
  - rewrite (Permutation_length (Hp _)), length_map. apply length_map_to_list.
  - induction (List.map snd (map_to_list (meters s))) as [|r rows IH]; [constructor|].
    cbn [fold_right]. now apply insert_meters_row_sorted.
Qed.

(** X13. [update_meter] rewrites the six configuration columns of the row
    whose id is the [meter_id] argument and keeps that row's id,
    [last_seen] and [created_at]; with an id the table does not hold it
    changes nothing at all.  Other meters and all readings are untouched. *)
Theorem update_meter_rewrites_the_configuration_of_a_known_meter :
  forall s mid meter,
    match get_meter s mid with
    | None => update_meter mid meter s = s
    | Some old =>
        get_meter (update_meter mid meter s) mid
        = Some {| c_meter_id := c_meter_id old;
                  c_ip_address := Models.ip_address meter;
                  c_name := Models.name meter;
                  c_location := Models.location meter;
                  c_enabled := if Models.enabled meter then 1 else 0;
                  c_poll_interval := Models.poll_interval meter;
                  c_energy_poll_interval := Models.energy_poll_interval meter;
                  c_last_seen := c_last_seen old;
                  c_created_at := c_created_at old |}
    end
    /\ (forall other, other <> mid ->
          get_meter (update_meter mid meter s) other = get_meter s other)
    /\ readings (update_meter mid meter s) = readings s
    /\ energy_readings (update_meter mid meter s) = energy_readings s.
Proof.
  intros s mid meter. unfold get_meter, update_meter.
  destruct (meters s !! mid) as [old|] eqn:E; cbn [meters readings energy_readings].
  - split; [apply lookup_insert_eq|]. split; [|split; reflexivity].
    intros other Hne. now apply lookup_insert_ne.
  - repeat split.
Qed.

(** X14. [delete_meter] removes the row of the given id and nothing else:
    [get_meter] then finds nothing under that id, other meters are as
    before, and the instantaneous and energy readings of the deleted meter
    stay in their tables, so that its latest reading is still served.
    Deleting a meter just registered under a fresh id restores the store. *)
Theorem delete_meter_removes_the_row_only :
  forall s mid,
    get_meter (delete_meter mid s) mid = None
    /\ (forall other, other <> mid ->
          get_meter (delete_meter mid s) other = get_meter s other)
    /\ readings (delete_meter mid s) = readings s
    /\ energy_readings (delete_meter mid s) = energy_readings s
    /\ get_latest_reading (delete_meter mid s) mid = get_latest_reading s mid
    /\ delete_meter mid (delete_meter mid s) = delete_meter mid s
    /\ (forall now meter,
          Models.meter_id meter = mid -> get_meter s mid = None ->
          delete_meter mid (register_meter now meter s) = s).
Proof.
  intros s mid. unfold get_meter, delete_meter. cbn [meters readings energy_readings].
  split; [apply lookup_delete_eq|]. split; [intros other Hne; now apply lookup_delete_ne|].
  split; [reflexivity|]. split; [reflexivity|]. split; [reflexivity|]. split.
  - cbn [next_reading_id]. f_equal. apply delete_id, lookup_delete_eq.
  - intros now meter <- Hnone. unfold register_meter.
    cbn [meters readings energy_readings next_reading_id].
    rewrite delete_insert_eq. rewrite delete_id by exact Hnone. now destruct s.
Qed.

Lemma delete_meter_removes_the_row_only_witness :
  get_meter (delete_meter "meter_001" (register_meter T0 sample_meter empty_store))
    "meter_001" = None
  /\ delete_meter "meter_001" (register_meter T0 sample_meter empty_store) = empty_store.
Proof.
  destruct (delete_meter_removes_the_row_only empty_store "meter_001")
    as (_ & _ & _ & _ & _ & _ & Hround).
  destruct (delete_meter_removes_the_row_only
              (register_meter T0 sample_meter empty_store) "meter_001") as (Hgone & _).
  split; [exact Hgone|]. apply Hround; reflexivity.
Defined.

End MetersTable.

(** ** Settings *)

Section Settings.

Import Models.
Import Database.

Lemma get_settings_lookup (table : gmap string (py_value * DT.datetime)) :
  get_settings table !! "poll_interval"
  = Some (default (PyFloat 1) (fst <$> table !! "poll_interval"))
  /\ get_settings table !! "energy_poll_interval"
     = Some (default (PyFloat 30) (fst <$> table !! "energy_poll_interval"))
  /\ get_settings table !! "data_retention_days"
     = Some (default PyNone (fst <$> table !! "data_retention_days"))
  /\ get_settings table !! "max_websocket_clients"
     = Some (default (PyInt 100) (fst <$> table !! "max_websocket_clients"))
  /\ forall k,
       k <> "poll_interval" -> k <> "energy_poll_interval" ->
       k <> "data_retention_days" -> k <> "max_websocket_clients" ->
       get_settings table !! k = None.
Proof.
  unfold get_settings. cbv zeta. rewrite !lookup_fmap.
  split; [now rewrite lookup_insert_eq|].
  split; [rewrite lookup_insert_ne by discriminate; now rewrite lookup_insert_eq|].
  split; [rewrite !lookup_insert_ne by discriminate; now rewrite lookup_insert_eq|].
  split; [rewrite !lookup_insert_ne by discriminate; now rewrite lookup_insert_eq|].
  intros k H1 H2 H3 H4. rewrite !lookup_insert_ne by congruence. apply lookup_empty.
Qed.

Lemma update_settings_lookup now settings (table : gmap string (py_value * DT.datetime)) :
  let table' := update_settings now settings table in
  fst <$> table' !! "poll_interval"
  = match SystemSettings.poll_interval settings with
    | Some v => Some (PyFloat v)
    | None => fst <$> table !! "poll_interval"
    end
  /\ fst <$> table' !! "energy_poll_interval"
     = match SystemSettings.energy_poll_interval settings with
       | Some v => Some (PyFloat v)
       | None => fst <$> table !! "energy_poll_interval"
       end
  /\ fst <$> table' !! "data_retention_days"
     = match SystemSettings.data_retention_days settings with
       | Some v => Some (PyInt v)
       | None => fst <$> table !! "data_retention_days"
       end
  /\ fst <$> table' !! "min_free_space_gb"
     = match SystemSettings.min_free_space_gb settings with
       | Some v => Some (PyFloat v)
       | None => fst <$> table !! "min_free_space_gb"
       end
  /\ fst <$> table' !! "max_websocket_clients"
     = match SystemSettings.max_websocket_clients settings with
       | Some v => Some (PyInt v)
       | None => fst <$> table !! "max_websocket_clients"
       end.
Proof.
  destruct settings as [[a|] [b|] [c|] [d|] [e|]];
    cbv zeta; unfold update_settings, settings_items;
    cbn [SystemSettings.poll_interval SystemSettings.energy_poll_interval
         SystemSettings.data_retention_days SystemSettings.min_free_space_gb
         SystemSettings.max_websocket_clients fmap option_fmap option_map
         omap list_omap fold_left fst snd];
    repeat split;
    repeat (first [ rewrite lookup_insert_eq | rewrite lookup_insert_ne by discriminate ]);
    reflexivity.
Qed.

(** X15. After [update_settings], [get_settings] serves, for each of its four
    keys, the value just given when one was given and the value it served
    before otherwise; nothing else is served.  A retention period, once
    set, cannot be returned to [None] by [update_settings], and
    [min_free_space_gb] is stored but never served. *)
Theorem settings_are_served_as_last_written :
  forall now settings (table : gmap string (py_value * DT.datetime)),
    let before := get_settings table in
    let after := get_settings (update_settings now settings table) in
    after !! "poll_interval"
    = match SystemSettings.poll_interval settings with
      | Some v => Some (PyFloat v)
      | None => before !! "poll_interval"
      end
    /\ after !! "energy_poll_interval"
       = match SystemSettings.energy_poll_interval settings with
         | Some v => Some (PyFloat v)
         | None => before !! "energy_poll_interval"
         end
    /\ after !! "data_retention_days"
       = match SystemSettings.data_retention_days settings with
         | Some v => Some (PyInt v)
         | None => before !! "data_retention_days"
         end
    /\ after !! "max_websocket_clients"
       = match SystemSettings.max_websocket_clients settings with
         | Some v => Some (PyInt v)
         | None => before !! "max_websocket_clients"
         end
    /\ (forall k, is_Some (after !! k) <->
                  k ∈ ["poll_interval"; "energy_poll_interval"; "data_retention_days";
                       "max_websocket_clients"])
    /\ (after !! "data_retention_days" = Some PyNone ->
        before !! "data_retention_days" = Some PyNone)
    /\ (forall v, SystemSettings.min_free_space_gb settings = Some v ->
          fst <$> update_settings now settings table !! "min_free_space_gb"
          = Some (PyFloat v)
          /\ after !! "min_free_space_gb" = None).
Proof.
  intros now settings table before after. subst before after.
  destruct (get_settings_lookup table) as (B1 & B2 & B3 & B4 & _).
  destruct (get_settings_lookup (update_settings now settings table))
    as (A1 & A2 & A3 & A4 & A5).
  destruct (update_settings_lookup now settings table) as (U1 & U2 & U3 & U4 & U5).
  cbv zeta in *. rewrite A1, A2, A3, A4, B1, B2, B3, B4, U1, U2, U3, U5.
  split; [now destruct (SystemSettings.poll_interval settings)|].
  split; [now destruct (SystemSettings.energy_poll_interval settings)|].
  split; [now destruct (SystemSettings.data_retention_days settings)|].
  split; [now destruct (SystemSettings.max_websocket_clients settings)|].
  split; [|split].
  - intros k. rewrite !elem_of_cons, elem_of_nil. split.
    + intros [v Hv].
      destruct (String.eqb_spec k "poll_interval"); [tauto|].
      destruct (String.eqb_spec k "energy_poll_interval"); [tauto|].
      destruct (String.eqb_spec k "data_retention_days"); [tauto|].
      destruct (String.eqb_spec k "max_websocket_clients"); [tauto|].
      rewrite A5 in Hv by assumption. discriminate.
    + intros [->|[->|[->|[->|[]]]]]; rewrite ?A1, ?A2, ?A3, ?A4; eauto.
  - destruct (SystemSettings.data_retention_days settings); cbn; [discriminate|tauto].
  - intros v Hv. rewrite U4, Hv. split; [reflexivity|]. now apply A5.
Qed.

Lemma settings_are_served_as_last_written_witness :
  let table :=
    update_settings T0
      {| SystemSettings.poll_interval := None;
         SystemSettings.energy_poll_interval := None;
         SystemSettings.data_retention_days := Some 30;
         SystemSettings.min_free_space_gb := Some 5%Q;
         SystemSettings.max_websocket_clients := None |} ∅ in
  get_settings table !! "data_retention_days" = Some (PyInt 30)
  /\ get_settings table !! "poll_interval" = Some (PyFloat 1)
  /\ fst <$> table !! "min_free_space_gb" = Some (PyFloat 5)
  /\ get_settings table !! "min_free_space_gb" = None.
Proof.
  cbv zeta.
  destruct (settings_are_served_as_last_written T0
              {| SystemSettings.poll_interval := None;
                 SystemSettings.energy_poll_interval := None;
                 SystemSettings.data_retention_days := Some 30;
                 SystemSettings.min_free_space_gb := Some 5%Q;
                 SystemSettings.max_websocket_clients := None |} ∅)
    as (Hp & _ & Hd & _ & _ & _ & Hm).
  cbv zeta in *. cbn [SystemSettings.poll_interval SystemSettings.data_retention_days
                      SystemSettings.min_free_space_gb] in *.
  destruct (Hm 5%Q eq_refl) as [Hstored Hserved].
  split; [exact Hd|]. split; [rewrite Hp; reflexivity|]. split; assumption.
Defined.

(** X16. The free-space threshold of the maintenance task is always its
    default of 1 GB: [get_settings] never returns a [min_free_space_gb]
    key, whatever the settings table holds. *)
Theorem maintenance_threshold_is_always_the_default :
  forall (table : gmap string (py_value * DT.datetime)),
    Main.maintenance_min_free_gb table = PyFloat 1
    /\ forall now settings,
         Main.maintenance_min_free_gb (update_settings now settings table) = PyFloat 1.
Proof.
  assert (H : forall table : gmap string (py_value * DT.datetime),
             Main.maintenance_min_free_gb table = PyFloat 1).
  { intros table. unfold Main.maintenance_min_free_gb.
    destruct (get_settings_lookup table) as (_ & _ & _ & _ & Hnone).
    rewrite Hnone by discriminate. reflexivity. }
  intros table. split; [apply H|]. intros now settings. apply H.
Qed.

End Settings.

(** ** Degenerate and unknown resolution labels *)

Section Labels.

Import Database.

Lemma bucket_loop_never_leaves keep_start current end_time :
  current <= end_time ->
  bucket_loop (rounds 0 current end_time) (fun c => DT.add_days c 0) keep_start
    current end_time = NoReturn.
Proof.
  intros Hle. unfold rounds. rewrite Z.div_0_r. change (Z.to_nat (0 + 1)) with 1%nat.
  cbn [bucket_loop]. destruct (Z.leb_spec current end_time); [|lia].
  assert (E : DT.add_days current 0 = current) by (unfold DT.add_days; lia).
  rewrite E. destruct (Z.leb_spec current end_time); [reflexivity|lia].
Qed.

Lemma query_range_ordered s mid t0 t1 phase :
  (2 <= length (get_energy_readings s mid t0 t1 phase))%nat -> t0 <= t1.
Proof.
  intros Hlen. destruct (get_energy_readings s mid t0 t1 phase) as [|r rest] eqn:E;
    [cbn in Hlen; lia|].
  assert (Hin : In r (get_energy_readings s mid t0 t1 phase)) by (rewrite E; now left).
  apply get_energy_readings_in_range in Hin. lia.
Qed.

(** X17. On a range that holds at least two raw readings, an energy query
    whose label asks for buckets of zero minutes or zero hours raises
    [ZeroDivisionError], and one whose label asks for buckets of zero days
    never returns: its loop adds a zero-width bucket for ever. *)
Theorem zero_width_labels_break_the_energy_query :
  forall s mid t0 t1 phase label,
    (2 <= length (get_energy_readings s mid t0 t1 phase))%nat ->
    String.eqb label "auto" = false ->
    (PyStr.endswith label "min" = true ->
     PyStr.int (PyStr.drop_last 3 label) = Ok 0 ->
     get_energy_aggregated s mid t0 t1 phase label = Raise ZeroDivisionError)
    /\ (PyStr.endswith label "min" = false ->
        PyStr.endswith label "hour" = true ->
        PyStr.int (PyStr.drop_last 4 label) = Ok 0 ->
        get_energy_aggregated s mid t0 t1 phase label = Raise ZeroDivisionError)
    /\ (PyStr.endswith label "min" = false ->
        PyStr.endswith label "hour" = false ->
        PyStr.endswith label "day" = true ->
        PyStr.int (PyStr.drop_last 3 label) = Ok 0 ->
        get_energy_aggregated s mid t0 t1 phase label = NoReturn).
Proof.
  intros s mid t0 t1 phase label Hlen Hauto.
  pose proof (query_range_ordered _ _ _ _ _ Hlen) as Hrange.
  assert (Hnone : forall suffix, PyStr.endswith label suffix = true ->
                    PyStr.endswith "none" suffix = false ->
                    String.eqb label "none" = false).
  { intros suffix H1 H2. destruct (String.eqb_spec label "none") as [E|]; [|reflexivity].
    rewrite E in H1. congruence. }
  assert (Hl : (length (get_energy_readings s mid t0 t1 phase) <? 2)%nat = false)
    by (apply Nat.ltb_ge; lia).
  assert (Hl' : (2 <=? length (get_energy_readings s mid t0 t1 phase))%nat = true)
    by (apply Nat.leb_le; lia).
  split; [|split].
  - intros Hmin Hint. unfold get_energy_aggregated. cbv zeta. rewrite Hauto.
    cbn [mbind result_bind]. rewrite (Hnone "min" Hmin eq_refl), Hl'. cbn [negb andb].
    rewrite Hmin. unfold _calculate_energy_deltas_with_interpolation. rewrite Hl.
    unfold interpolation_buckets. rewrite Hmin. unfold minute_buckets. rewrite Hint.
    reflexivity.
  - intros Hmin Hhour Hint. unfold get_energy_aggregated. cbv zeta. rewrite Hauto.
    cbn [mbind result_bind]. rewrite (Hnone "hour" Hhour eq_refl), Hl'. cbn [negb andb].
    rewrite Hmin. unfold _calculate_energy_deltas_without_interpolation. rewrite Hl.
    unfold first_last_buckets. rewrite Hhour. unfold hour_buckets. rewrite Hint.
    reflexivity.
  - intros Hmin Hhour Hday Hint. unfold get_energy_aggregated. cbv zeta. rewrite Hauto.
    cbn [mbind result_bind]. rewrite (Hnone "day" Hday eq_refl), Hl'. cbn [negb andb].
    rewrite Hmin. unfold _calculate_energy_deltas_without_interpolation. rewrite Hl.
    unfold first_last_buckets. rewrite Hhour, Hday. unfold day_buckets. rewrite Hint.
    cbn [mbind result_bind]. change (0 * DT.DAY) with 0.
    rewrite bucket_loop_never_leaves; [reflexivity|].
    rewrite floor_day_eq. pose proof DAY_pos. Z.div_mod_to_equations. nia.
Qed.

Lemma zero_width_labels_break_the_energy_query_witness :
  get_energy_aggregated rising_store "meter_001" T0 (DT.add_minutes T0 119)
    (Some "A") "0min" = Raise ZeroDivisionError
  /\ get_energy_aggregated rising_store "meter_001" T0 (DT.add_minutes T0 119)
       (Some "A") "0hour" = Raise ZeroDivisionError
  /\ get_energy_aggregated rising_store "meter_001" T0 (DT.add_minutes T0 119)
       (Some "A") "0day" = NoReturn.
Proof.
  assert (Hlen : (2 <= length (get_energy_readings rising_store "meter_001" T0
                                 (DT.add_minutes T0 119) (Some "A")))%nat)
    by (vm_compute; lia).
  destruct (zero_width_labels_break_the_energy_query _ _ _ _ _ "0min" Hlen eq_refl)
    as (Hmin & _ & _).
  destruct (zero_width_labels_break_the_energy_query _ _ _ _ _ "0hour" Hlen eq_refl)
    as (_ & Hhour & _).
  destruct (zero_width_labels_break_the_energy_query _ _ _ _ _ "0day" Hlen eq_refl)
    as (_ & _ & Hday).
  split; [apply Hmin; reflexivity|].
  split; [apply Hhour; reflexivity|apply Hday; reflexivity].
Defined.

(** X18. A label that is neither [auto] nor [none], does not end in [min],
    [hour] or [day] and is neither [1week] nor [1month] makes the
    historical query return the rows of the raw scan, the same rows as
    [none], while reporting the label itself as the aggregation applied. *)
Theorem unknown_label_falls_back_to_the_raw_scan :
  forall s mid t0 t1 limit label,
    String.eqb label "auto" = false ->
    PyStr.endswith label "min" = false ->
    PyStr.endswith label "hour" = false ->
    PyStr.endswith label "day" = false ->
    String.eqb label "1week" = false ->
    String.eqb label "1month" = false ->
    exists r raw,
      get_historical_readings s mid t0 t1 limit label = Ok r
      /\ get_historical_readings s mid t0 t1 limit "none" = Ok raw
      /\ result_readings r = result_readings raw
      /\ aggregation_applied r = label
      /\ original_count r = None.
Proof.
  intros s mid t0 t1 limit label Hauto Hmin Hhour Hday Hweek Hmonth.
  unfold get_historical_readings. cbv zeta. rewrite Hauto.
  cbn [mbind result_bind String.eqb Ascii.eqb Bool.eqb andb].
  destruct (String.eqb label "none") eqn:Hnone.
  - eexists; eexists. split; [reflexivity|]. split; [reflexivity|]. repeat split.
  - unfold _parse_aggregation_to_sql. rewrite Hnone, Hmin, Hhour, Hday, Hweek, Hmonth.
    cbn [mbind result_bind].
    eexists; eexists. split; [reflexivity|]. split; [reflexivity|]. repeat split.
Qed.

Lemma unknown_label_falls_back_to_the_raw_scan_witness :
  exists r,
    get_historical_readings aged_store "meter_001" T0 (DT.add_days T0 40) None "hourly"
    = Ok r
    /\ List.map o_active_power (result_readings r) = [200%Q; 100%Q]
    /\ aggregation_applied r = "hourly".
Proof.
  destruct (unknown_label_falls_back_to_the_raw_scan aged_store "meter_001" T0
              (DT.add_days T0 40) None "hourly")
    as (r & raw & Hr & Hraw & Hsame & Hlabel & _); try reflexivity.
  exists r. split; [exact Hr|]. split; [|exact Hlabel].
  rewrite Hsame. vm_compute in Hraw. injection Hraw as <-. reflexivity.
Defined.

End Labels.

(** ** Poller supervisors: start, stop and re-registration *)

Section Supervisors.

Import Models.

(** *** MeterPoller: projections of [add_meter] *)

Lemma meter_add_task (meter : Meter) (p : MeterPoller.t) :
  enabled meter = true -> MeterPoller.running p = true ->
  MeterPoller.meters (MeterPoller.add_meter meter p) = <[meter_id meter := meter]> (MeterPoller.meters p)
  /\ MeterPoller.tasks (MeterPoller.add_meter meter p)
     = <[meter_id meter := MeterPoller.next_handle p]> (MeterPoller.tasks p)
  /\ MeterPoller.event_loop (MeterPoller.add_meter meter p)
     = <[MeterPoller.next_handle p := {| polled := meter; status := Running |}]>
         (MeterPoller.event_loop p)
  /\ MeterPoller.running (MeterPoller.add_meter meter p) = true
  /\ MeterPoller.next_handle (MeterPoller.add_meter meter p) = S (MeterPoller.next_handle p).
Proof.
  intros He Hr. unfold MeterPoller.add_meter. rewrite He, Hr. cbn. repeat split; try exact Hr.
Qed.

Lemma meter_add_no_task (meter : Meter) (p : MeterPoller.t) :
  enabled meter && MeterPoller.running p = false ->
  MeterPoller.meters (MeterPoller.add_meter meter p) = <[meter_id meter := meter]> (MeterPoller.meters p)
  /\ MeterPoller.tasks (MeterPoller.add_meter meter p) = MeterPoller.tasks p
  /\ MeterPoller.event_loop (MeterPoller.add_meter meter p) = MeterPoller.event_loop p
  /\ MeterPoller.running (MeterPoller.add_meter meter p) = MeterPoller.running p
  /\ MeterPoller.next_handle (MeterPoller.add_meter meter p) = MeterPoller.next_handle p.
Proof.
  intros H. unfold MeterPoller.add_meter. rewrite H. cbn. repeat split.
Qed.

(** *** MeterPoller: [stop] *)

Lemma meter_stop_event_loop (p : MeterPoller.t) (h : nat) :
  ((exists mid, MeterPoller.tasks p !! mid = Some h) ->
   MeterPoller.event_loop (MeterPoller.stop p) !! h = cancel_and_await <$> MeterPoller.event_loop p !! h)
  /\ ((forall mid, MeterPoller.tasks p !! mid <> Some h) ->
      MeterPoller.event_loop (MeterPoller.stop p) !! h = MeterPoller.event_loop p !! h).
Proof.
  unfold MeterPoller.stop. cbn [MeterPoller.event_loop].
  set (el0 := MeterPoller.event_loop p).
  assert (Hidem : forall o : option task,
             cancel_and_await <$> (cancel_and_await <$> o) = cancel_and_await <$> o).
  { intros [[m []]|]; reflexivity. }
  enough (H : forall h,
             (map_fold (fun (_ : string) h el => alter cancel_and_await h el) el0
                       (MeterPoller.tasks p) !! h = el0 !! h
              \/ map_fold (fun (_ : string) h el => alter cancel_and_await h el) el0
                          (MeterPoller.tasks p) !! h = cancel_and_await <$> el0 !! h)
             /\ ((exists mid, MeterPoller.tasks p !! mid = Some h) ->
                 map_fold (fun (_ : string) h el => alter cancel_and_await h el) el0
                          (MeterPoller.tasks p) !! h = cancel_and_await <$> el0 !! h)
             /\ ((forall mid, MeterPoller.tasks p !! mid <> Some h) ->
                 map_fold (fun (_ : string) h el => alter cancel_and_await h el) el0
                          (MeterPoller.tasks p) !! h = el0 !! h)).
  { destruct (H h) as (_ & H1 & H2). split; assumption. }
  apply (map_fold_weak_ind
           (fun el (m : gmap string nat) =>
              forall h,
                (el !! h = el0 !! h \/ el !! h = cancel_and_await <$> el0 !! h)
                /\ ((exists mid, m !! mid = Some h) ->
                    el !! h = cancel_and_await <$> el0 !! h)
                /\ ((forall mid, m !! mid <> Some h) -> el !! h = el0 !! h))).
  - intros k. split; [now left|]. split; [|reflexivity].
    intros (mid & Hm). rewrite lookup_empty in Hm. discriminate.
  - intros i x m el Hnone IH k. destruct (Nat.eq_dec x k) as [->|Hne].
    + rewrite lookup_alter_eq.
      assert (E : cancel_and_await <$> el !! k = cancel_and_await <$> el0 !! k).
      { destruct (IH k) as ([E|E] & _); rewrite E; [reflexivity|apply Hidem]. }
      split; [now right|]. split; [intros _; exact E|].
      intros Hall. elim (Hall i). apply lookup_insert_eq.
    + rewrite lookup_alter_ne by exact Hne. destruct (IH k) as (H0 & H1 & H2).
      split; [exact H0|]. split.
      * intros (mid & Hm). apply H1. exists mid.
        destruct (String.eqb_spec i mid) as [->|Hi].
        -- rewrite lookup_insert_eq in Hm. congruence.
        -- now rewrite lookup_insert_ne in Hm.
      * intros Hall. apply H2. intros mid Hm. apply (Hall mid).
        destruct (String.eqb_spec i mid) as [->|Hi]; [congruence|].
        now rewrite lookup_insert_ne.
Qed.

Lemma meter_stop_spec (p : MeterPoller.t) :
  MeterPoller.running (MeterPoller.stop p) = false
  /\ MeterPoller.tasks (MeterPoller.stop p) = MeterPoller.tasks p
  /\ MeterPoller.meters (MeterPoller.stop p) = MeterPoller.meters p
  /\ (forall mid h t,
        MeterPoller.tasks p !! mid = Some h ->
        MeterPoller.event_loop (MeterPoller.stop p) !! h = Some t -> status t <> Running)
  /\ (forall meter,
        MeterPoller.tasks (MeterPoller.add_meter meter (MeterPoller.stop p)) = MeterPoller.tasks p
        /\ MeterPoller.event_loop (MeterPoller.add_meter meter (MeterPoller.stop p)) = MeterPoller.event_loop (MeterPoller.stop p)
        /\ MeterPoller.meters (MeterPoller.add_meter meter (MeterPoller.stop p)) !! meter_id meter = Some meter).
Proof.
  split; [reflexivity|]. split; [reflexivity|]. split; [reflexivity|]. split.
  - intros mid h t Hm Ht.
    destruct (meter_stop_event_loop p h) as [H _]. rewrite H in Ht by eauto.
    destruct (MeterPoller.event_loop p !! h) as [[m st]|]; [|discriminate].
    cbn in Ht. injection Ht as <-. unfold cancel_and_await. cbn.
    destruct st; cbn; discriminate.
  - intros meter.
    destruct (meter_add_no_task meter (MeterPoller.stop p)) as (Hm & Ht & He & _).
    { cbn. apply andb_false_r. }
    rewrite Ht, He, Hm. repeat split. apply lookup_insert_eq.
Qed.

(** *** MeterPoller: [start] *)

Definition meter_handles_bounded (p : MeterPoller.t) : Prop :=
  forall mid h, MeterPoller.tasks p !! mid = Some h -> (h < MeterPoller.next_handle p)%nat.

Lemma meter_load_meters_spec : forall (rows : list Database.meters_row) (p : MeterPoller.t),
  NoDup (List.map Database.c_meter_id rows) ->
  Forall (fun row => Database.c_enabled row = 0 \/ Database.c_enabled row = 1) rows ->
  MeterPoller.running p = true ->
  meter_handles_bounded p ->
  exists p',
    MeterPoller.load_meters rows p = Ok p'
    /\ MeterPoller.running p' = true
    /\ meter_handles_bounded p'
    /\ (MeterPoller.next_handle p <= MeterPoller.next_handle p')%nat
    /\ (forall h, (h < MeterPoller.next_handle p)%nat ->
          MeterPoller.event_loop p' !! h = MeterPoller.event_loop p !! h)
    /\ (forall mid,
          (forall row, In row rows -> Database.c_meter_id row = mid ->
                       Database.c_enabled row = 0) ->
          MeterPoller.meters p' !! mid = MeterPoller.meters p !! mid
          /\ MeterPoller.tasks p' !! mid = MeterPoller.tasks p !! mid)
    /\ (forall row, In row rows -> Database.c_enabled row = 1 ->
          exists meter h,
            meter_of_row row = Ok meter
            /\ MeterPoller.meters p' !! Database.c_meter_id row = Some meter
            /\ MeterPoller.tasks p' !! Database.c_meter_id row = Some h
            /\ MeterPoller.event_loop p' !! h = Some {| polled := meter; status := Running |}).
Proof.
  induction rows as [|row rows IH]; intros p Hnd Hen Hrun Hb.
  - exists p. cbn [MeterPoller.load_meters]. split; [reflexivity|]. split; [exact Hrun|].
    split; [exact Hb|]. split; [lia|]. split; [reflexivity|]. split; [now split|].
    intros row [].
  - cbn [List.map] in Hnd. apply NoDup_cons in Hnd as [Hfresh Hnd].
    apply Forall_cons in Hen as [Hrow Hen]. cbn [MeterPoller.load_meters].
    unfold meter_of_row at 1.
    assert (Hok : (Database.c_enabled row =? 0) || (Database.c_enabled row =? 1) = true).
    { destruct Hrow as [->| ->]; reflexivity. }
    rewrite Hok. cbn [mbind result_bind].
    set (meter := {| meter_id := Database.c_meter_id row;
                     ip_address := Database.c_ip_address row;
                     name := Database.c_name row;
                     location := Database.c_location row;
                     enabled := Database.c_enabled row =? 1;
                     poll_interval := Database.c_poll_interval row;
                     energy_poll_interval := Database.c_energy_poll_interval row |}).
    assert (Hmeter : meter_of_row row = Ok meter).
    { unfold meter_of_row. now rewrite Hok. }
    destruct Hrow as [Hz|Hone].
    2:{ assert (He : enabled meter = true) by (subst meter; cbn; now rewrite Hone).
      rewrite He.
      destruct (meter_add_task meter p He Hrun) as (Am & At & Ae & Ar & An).
      assert (Hb1 : meter_handles_bounded (MeterPoller.add_meter meter p)).
      { intros mid h Hm. rewrite At in Hm. rewrite An.
        destruct (String.eqb_spec (meter_id meter) mid) as [E|E].
        - rewrite E, lookup_insert_eq in Hm. injection Hm as <-. lia.
        - rewrite lookup_insert_ne in Hm by exact E. specialize (Hb mid h Hm). lia. }
      destruct (IH (MeterPoller.add_meter meter p) Hnd Hen Ar Hb1)
        as (p' & Hload & Hr' & Hb' & Hn' & Hel' & Hother & Hrows).
      exists p'. split; [exact Hload|]. split; [exact Hr'|]. split; [exact Hb'|].
      rewrite An in Hn', Hel'. split; [lia|]. split; [|split].
      * intros h Hh. rewrite Hel' by lia. rewrite Ae. apply lookup_insert_ne. lia.
      * intros mid Hdis.
        assert (Hne : meter_id meter <> mid).
        { intros E. specialize (Hdis row ltac:(now left) E). lia. }
        destruct (Hother mid) as [H1 H2].
        { intros row' Hin. apply Hdis. now right. }
        rewrite H1, H2, Am, At. split; now apply lookup_insert_ne.
      * intros row' [<-|Hin] Hone'.
        -- exists meter, (MeterPoller.next_handle p). split; [exact Hmeter|].
           destruct (Hother (Database.c_meter_id row)) as [H1 H2].
           { intros row' Hin E. elim Hfresh. apply list_elem_of_In. rewrite <- E.
             now apply in_map. }
           rewrite H1, H2, Am, At. change (meter_id meter) with (Database.c_meter_id row).
           rewrite !lookup_insert_eq. split; [reflexivity|]. split; [reflexivity|].
           rewrite Hel' by lia. rewrite Ae. apply lookup_insert_eq.
        -- now apply Hrows. }
    assert (He : enabled meter = false) by (subst meter; cbn; now rewrite Hz).
    rewrite He.
    destruct (IH p Hnd Hen Hrun Hb)
      as (p' & Hload & Hr' & Hb' & Hn' & Hel' & Hother & Hrows).
    exists p'. repeat (split; [assumption|]). split.
    + intros mid Hdis. apply Hother. intros row' Hin. apply Hdis. now right.
    + intros row' [<-|Hin] Hone'; [lia|now apply Hrows].
Qed.

(** *** EnergyPoller: projections of [add_meter] *)

Lemma energy_add_task (meter : Meter) (p : EnergyPoller.t) :
  enabled meter = true -> EnergyPoller.running p = true ->
  EnergyPoller.meters (EnergyPoller.add_meter meter p) = <[meter_id meter := meter]> (EnergyPoller.meters p)
  /\ EnergyPoller.tasks (EnergyPoller.add_meter meter p)
     = <[meter_id meter := EnergyPoller.next_handle p]> (EnergyPoller.tasks p)
  /\ EnergyPoller.event_loop (EnergyPoller.add_meter meter p)
     = <[EnergyPoller.next_handle p := {| polled := meter; status := Running |}]>
         (EnergyPoller.event_loop p)
  /\ EnergyPoller.running (EnergyPoller.add_meter meter p) = true
  /\ EnergyPoller.next_handle (EnergyPoller.add_meter meter p) = S (EnergyPoller.next_handle p).
Proof.
  intros He Hr. unfold EnergyPoller.add_meter. rewrite He, Hr. cbn. repeat split; try exact Hr.
Qed.

Lemma energy_add_no_task (meter : Meter) (p : EnergyPoller.t) :
  enabled meter && EnergyPoller.running p = false ->
  EnergyPoller.meters (EnergyPoller.add_meter meter p) = <[meter_id meter := meter]> (EnergyPoller.meters p)
  /\ EnergyPoller.tasks (EnergyPoller.add_meter meter p) = EnergyPoller.tasks p
  /\ EnergyPoller.event_loop (EnergyPoller.add_meter meter p) = EnergyPoller.event_loop p
  /\ EnergyPoller.running (EnergyPoller.add_meter meter p) = EnergyPoller.running p
  /\ EnergyPoller.next_handle (EnergyPoller.add_meter meter p) = EnergyPoller.next_handle p.
Proof.
  intros H. unfold EnergyPoller.add_meter. rewrite H. cbn. repeat split.
Qed.

(** *** EnergyPoller: [stop] *)

Lemma energy_stop_event_loop (p : EnergyPoller.t) (h : nat) :
  ((exists mid, EnergyPoller.tasks p !! mid = Some h) ->
   EnergyPoller.event_loop (EnergyPoller.stop p) !! h = cancel_and_await <$> EnergyPoller.event_loop p !! h)
  /\ ((forall mid, EnergyPoller.tasks p !! mid <> Some h) ->
      EnergyPoller.event_loop (EnergyPoller.stop p) !! h = EnergyPoller.event_loop p !! h).
Proof.
  unfold EnergyPoller.stop. cbn [EnergyPoller.event_loop].
  set (el0 := EnergyPoller.event_loop p).
  assert (Hidem : forall o : option task,
             cancel_and_await <$> (cancel_and_await <$> o) = cancel_and_await <$> o).
  { intros [[m []]|]; reflexivity. }
  enough (H : forall h,
             (map_fold (fun (_ : string) h el => alter cancel_and_await h el) el0
                       (EnergyPoller.tasks p) !! h = el0 !! h
              \/ map_fold (fun (_ : string) h el => alter cancel_and_await h el) el0
                          (EnergyPoller.tasks p) !! h = cancel_and_await <$> el0 !! h)
             /\ ((exists mid, EnergyPoller.tasks p !! mid = Some h) ->
                 map_fold (fun (_ : string) h el => alter cancel_and_await h el) el0
                          (EnergyPoller.tasks p) !! h = cancel_and_await <$> el0 !! h)
             /\ ((forall mid, EnergyPoller.tasks p !! mid <> Some h) ->
                 map_fold (fun (_ : string) h el => alter cancel_and_await h el) el0
                          (EnergyPoller.tasks p) !! h = el0 !! h)).
  { destruct (H h) as (_ & H1 & H2). split; assumption. }
  apply (map_fold_weak_ind
           (fun el (m : gmap string nat) =>
              forall h,
                (el !! h = el0 !! h \/ el !! h = cancel_and_await <$> el0 !! h)
                /\ ((exists mid, m !! mid = Some h) ->
                    el !! h = cancel_and_await <$> el0 !! h)
                /\ ((forall mid, m !! mid <> Some h) -> el !! h = el0 !! h))).
  - intros k. split; [now left|]. split; [|reflexivity].
    intros (mid & Hm). rewrite lookup_empty in Hm. discriminate.
  - intros i x m el Hnone IH k. destruct (Nat.eq_dec x k) as [->|Hne].
    + rewrite lookup_alter_eq.
      assert (E : cancel_and_await <$> el !! k = cancel_and_await <$> el0 !! k).
      { destruct (IH k) as ([E|E] & _); rewrite E; [reflexivity|apply Hidem]. }
      split; [now right|]. split; [intros _; exact E|].
      intros Hall. elim (Hall i). apply lookup_insert_eq.
    + rewrite lookup_alter_ne by exact Hne. destruct (IH k) as (H0 & H1 & H2).
      split; [exact H0|]. split.
      * intros (mid & Hm). apply H1. exists mid.
        destruct (String.eqb_spec i mid) as [->|Hi].
        -- rewrite lookup_insert_eq in Hm. congruence.
        -- now rewrite lookup_insert_ne in Hm.
      * intros Hall. apply H2. intros mid Hm. apply (Hall mid).
        destruct (String.eqb_spec i mid) as [->|Hi]; [congruence|].
        now rewrite lookup_insert_ne.
Qed.

Lemma energy_stop_spec (p : EnergyPoller.t) :
  EnergyPoller.running (EnergyPoller.stop p) = false
  /\ EnergyPoller.tasks (EnergyPoller.stop p) = EnergyPoller.tasks p
  /\ EnergyPoller.meters (EnergyPoller.stop p) = EnergyPoller.meters p
  /\ (forall mid h t,
        EnergyPoller.tasks p !! mid = Some h ->
        EnergyPoller.event_loop (EnergyPoller.stop p) !! h = Some t -> status t <> Running)
  /\ (forall meter,
        EnergyPoller.tasks (EnergyPoller.add_meter meter (EnergyPoller.stop p)) = EnergyPoller.tasks p
        /\ EnergyPoller.event_loop (EnergyPoller.add_meter meter (EnergyPoller.stop p)) = EnergyPoller.event_loop (EnergyPoller.stop p)
        /\ EnergyPoller.meters (EnergyPoller.add_meter meter (EnergyPoller.stop p)) !! meter_id meter = Some meter).
Proof.
  split; [reflexivity|]. split; [reflexivity|]. split; [reflexivity|]. split.
  - intros mid h t Hm Ht.
    destruct (energy_stop_event_loop p h) as [H _]. rewrite H in Ht by eauto.
    destruct (EnergyPoller.event_loop p !! h) as [[m st]|]; [|discriminate].
    cbn in Ht. injection Ht as <-. unfold cancel_and_await. cbn.
    destruct st; cbn; discriminate.
  - intros meter.
    destruct (energy_add_no_task meter (EnergyPoller.stop p)) as (Hm & Ht & He & _).
    { cbn. apply andb_false_r. }
    rewrite Ht, He, Hm. repeat split. apply lookup_insert_eq.
Qed.

(** *** EnergyPoller: [start] *)

Definition energy_handles_bounded (p : EnergyPoller.t) : Prop :=
  forall mid h, EnergyPoller.tasks p !! mid = Some h -> (h < EnergyPoller.next_handle p)%nat.

Lemma energy_load_meters_spec : forall (rows : list Database.meters_row) (p : EnergyPoller.t),
  NoDup (List.map Database.c_meter_id rows) ->
  Forall (fun row => Database.c_enabled row = 0 \/ Database.c_enabled row = 1) rows ->
  EnergyPoller.running p = true ->
  energy_handles_bounded p ->
  exists p',
    EnergyPoller.load_meters rows p = Ok p'
    /\ EnergyPoller.running p' = true
    /\ energy_handles_bounded p'
    /\ (EnergyPoller.next_handle p <= EnergyPoller.next_handle p')%nat
    /\ (forall h, (h < EnergyPoller.next_handle p)%nat ->
          EnergyPoller.event_loop p' !! h = EnergyPoller.event_loop p !! h)
    /\ (forall mid,
          (forall row, In row rows -> Database.c_meter_id row = mid ->
                       Database.c_enabled row = 0) ->
          EnergyPoller.meters p' !! mid = EnergyPoller.meters p !! mid
          /\ EnergyPoller.tasks p' !! mid = EnergyPoller.tasks p !! mid)
    /\ (forall row, In row rows -> Database.c_enabled row = 1 ->
          exists meter h,
            meter_of_row row = Ok meter
            /\ EnergyPoller.meters p' !! Database.c_meter_id row = Some meter
            /\ EnergyPoller.tasks p' !! Database.c_meter_id row = Some h
            /\ EnergyPoller.event_loop p' !! h = Some {| polled := meter; status := Running |}).
Proof.
  induction rows as [|row rows IH]; intros p Hnd Hen Hrun Hb.
  - exists p. cbn [EnergyPoller.load_meters]. split; [reflexivity|]. split; [exact Hrun|].
    split; [exact Hb|]. split; [lia|]. split; [reflexivity|]. split; [now split|].
    intros row [].
  - cbn [List.map] in Hnd. apply NoDup_cons in Hnd as [Hfresh Hnd].
    apply Forall_cons in Hen as [Hrow Hen]. cbn [EnergyPoller.load_meters].
    unfold meter_of_row at 1.
    assert (Hok : (Database.c_enabled row =? 0) || (Database.c_enabled row =? 1) = true).
    { destruct Hrow as [->| ->]; reflexivity. }
    rewrite Hok. cbn [mbind result_bind].
    set (meter := {| meter_id := Database.c_meter_id row;
                     ip_address := Database.c_ip_address row;
                     name := Database.c_name row;
                     location := Database.c_location row;
                     enabled := Database.c_enabled row =? 1;
                     poll_interval := Database.c_poll_interval row;
                     energy_poll_interval := Database.c_energy_poll_interval row |}).
    assert (Hmeter : meter_of_row row = Ok meter).
    { unfold meter_of_row. now rewrite Hok. }
    destruct Hrow as [Hz|Hone].
    2:{ assert (He : enabled meter = true) by (subst meter; cbn; now rewrite Hone).
      rewrite He.
      destruct (energy_add_task meter p He Hrun) as (Am & At & Ae & Ar & An).
      assert (Hb1 : energy_handles_bounded (EnergyPoller.add_meter meter p)).
      { intros mid h Hm. rewrite At in Hm. rewrite An.
        destruct (String.eqb_spec (meter_id meter) mid) as [E|E].
        - rewrite E, lookup_insert_eq in Hm. injection Hm as <-. lia.
        - rewrite lookup_insert_ne in Hm by exact E. specialize (Hb mid h Hm). lia. }
      destruct (IH (EnergyPoller.add_meter meter p) Hnd Hen Ar Hb1)
        as (p' & Hload & Hr' & Hb' & Hn' & Hel' & Hother & Hrows).
      exists p'. split; [exact Hload|]. split; [exact Hr'|]. split; [exact Hb'|].
      rewrite An in Hn', Hel'. split; [lia|]. split; [|split].
      * intros h Hh. rewrite Hel' by lia. rewrite Ae. apply lookup_insert_ne. lia.
      * intros mid Hdis.
        assert (Hne : meter_id meter <> mid).
        { intros E. specialize (Hdis row ltac:(now left) E). lia. }
        destruct (Hother mid) as [H1 H2].
        { intros row' Hin. apply Hdis. now right. }
        rewrite H1, H2, Am, At. split; now apply lookup_insert_ne.
      * intros row' [<-|Hin] Hone'.
        -- exists meter, (EnergyPoller.next_handle p). split; [exact Hmeter|].
           destruct (Hother (Database.c_meter_id row)) as [H1 H2].
           { intros row' Hin E. elim Hfresh. apply list_elem_of_In. rewrite <- E.
             now apply in_map. }
           rewrite H1, H2, Am, At. change (meter_id meter) with (Database.c_meter_id row).
           rewrite !lookup_insert_eq. split; [reflexivity|]. split; [reflexivity|].
           rewrite Hel' by lia. rewrite Ae. apply lookup_insert_eq.
        -- now apply Hrows. }
    assert (He : enabled meter = false) by (subst meter; cbn; now rewrite Hz).
    rewrite He.
    destruct (IH p Hnd Hen Hrun Hb)
      as (p' & Hload & Hr' & Hb' & Hn' & Hel' & Hother & Hrows).
    exists p'. repeat (split; [assumption|]). split.
    + intros mid Hdis. apply Hother. intros row' Hin. apply Hdis. now right.
    + intros row' [<-|Hin] Hone'; [lia|now apply Hrows].
Qed.

(** *** Starting on a meters table *)

(** A poller as its constructor leaves it. *)
Definition new_meter_poller : MeterPoller.t :=
  {| MeterPoller.meters := ∅;
     MeterPoller.tasks := ∅;
     MeterPoller.running := false;
     MeterPoller.event_loop := ∅;
     MeterPoller.next_handle := 0 |}.

Definition new_energy_poller : EnergyPoller.t :=
  {| EnergyPoller.meters := ∅;
     EnergyPoller.tasks := ∅;
     EnergyPoller.running := false;
     EnergyPoller.event_loop := ∅;
     EnergyPoller.next_handle := 0 |}.

(** Rows as the service writes them: filed under their own id, with
    [enabled] 0 or 1. *)
Definition meters_table_valid (db : Database.store) : Prop :=
  forall mid row,
    Database.meters db !! mid = Some row ->
    Database.c_meter_id row = mid
    /\ (Database.c_enabled row = 0 \/ Database.c_enabled row = 1).

Lemma get_all_meters_perm (db : Database.store) :
  Permutation (Database.get_all_meters db)
    (List.map snd (map_to_list (Database.meters db))).
Proof.
  unfold Database.get_all_meters.
  induction (List.map snd (map_to_list (Database.meters db))) as [|r rows IH];
    [reflexivity|].
  cbn [fold_right]. rewrite insert_meters_row_perm. now constructor.
Qed.

Lemma get_all_meters_in (db : Database.store) row :
  In row (Database.get_all_meters db) <-> exists mid, Database.meters db !! mid = Some row.
Proof.
  split.
  - intros Hin. apply (Permutation_in _ (get_all_meters_perm db)) in Hin.
    apply in_map_iff in Hin as ([mid r] & <- & Hin). exists mid.
    apply elem_of_map_to_list. now apply list_elem_of_In.
  - intros (mid & Hm).
    apply (Permutation_in _ (Permutation_sym (get_all_meters_perm db))).
    apply in_map_iff. exists (mid, row). split; [reflexivity|].
    apply list_elem_of_In. now apply elem_of_map_to_list.
Qed.

Lemma get_all_meters_ids (db : Database.store) :
  meters_table_valid db ->
  NoDup (List.map Database.c_meter_id (Database.get_all_meters db))
  /\ Forall (fun row => Database.c_enabled row = 0 \/ Database.c_enabled row = 1)
       (Database.get_all_meters db).
Proof.
  intros Hvalid. split.
  - rewrite (Permutation_map Database.c_meter_id (get_all_meters_perm db)).
    rewrite List.map_map.
    assert (E : List.map (fun x => Database.c_meter_id (snd x))
                  (map_to_list (Database.meters db))
                = (map_to_list (Database.meters db)).*1).
    { assert (H : forall kv, kv ∈ map_to_list (Database.meters db) ->
                    Database.c_meter_id (snd kv) = fst kv).
      { intros [k r] Hin. apply elem_of_map_to_list in Hin. now apply Hvalid in Hin. }
      induction (map_to_list (Database.meters db)) as [|kv l IH]; [reflexivity|].
      cbn. rewrite H by (now left). f_equal. apply IH. intros kv' Hin. apply H. now right. }
    rewrite E. apply NoDup_fst_map_to_list.
  - apply List.Forall_forall. intros row Hin. apply get_all_meters_in in Hin as (mid & Hm).
    now apply Hvalid in Hm.
Qed.

(** X19. On a valid meters table, [start] on a new poller returns a running
    poller that knows exactly the enabled meters of the table, each with a
    running task that polls the meter as the table describes it; disabled
    meters are neither known nor polled.  The same holds for the energy
    poller. *)
Theorem start_polls_exactly_the_enabled_meters :
  forall db,
    meters_table_valid db ->
    (exists p,
        MeterPoller.start db new_meter_poller = Ok p
        /\ MeterPoller.running p = true
        /\ forall mid,
             match Database.get_meter db mid with
             | Some row =>
                 if Database.c_enabled row =? 1 then
                   exists meter h,
                     meter_of_row row = Ok meter
                     /\ MeterPoller.meters p !! mid = Some meter
                     /\ MeterPoller.tasks p !! mid = Some h
                     /\ MeterPoller.event_loop p !! h
                        = Some {| polled := meter; status := Running |}
                 else MeterPoller.meters p !! mid = None /\ MeterPoller.tasks p !! mid = None
             | None => MeterPoller.meters p !! mid = None /\ MeterPoller.tasks p !! mid = None
             end)
    /\ (exists p,
          EnergyPoller.start db new_energy_poller = Ok p
          /\ EnergyPoller.running p = true
          /\ forall mid,
               match Database.get_meter db mid with
               | Some row =>
                   if Database.c_enabled row =? 1 then
                     exists meter h,
                       meter_of_row row = Ok meter
                       /\ EnergyPoller.meters p !! mid = Some meter
                       /\ EnergyPoller.tasks p !! mid = Some h
                       /\ EnergyPoller.event_loop p !! h
                          = Some {| polled := meter; status := Running |}
                   else EnergyPoller.meters p !! mid = None
                        /\ EnergyPoller.tasks p !! mid = None
               | None => EnergyPoller.meters p !! mid = None
                         /\ EnergyPoller.tasks p !! mid = None
               end).
Proof.
  intros db Hvalid. destruct (get_all_meters_ids db Hvalid) as [Hnd Hen].
  assert (Hunique : forall mid row row',
             Database.meters db !! mid = Some row ->
             In row' (Database.get_all_meters db) -> Database.c_meter_id row' = mid ->
             row' = row).
  { intros mid row row' Hm Hin Hid. apply get_all_meters_in in Hin as (k & Hk).
    destruct (Hvalid k row' Hk) as [E _]. congruence. }
  split.
  - unfold MeterPoller.start. cbn [MeterPoller.meters MeterPoller.tasks
      MeterPoller.event_loop MeterPoller.next_handle new_meter_poller].
    destruct (meter_load_meters_spec (Database.get_all_meters db)
                {| MeterPoller.meters := ∅; MeterPoller.tasks := ∅;
                   MeterPoller.running := true; MeterPoller.event_loop := ∅;
                   MeterPoller.next_handle := 0 |} Hnd Hen eq_refl)
      as (p & Hload & Hrun & _ & _ & _ & Hother & Hrows).
    { intros mid h Hm. cbn in Hm. rewrite lookup_empty in Hm. discriminate. }
    exists p. split; [exact Hload|]. split; [exact Hrun|].
    intros mid. unfold Database.get_meter.
    destruct (Database.meters db !! mid) as [row|] eqn:Hm.
    + destruct (Hvalid mid row Hm) as [Hid Hrow].
      destruct (Z.eqb_spec (Database.c_enabled row) 1) as [Hone|Hnot].
      * destruct (Hrows row) as (meter & h & H1 & H2 & H3 & H4);
          [apply get_all_meters_in; eauto|exact Hone|].
        rewrite Hid in H2, H3. eauto 10.
      * destruct (Hother mid) as [H1 H2].
        { intros row' Hin E. rewrite (Hunique mid row row' Hm Hin E). lia. }
        rewrite H1, H2. cbn. now rewrite lookup_empty.
    + destruct (Hother mid) as [H1 H2].
      { intros row' Hin E. apply get_all_meters_in in Hin as (k & Hk).
        destruct (Hvalid k row' Hk) as [E' _]. congruence. }
      rewrite H1, H2. cbn. now rewrite lookup_empty.
  - unfold EnergyPoller.start. cbn [EnergyPoller.meters EnergyPoller.tasks
      EnergyPoller.event_loop EnergyPoller.next_handle new_energy_poller].
    destruct (energy_load_meters_spec (Database.get_all_meters db)
                {| EnergyPoller.meters := ∅; EnergyPoller.tasks := ∅;
                   EnergyPoller.running := true; EnergyPoller.event_loop := ∅;
                   EnergyPoller.next_handle := 0 |} Hnd Hen eq_refl)
      as (p & Hload & Hrun & _ & _ & _ & Hother & Hrows).
    { intros mid h Hm. cbn in Hm. rewrite lookup_empty in Hm. discriminate. }
    exists p. split; [exact Hload|]. split; [exact Hrun|].
    intros mid. unfold Database.get_meter.
    destruct (Database.meters db !! mid) as [row|] eqn:Hm.
    + destruct (Hvalid mid row Hm) as [Hid Hrow].
      destruct (Z.eqb_spec (Database.c_enabled row) 1) as [Hone|Hnot].
      * destruct (Hrows row) as (meter & h & H1 & H2 & H3 & H4);
          [apply get_all_meters_in; eauto|exact Hone|].
        rewrite Hid in H2, H3. eauto 10.
      * destruct (Hother mid) as [H1 H2].
        { intros row' Hin E. rewrite (Hunique mid row row' Hm Hin E). lia. }
        rewrite H1, H2. cbn. now rewrite lookup_empty.
    + destruct (Hother mid) as [H1 H2].
      { intros row' Hin E. apply get_all_meters_in in Hin as (k & Hk).
        destruct (Hvalid k row' Hk) as [E' _]. congruence. }
      rewrite H1, H2. cbn. now rewrite lookup_empty.
Qed.

(** A table with one enabled and one disabled meter. *)
Definition two_meter_store : Database.store :=
  Database.register_meter T0 disabled_meter
    (Database.register_meter T0 sample_meter empty_store).

Lemma two_meter_store_valid : meters_table_valid two_meter_store.
Proof.
  intros mid row Hm. unfold two_meter_store, Database.register_meter in Hm.
  cbn in Hm.
  destruct (String.eqb_spec mid "meter_002") as [->|H2].
  - rewrite lookup_insert_eq in Hm. injection Hm as <-. cbn. split; [reflexivity|now left].
  - rewrite lookup_insert_ne in Hm by congruence.
    destruct (String.eqb_spec mid "meter_001") as [->|H1].
    + rewrite lookup_insert_eq in Hm. injection Hm as <-. cbn.
      split; [reflexivity|now right].
    + rewrite lookup_insert_ne in Hm by congruence. rewrite lookup_empty in Hm.
      discriminate.
Qed.

Lemma start_polls_exactly_the_enabled_meters_witness :
  exists p,
    MeterPoller.start two_meter_store new_meter_poller = Ok p
    /\ MeterPoller.tasks p !! "meter_001" = Some 0%nat
    /\ MeterPoller.event_loop p !! 0%nat = Some {| polled := sample_meter; status := Running |}
    /\ MeterPoller.meters p !! "meter_002" = None
    /\ MeterPoller.tasks p !! "meter_002" = None.
Proof.
  destruct (start_polls_exactly_the_enabled_meters two_meter_store two_meter_store_valid)
    as [(p & Hstart & _ & Hall) _].
  exists p. split; [exact Hstart|].
  pose proof (Hall "meter_002") as H2.
  eassert (Hv : MeterPoller.start two_meter_store new_meter_poller = Ok _)
    by (vm_compute; reflexivity).
  rewrite Hv in Hstart. injection Hstart as <-.
  split; [vm_compute; reflexivity|]. split; [vm_compute; reflexivity|].
  assert (E : Database.get_meter two_meter_store "meter_002"
              = Some {| Database.c_meter_id := "meter_002";
                        Database.c_ip_address := "192.168.1.101";
                        Database.c_name := None; Database.c_location := None;
                        Database.c_enabled := 0; Database.c_poll_interval := 1%Q;
                        Database.c_energy_poll_interval := 30%Q;
                        Database.c_last_seen := Some T0;
                        Database.c_created_at := T0 |}) by reflexivity.
  rewrite E in H2. cbn [Database.c_enabled Z.eqb] in H2. exact H2.
Defined.

(** X20. [stop] turns the poller off and leaves no task of its task dict
    running; the dict itself and the known meters stay as they were, and a
    meter added afterwards is recorded but gets no task.  The same holds
    for the energy poller. *)
Theorem stop_leaves_no_supervised_task_running :
  (forall p : MeterPoller.t,
      MeterPoller.running (MeterPoller.stop p) = false
      /\ MeterPoller.tasks (MeterPoller.stop p) = MeterPoller.tasks p
      /\ MeterPoller.meters (MeterPoller.stop p) = MeterPoller.meters p
      /\ (forall mid h t,
            MeterPoller.tasks p !! mid = Some h ->
            MeterPoller.event_loop (MeterPoller.stop p) !! h = Some t ->
            status t <> Running)
      /\ (forall meter,
            MeterPoller.tasks (MeterPoller.add_meter meter (MeterPoller.stop p))
            = MeterPoller.tasks p
            /\ MeterPoller.event_loop (MeterPoller.add_meter meter (MeterPoller.stop p))
               = MeterPoller.event_loop (MeterPoller.stop p)
            /\ MeterPoller.meters (MeterPoller.add_meter meter (MeterPoller.stop p))
                 !! meter_id meter = Some meter))
  /\ (forall p : EnergyPoller.t,
        EnergyPoller.running (EnergyPoller.stop p) = false
        /\ EnergyPoller.tasks (EnergyPoller.stop p) = EnergyPoller.tasks p
        /\ EnergyPoller.meters (EnergyPoller.stop p) = EnergyPoller.meters p
        /\ (forall mid h t,
              EnergyPoller.tasks p !! mid = Some h ->
              EnergyPoller.event_loop (EnergyPoller.stop p) !! h = Some t ->
              status t <> Running)
        /\ (forall meter,
              EnergyPoller.tasks (EnergyPoller.add_meter meter (EnergyPoller.stop p))
              = EnergyPoller.tasks p
              /\ EnergyPoller.event_loop (EnergyPoller.add_meter meter (EnergyPoller.stop p))
                 = EnergyPoller.event_loop (EnergyPoller.stop p)
              /\ EnergyPoller.meters (EnergyPoller.add_meter meter (EnergyPoller.stop p))
                   !! meter_id meter = Some meter)).
Proof. split; [exact meter_stop_spec|exact energy_stop_spec]. Qed.

Lemma stop_leaves_no_supervised_task_running_witness :
  let p := MeterPoller.stop (MeterPoller.add_meter sample_meter idle_meter_poller) in
  MeterPoller.tasks p !! "meter_001" = Some 0%nat
  /\ (forall t, MeterPoller.event_loop p !! 0%nat = Some t -> status t <> Running)
  /\ MeterPoller.event_loop p !! 0%nat
     = Some {| polled := sample_meter; status := Cancelled |}.
Proof.
  cbv zeta.
  destruct stop_leaves_no_supervised_task_running as [Hmeter _].
  destruct (Hmeter (MeterPoller.add_meter sample_meter idle_meter_poller))
    as (_ & Htasks & _ & Hdone & _).
  split; [rewrite Htasks; reflexivity|]. split.
  - intros t. apply (Hdone "meter_001"). reflexivity.
  - vm_compute. reflexivity.
Defined.

(** *** Updating and re-registering a meter *)

Lemma meter_update_spec mid (meter : Meter) (p : MeterPoller.t) h old :
  meter_id meter = mid ->
  MeterPoller.tasks p !! mid = Some h ->
  MeterPoller.event_loop p !! h = Some {| polled := old; status := Running |} ->
  (h < MeterPoller.next_handle p)%nat ->
  let p' := MeterPoller.update_meter mid meter p in
  MeterPoller.meters p' !! mid = Some meter
  /\ MeterPoller.event_loop p' !! h = Some {| polled := old; status := Cancelled |}
  /\ (if enabled meter && MeterPoller.running p
      then MeterPoller.tasks p' !! mid = Some (MeterPoller.next_handle p)
           /\ MeterPoller.event_loop p' !! MeterPoller.next_handle p
              = Some {| polled := meter; status := Running |}
      else MeterPoller.tasks p' !! mid = None)
  /\ (forall other, other <> mid ->
        MeterPoller.tasks p' !! other = MeterPoller.tasks p !! other
        /\ MeterPoller.meters p' !! other = MeterPoller.meters p !! other).
Proof.
  intros Hid Ht Hel Hh p'. subst p'. unfold MeterPoller.update_meter.
  destruct (meter_remove_task mid h p Ht) as (Rt & Re & Rr & Rn & Rm).
  set (p1 := MeterPoller.remove_meter mid p) in *.
  assert (Hold : MeterPoller.event_loop p1 !! h = Some {| polled := old; status := Cancelled |}).
  { rewrite Re, lookup_alter_eq, Hel. reflexivity. }
  destruct (enabled meter && MeterPoller.running p) eqn:E.
  - apply andb_true_iff in E as [He Hr]. rewrite <- Rr in Hr.
    destruct (meter_add_task meter p1 He Hr) as (Am & At & Ae & _ & _).
    rewrite Am, At, Ae, Rn, Hid. rewrite !lookup_insert_eq.
    split; [reflexivity|]. split; [rewrite lookup_insert_ne by lia; exact Hold|].
    split; [split; reflexivity|].
    intros other Hne. rewrite !lookup_insert_ne by congruence. rewrite Rt, Rm.
    split; apply lookup_delete_ne; congruence.
  - rewrite <- Rr in E.
    destruct (meter_add_no_task meter p1 E) as (Am & At & Ae & _ & _).
    rewrite Am, At, Ae, Hid. rewrite lookup_insert_eq.
    split; [reflexivity|]. split; [exact Hold|].
    split; [rewrite Rt; apply lookup_delete_eq|].
    intros other Hne. rewrite lookup_insert_ne by congruence. rewrite Rt, Rm.
    split; apply lookup_delete_ne; congruence.
Qed.

Lemma meter_update_unknown mid (meter : Meter) (p : MeterPoller.t) :
  MeterPoller.meters (MeterPoller.update_meter mid meter p) !! meter_id meter = Some meter
  /\ (enabled meter = true -> MeterPoller.running p = true ->
      exists h,
        MeterPoller.tasks (MeterPoller.update_meter mid meter p) !! meter_id meter = Some h
        /\ MeterPoller.event_loop (MeterPoller.update_meter mid meter p) !! h
           = Some {| polled := meter; status := Running |}).
Proof.
  unfold MeterPoller.update_meter.
  assert (Hr : MeterPoller.running (MeterPoller.remove_meter mid p) = MeterPoller.running p).
  { destruct (MeterPoller.tasks p !! mid) as [h|] eqn:Ht.
    - now destruct (meter_remove_task mid h p Ht) as (_ & _ & Rr & _).
    - now destruct (meter_remove_no_task mid p Ht) as (_ & _ & Rr & _). }
  set (p1 := MeterPoller.remove_meter mid p) in *. split.
  - unfold MeterPoller.add_meter. destruct (enabled meter && MeterPoller.running p1); cbn;
      apply lookup_insert_eq.
  - intros He Hrun. rewrite <- Hr in Hrun.
    destruct (meter_add_task meter p1 He Hrun) as (_ & At & Ae & _ & _).
    exists (MeterPoller.next_handle p1). rewrite At, Ae. split; apply lookup_insert_eq.
Qed.

Lemma meter_registered_twice (meter : Meter) (p : MeterPoller.t) :
  enabled meter = true -> MeterPoller.running p = true ->
  let h := MeterPoller.next_handle p in
  let p3 := MeterPoller.remove_meter (meter_id meter)
              (MeterPoller.add_meter meter (MeterPoller.add_meter meter p)) in
  MeterPoller.meters p3 !! meter_id meter = None
  /\ MeterPoller.tasks p3 !! meter_id meter = None
  /\ MeterPoller.event_loop p3 !! S h = Some {| polled := meter; status := Cancelled |}
  /\ MeterPoller.event_loop p3 !! h = Some {| polled := meter; status := Running |}.
Proof.
  intros He Hr h p3. subst h p3.
  destruct (meter_add_task meter p He Hr) as (Am & At & Ae & Ar & An).
  set (p1 := MeterPoller.add_meter meter p) in *.
  destruct (meter_add_task meter p1 He Ar) as (Bm & Bt & Be & Br & Bn).
  set (p2 := MeterPoller.add_meter meter p1) in *.
  assert (Ht : MeterPoller.tasks p2 !! meter_id meter = Some (S (MeterPoller.next_handle p))).
  { rewrite Bt, An. apply lookup_insert_eq. }
  destruct (meter_remove_task _ _ p2 Ht) as (Rt & Re & _ & _ & Rm).
  rewrite Rt, Re, Rm. split; [apply lookup_delete_eq|]. split; [apply lookup_delete_eq|].
  split.
  - rewrite lookup_alter_eq, Be, An, lookup_insert_eq. reflexivity.
  - rewrite lookup_alter_ne by lia. rewrite Be, An, lookup_insert_ne by lia.
    rewrite Ae. apply lookup_insert_eq.
Qed.

Lemma energy_update_spec mid (meter : Meter) (p : EnergyPoller.t) h old :
  meter_id meter = mid ->
  EnergyPoller.tasks p !! mid = Some h ->
  EnergyPoller.event_loop p !! h = Some {| polled := old; status := Running |} ->
  (h < EnergyPoller.next_handle p)%nat ->
  let p' := EnergyPoller.update_meter mid meter p in
  EnergyPoller.meters p' !! mid = Some meter
  /\ EnergyPoller.event_loop p' !! h = Some {| polled := old; status := Cancelled |}
  /\ (if enabled meter && EnergyPoller.running p
      then EnergyPoller.tasks p' !! mid = Some (EnergyPoller.next_handle p)
           /\ EnergyPoller.event_loop p' !! EnergyPoller.next_handle p
              = Some {| polled := meter; status := Running |}
      else EnergyPoller.tasks p' !! mid = None)
  /\ (forall other, other <> mid ->
        EnergyPoller.tasks p' !! other = EnergyPoller.tasks p !! other
        /\ EnergyPoller.meters p' !! other = EnergyPoller.meters p !! other).
Proof.
  intros Hid Ht Hel Hh p'. subst p'. unfold EnergyPoller.update_meter.
  destruct (energy_remove_task mid h p Ht) as (Rt & Re & Rr & Rn & Rm).
  set (p1 := EnergyPoller.remove_meter mid p) in *.
  assert (Hold : EnergyPoller.event_loop p1 !! h = Some {| polled := old; status := Cancelled |}).
  { rewrite Re, lookup_alter_eq, Hel. reflexivity. }
  destruct (enabled meter && EnergyPoller.running p) eqn:E.
  - apply andb_true_iff in E as [He Hr]. rewrite <- Rr in Hr.
    destruct (energy_add_task meter p1 He Hr) as (Am & At & Ae & _ & _).
    rewrite Am, At, Ae, Rn, Hid. rewrite !lookup_insert_eq.
    split; [reflexivity|]. split; [rewrite lookup_insert_ne by lia; exact Hold|].
    split; [split; reflexivity|].
    intros other Hne. rewrite !lookup_insert_ne by congruence. rewrite Rt, Rm.
    split; apply lookup_delete_ne; congruence.
  - rewrite <- Rr in E.
    destruct (energy_add_no_task meter p1 E) as (Am & At & Ae & _ & _).
    rewrite Am, At, Ae, Hid. rewrite lookup_insert_eq.
    split; [reflexivity|]. split; [exact Hold|].
    split; [rewrite Rt; apply lookup_delete_eq|].
    intros other Hne. rewrite lookup_insert_ne by congruence. rewrite Rt, Rm.
    split; apply lookup_delete_ne; congruence.
Qed.

Lemma energy_update_unknown mid (meter : Meter) (p : EnergyPoller.t) :
  EnergyPoller.meters (EnergyPoller.update_meter mid meter p) !! meter_id meter = Some meter
  /\ (enabled meter = true -> EnergyPoller.running p = true ->
      exists h,
        EnergyPoller.tasks (EnergyPoller.update_meter mid meter p) !! meter_id meter = Some h
        /\ EnergyPoller.event_loop (EnergyPoller.update_meter mid meter p) !! h
           = Some {| polled := meter; status := Running |}).
Proof.
  unfold EnergyPoller.update_meter.
  assert (Hr : EnergyPoller.running (EnergyPoller.remove_meter mid p) = EnergyPoller.running p).
  { destruct (EnergyPoller.tasks p !! mid) as [h|] eqn:Ht.
    - now destruct (energy_remove_task mid h p Ht) as (_ & _ & Rr & _).
    - now destruct (energy_remove_no_task mid p Ht) as (_ & _ & Rr & _). }
  set (p1 := EnergyPoller.remove_meter mid p) in *. split.
  - unfold EnergyPoller.add_meter. destruct (enabled meter && EnergyPoller.running p1); cbn;
      apply lookup_insert_eq.
  - intros He Hrun. rewrite <- Hr in Hrun.
    destruct (energy_add_task meter p1 He Hrun) as (_ & At & Ae & _ & _).
    exists (EnergyPoller.next_handle p1). rewrite At, Ae. split; apply lookup_insert_eq.
Qed.

Lemma energy_registered_twice (meter : Meter) (p : EnergyPoller.t) :
  enabled meter = true -> EnergyPoller.running p = true ->
  let h := EnergyPoller.next_handle p in
  let p3 := EnergyPoller.remove_meter (meter_id meter)
              (EnergyPoller.add_meter meter (EnergyPoller.add_meter meter p)) in
  EnergyPoller.meters p3 !! meter_id meter = None
  /\ EnergyPoller.tasks p3 !! meter_id meter = None
  /\ EnergyPoller.event_loop p3 !! S h = Some {| polled := meter; status := Cancelled |}
  /\ EnergyPoller.event_loop p3 !! h = Some {| polled := meter; status := Running |}.
Proof.
  intros He Hr h p3. subst h p3.
  destruct (energy_add_task meter p He Hr) as (Am & At & Ae & Ar & An).
  set (p1 := EnergyPoller.add_meter meter p) in *.
  destruct (energy_add_task meter p1 He Ar) as (Bm & Bt & Be & Br & Bn).
  set (p2 := EnergyPoller.add_meter meter p1) in *.
  assert (Ht : EnergyPoller.tasks p2 !! meter_id meter = Some (S (EnergyPoller.next_handle p))).
  { rewrite Bt, An. apply lookup_insert_eq. }
  destruct (energy_remove_task _ _ p2 Ht) as (Rt & Re & _ & _ & Rm).
  rewrite Rt, Re, Rm. split; [apply lookup_delete_eq|]. split; [apply lookup_delete_eq|].
  split.
  - rewrite lookup_alter_eq, Be, An, lookup_insert_eq. reflexivity.
  - rewrite lookup_alter_ne by lia. rewrite Be, An, lookup_insert_ne by lia.
    rewrite Ae. apply lookup_insert_eq.
Qed.

(** X21. [update_meter] on a poller that runs a task for the meter cancels
    that task, records the new configuration and, when the new
    configuration is enabled and the poller is running, starts one new
    task for it (none otherwise); other meters keep their entries.  The
    same holds for the energy poller. *)
Theorem update_meter_replaces_the_polling_task :
  (forall mid (meter : Meter) (p : MeterPoller.t) h old,
      meter_id meter = mid ->
      MeterPoller.tasks p !! mid = Some h ->
      MeterPoller.event_loop p !! h = Some {| polled := old; status := Running |} ->
      (h < MeterPoller.next_handle p)%nat ->
      let p' := MeterPoller.update_meter mid meter p in
      MeterPoller.meters p' !! mid = Some meter
      /\ MeterPoller.event_loop p' !! h = Some {| polled := old; status := Cancelled |}
      /\ (if enabled meter && MeterPoller.running p
          then MeterPoller.tasks p' !! mid = Some (MeterPoller.next_handle p)
               /\ MeterPoller.event_loop p' !! MeterPoller.next_handle p
                  = Some {| polled := meter; status := Running |}
          else MeterPoller.tasks p' !! mid = None)
      /\ (forall other, other <> mid ->
            MeterPoller.tasks p' !! other = MeterPoller.tasks p !! other
            /\ MeterPoller.meters p' !! other = MeterPoller.meters p !! other))
  /\ (forall mid (meter : Meter) (p : EnergyPoller.t) h old,
        meter_id meter = mid ->
        EnergyPoller.tasks p !! mid = Some h ->
        EnergyPoller.event_loop p !! h = Some {| polled := old; status := Running |} ->
        (h < EnergyPoller.next_handle p)%nat ->
        let p' := EnergyPoller.update_meter mid meter p in
        EnergyPoller.meters p' !! mid = Some meter
        /\ EnergyPoller.event_loop p' !! h = Some {| polled := old; status := Cancelled |}
        /\ (if enabled meter && EnergyPoller.running p
            then EnergyPoller.tasks p' !! mid = Some (EnergyPoller.next_handle p)
                 /\ EnergyPoller.event_loop p' !! EnergyPoller.next_handle p
                    = Some {| polled := meter; status := Running |}
            else EnergyPoller.tasks p' !! mid = None)
        /\ (forall other, other <> mid ->
              EnergyPoller.tasks p' !! other = EnergyPoller.tasks p !! other
              /\ EnergyPoller.meters p' !! other = EnergyPoller.meters p !! other)).
Proof. split; [exact meter_update_spec|exact energy_update_spec]. Qed.

Lemma update_meter_replaces_the_polling_task_witness :
  let p := MeterPoller.add_meter sample_meter idle_meter_poller in
  let p' := MeterPoller.update_meter "meter_001" renamed_meter p in
  MeterPoller.meters p' !! "meter_001" = Some renamed_meter
  /\ MeterPoller.event_loop p' !! 0%nat
     = Some {| polled := sample_meter; status := Cancelled |}
  /\ MeterPoller.tasks p' !! "meter_001" = None.
Proof.
  cbv zeta.
  destruct update_meter_replaces_the_polling_task as [Hmeter _].
  destruct (Hmeter "meter_001" renamed_meter
              (MeterPoller.add_meter sample_meter idle_meter_poller) 0%nat sample_meter)
    as (Hm & Hold & Hnew & _).
  - reflexivity.
  - reflexivity.
  - reflexivity.
  - vm_compute. lia.
  - cbv zeta in *. split; [exact Hm|]. split; [exact Hold|exact Hnew].
Defined.

(** X22. A meter that registers twice while polling is enabled gets two
    polling tasks, of which the task dict remembers the second only:
    deleting the meter afterwards removes its row and its dict entries and
    cancels the second task, and leaves the first one running, in the
    meter poller and in the energy poller alike. *)
Theorem a_meter_registered_twice_is_still_polled_after_its_deletion :
  forall now now' (meter : Meter) (a : Main.app),
    enabled meter = true ->
    MeterPoller.running (Main.poller a) = true ->
    EnergyPoller.running (Main.energy_poller a) = true ->
    let h := MeterPoller.next_handle (Main.poller a) in
    let k := EnergyPoller.next_handle (Main.energy_poller a) in
    let a' := Main.delete_meter (meter_id meter)
                (Main.register_meter now' meter (Main.register_meter now meter a)) in
    Main.get_meter (meter_id meter) a' = Main.HTTPException 404
    /\ MeterPoller.meters (Main.poller a') !! meter_id meter = None
    /\ MeterPoller.tasks (Main.poller a') !! meter_id meter = None
    /\ MeterPoller.event_loop (Main.poller a') !! S h
       = Some {| polled := meter; status := Cancelled |}
    /\ MeterPoller.event_loop (Main.poller a') !! h
       = Some {| polled := meter; status := Running |}
    /\ EnergyPoller.meters (Main.energy_poller a') !! meter_id meter = None
    /\ EnergyPoller.tasks (Main.energy_poller a') !! meter_id meter = None
    /\ EnergyPoller.event_loop (Main.energy_poller a') !! S k
       = Some {| polled := meter; status := Cancelled |}
    /\ EnergyPoller.event_loop (Main.energy_poller a') !! k
       = Some {| polled := meter; status := Running |}.
Proof.
  intros now now' meter a He Hr Hr' h k a'. subst h k a'.
  unfold Main.delete_meter, Main.register_meter, Main.get_meter.
  cbn [Main.db Main.poller Main.energy_poller].
  destruct (meter_registered_twice meter (Main.poller a) He Hr) as (M1 & M2 & M3 & M4).
  destruct (energy_registered_twice meter (Main.energy_poller a) He Hr')
    as (E1 & E2 & E3 & E4).
  cbv zeta in *. split.
  - unfold Database.get_meter, Database.delete_meter. cbn [Database.meters].
    now rewrite lookup_delete_eq.
  - repeat (split; [assumption|]). assumption.
Qed.

Lemma a_meter_registered_twice_is_still_polled_after_its_deletion_witness :
  let a' := Main.delete_meter "meter_001"
              (Main.register_meter T0 sample_meter
                 (Main.register_meter T0 sample_meter fresh_app)) in
  Main.get_meter "meter_001" a' = Main.HTTPException 404
  /\ MeterPoller.tasks (Main.poller a') !! "meter_001" = None
  /\ MeterPoller.event_loop (Main.poller a') !! 0%nat
     = Some {| polled := sample_meter; status := Running |}.
Proof.
  cbv zeta.
  destruct (a_meter_registered_twice_is_still_polled_after_its_deletion
              T0 T0 sample_meter fresh_app eq_refl eq_refl eq_refl)
    as (H404 & _ & Htask & _ & Hrun & _).
  cbv zeta in *. split; [exact H404|]. split; [exact Htask|exact Hrun].
Defined.

(** X23. A [PUT] for an id the meters table does not hold changes nothing in
    the database, so that the meter is still not found there, while both
    pollers record the meter of the request body and, when it is enabled
    and they are running, start polling it. *)
Theorem updating_an_unknown_meter_polls_it_without_storing_it :
  forall mid (meter : Meter) (a : Main.app),
    Database.get_meter (Main.db a) mid = None ->
    let a' := Main.update_meter mid meter a in
    Main.db a' = Main.db a
    /\ Main.get_meter mid a' = Main.HTTPException 404
    /\ MeterPoller.meters (Main.poller a') !! meter_id meter = Some meter
    /\ EnergyPoller.meters (Main.energy_poller a') !! meter_id meter = Some meter
    /\ (enabled meter = true -> MeterPoller.running (Main.poller a) = true ->
        exists h,
          MeterPoller.tasks (Main.poller a') !! meter_id meter = Some h
          /\ MeterPoller.event_loop (Main.poller a') !! h
             = Some {| polled := meter; status := Running |})
    /\ (enabled meter = true -> EnergyPoller.running (Main.energy_poller a) = true ->
        exists h,
          EnergyPoller.tasks (Main.energy_poller a') !! meter_id meter = Some h
          /\ EnergyPoller.event_loop (Main.energy_poller a') !! h
             = Some {| polled := meter; status := Running |}).
Proof.
  intros mid meter a Hnone a'. subst a'. unfold Main.update_meter, Main.get_meter.
  cbn [Main.db Main.poller Main.energy_poller].
  assert (Hdb : Database.update_meter mid meter (Main.db a) = Main.db a).
  { unfold Database.update_meter. unfold Database.get_meter in Hnone. now rewrite Hnone. }
  rewrite Hdb, Hnone.
  destruct (meter_update_unknown mid meter (Main.poller a)) as [M1 M2].
  destruct (energy_update_unknown mid meter (Main.energy_poller a)) as [E1 E2].
  repeat (split; [reflexivity || assumption|]). assumption.
Qed.

Lemma updating_an_unknown_meter_polls_it_without_storing_it_witness :
  let a' := Main.update_meter "meter_001" sample_meter fresh_app in
  Main.get_meter "meter_001" a' = Main.HTTPException 404
  /\ exists h,
       MeterPoller.tasks (Main.poller a') !! "meter_001" = Some h
       /\ MeterPoller.event_loop (Main.poller a') !! h
          = Some {| polled := sample_meter; status := Running |}.
Proof.
  cbv zeta.
  destruct (updating_an_unknown_meter_polls_it_without_storing_it
              "meter_001" sample_meter fresh_app eq_refl)
    as (_ & H404 & _ & _ & Hpoll & _).
  cbv zeta in *. split; [exact H404|]. apply Hpoll; reflexivity.
Defined.

End Supervisors.

(** ** What a poll makes of a meter's response *)

Section Responses.

Import Models.

(** Register maps that agree on every name but [skip]. *)
Definition agree_but (skip : string) (m m' : gmap string Q) : Prop :=
  forall k, k <> skip -> m !! k = m' !! k.

Lemma collect_values_agree skip : forall (data : list register_item) m m',
  agree_but skip m m' ->
  match MeterPoller.collect_values data m, MeterPoller.collect_values data m' with
  | Some r, Some r' => agree_but skip r r'
  | None, None => True
  | _, _ => False
  end.
Proof.
  induction data as [|item data IH]; intros m m' Hm; cbn [MeterPoller.collect_values].
  - exact Hm.
  - destruct (has_error item); [now apply IH|].
    destruct (item_name item) as [n|]; [|exact I].
    destruct (item_value item) as [v|]; [|exact I].
    apply IH. intros k Hk. destruct (String.eqb_spec n k) as [->|Hne].
    + now rewrite !lookup_insert_eq.
    + rewrite !lookup_insert_ne by exact Hne. now apply Hm.
Qed.

Lemma collect_values_app : forall (data data' : list register_item) m,
  MeterPoller.collect_values (data ++ data') m
  = match MeterPoller.collect_values data m with
    | Some r => MeterPoller.collect_values data' r
    | None => None
    end.
Proof.
  induction data as [|item data IH]; intros data' m; cbn [app MeterPoller.collect_values];
    [reflexivity|].
  destruct (has_error item); [apply IH|].
  destruct (item_name item) as [n|]; [|reflexivity].
  destruct (item_value item) as [v|]; [|reflexivity]. apply IH.
Qed.

(** X24. A reading fetched from a meter carries the poll's timestamp and the
    meter's id.  Its power factor is the [PFA] register when the response
    has a non-zero one; otherwise it is active over apparent power when
    the apparent power is positive, and 0 when it is not, so that nothing
    is ever divided by zero.  The value of a [PFmeanA] register, the name
    the request asks for, has no influence on the reading. *)
Theorem fetched_reading_derives_its_power_factor :
  forall (meter : Meter) timestamp,
    (forall success data reading,
        MeterPoller._fetch_meter_data meter timestamp (ReadBody success data) = Some reading ->
        success = true
        /\ mr_timestamp reading = timestamp
        /\ mr_meter_id reading = meter_id meter
        /\ exists values,
             MeterPoller.collect_values data ∅ = Some values
             /\ mr_active_power reading = default 0%Q (values !! "PmeanA")
             /\ mr_apparent_power reading = default 0%Q (values !! "SmeanA")
             /\ let pfa := default 0%Q (values !! "PFA") in
                (~ (pfa == 0)%Q -> mr_power_factor reading = pfa)
                /\ ((pfa == 0)%Q -> (0 < mr_apparent_power reading)%Q ->
                    (mr_power_factor reading * mr_apparent_power reading
                     == mr_active_power reading)%Q)
                /\ ((pfa == 0)%Q -> (mr_apparent_power reading <= 0)%Q ->
                    mr_power_factor reading = 0%Q))
    /\ (forall before after v v',
          MeterPoller._fetch_meter_data meter timestamp
            (ReadBody true (before ++ {| has_error := false; item_name := Some "PFmeanA";
                                         item_value := Some v |} :: after))
          = MeterPoller._fetch_meter_data meter timestamp
              (ReadBody true (before ++ {| has_error := false; item_name := Some "PFmeanA";
                                           item_value := Some v' |} :: after))).
Proof.
  intros meter timestamp. split.
  - intros success data reading. unfold MeterPoller._fetch_meter_data.
    destruct success; cbn [negb]; [|discriminate].
    destruct (MeterPoller.collect_values data ∅) as [values|]; [|discriminate].
    intros [= <-]. cbn [mr_timestamp mr_meter_id mr_active_power mr_apparent_power
                        mr_power_factor].
    repeat (split; [reflexivity|]). exists values. repeat (split; [reflexivity|]).
    cbv zeta. destruct (Qeq_bool (default 0%Q (values !! "PFA")) 0) eqn:Epf.
    + apply Qeq_bool_iff in Epf.
      destruct (Qle_bool (default 0%Q (values !! "SmeanA")) 0) eqn:Eap; cbn [negb].
      * apply Qle_bool_iff in Eap. split; [intros H; now elim H|].
        split; [|reflexivity]. intros _ Hpos. lra.
      * assert (Hpos : (0 < default 0%Q (values !! "SmeanA"))%Q).
        { destruct (Qlt_le_dec 0 (default 0%Q (values !! "SmeanA"))) as [H|H]; [exact H|].
          apply Qle_bool_iff in H. congruence. }
        split; [intros H; now elim H|]. split.
        -- intros _ _. field. intros Hz. rewrite Hz in Hpos. now apply Qlt_irrefl in Hpos.
        -- intros _ Hle. lra.
    + assert (Hne : ~ (default 0%Q (values !! "PFA") == 0)%Q).
      { intros H. apply Qeq_bool_iff in H. congruence. }
      split; [reflexivity|]. split; intros H; now elim Hne.
  - intros before after v v'. unfold MeterPoller._fetch_meter_data. cbn [negb].
    rewrite !collect_values_app.
    destruct (MeterPoller.collect_values before ∅) as [m|]; [|reflexivity].
    cbn [MeterPoller.collect_values has_error item_name item_value].
    pose proof (collect_values_agree "PFmeanA" after
                  (<["PFmeanA" := v]> m) (<["PFmeanA" := v']> m)) as H.
    destruct (MeterPoller.collect_values after (<["PFmeanA" := v]> m)) as [r|];
      destruct (MeterPoller.collect_values after (<["PFmeanA" := v']> m)) as [r'|];
      try reflexivity.
    + assert (Ha : agree_but "PFmeanA" r r').
      { apply H. intros k Hk. now rewrite !lookup_insert_ne by congruence. }
      rewrite !(Ha "PFA"), !(Ha "SmeanA"), !(Ha "PmeanA"), !(Ha "UrmsA"), !(Ha "IrmsA"),
        !(Ha "QmeanA"), !(Ha "Freq") by discriminate.
      reflexivity.
    + elim H. intros k Hk. now rewrite !lookup_insert_ne by congruence.
    + elim H. intros k Hk. now rewrite !lookup_insert_ne by congruence.
Qed.

Definition register (n : string) (v : Q) : register_item :=
  {| has_error := false; item_name := Some n; item_value := Some v |}.

Lemma fetched_reading_derives_its_power_factor_witness :
  exists reading,
    MeterPoller._fetch_meter_data sample_meter T0
      (ReadBody true [register "UrmsA" 230; register "PmeanA" 90; register "SmeanA" 100;
                      register "PFmeanA" (1 # 2)]) = Some reading
    /\ (mr_power_factor reading * 100 == 90)%Q.
Proof.
  destruct (fetched_reading_derives_its_power_factor sample_meter T0) as [Hpf _].
  eassert (Hr : MeterPoller._fetch_meter_data sample_meter T0
                  (ReadBody true [register "UrmsA" 230; register "PmeanA" 90;
                                  register "SmeanA" 100; register "PFmeanA" (1 # 2)])
                = Some _) by (vm_compute; reflexivity).
  eexists. split; [exact Hr|].
  destruct (Hpf _ _ _ Hr) as (_ & _ & _ & values & Hv & _ & _ & Hcase).
  assert (Hc : MeterPoller.collect_values
                 [register "UrmsA" 230; register "PmeanA" 90; register "SmeanA" 100;
                  register "PFmeanA" (1 # 2)] ∅
               = Some (<["PFmeanA" := 1 # 2]>
                         (<["SmeanA" := 100%Q]>
                            (<["PmeanA" := 90%Q]> (<["UrmsA" := 230%Q]> ∅)))))
    by reflexivity.
  rewrite Hc in Hv. injection Hv as Hv.
  assert (Hpfa : values !! "PFA" = None) by (rewrite <- Hv; vm_compute; reflexivity).
  destruct Hcase as (_ & Hdiv & _). rewrite Hpfa in Hdiv.
  apply Hdiv; reflexivity.
Defined.

Lemma phase_readings_spec (meter : Meter) timestamp : forall entries readings,
  EnergyPoller.phase_readings meter timestamp entries = Some readings ->
  List.map entry_phase entries = List.map (fun r => Some (er_phase r)) readings
  /\ List.map (fun e => default 0%Q (entry_accumulatedKWh e)) entries
     = List.map er_total_kwh readings
  /\ Forall (fun r => er_timestamp r = timestamp /\ er_meter_id r = meter_id meter) readings.
Proof.
  induction entries as [|entry rest IH]; intros readings; cbn [EnergyPoller.phase_readings].
  - intros [= <-]. repeat split. constructor.
  - destruct (entry_phase entry) as [phase|] eqn:Ep; [|discriminate].
    destruct (EnergyPoller.phase_readings meter timestamp rest) as [rs|]; [|discriminate].
    intros [= <-]. destruct (IH rs eq_refl) as (Hp & Hk & Hall).
    cbn [List.map er_phase er_total_kwh]. rewrite Ep, Hp, Hk.
    repeat split. constructor; [now split|exact Hall].
Qed.

Lemma phase_readings_none (meter : Meter) timestamp : forall entries,
  In None (List.map entry_phase entries) ->
  EnergyPoller.phase_readings meter timestamp entries = None.
Proof.
  induction entries as [|entry rest IH]; cbn [List.map In EnergyPoller.phase_readings];
    [tauto|].
  intros [H|H]; [now rewrite H|].
  destruct (entry_phase entry); [|reflexivity]. now rewrite (IH H).
Qed.

Definition energy_row_of (reading : EnergyReading) : Database.energy_row :=
  {| Database.e_timestamp := er_timestamp reading;
     Database.e_meter_id := er_meter_id reading;
     Database.e_phase := er_phase reading;
     Database.total_kwh := er_total_kwh reading |}.

Lemma store_energy_readings_spec : forall readings s,
  let s' := fold_left (fun s reading => Database.store_energy_reading reading s) readings s in
  Database.energy_readings s'
  = (Database.energy_readings s ++ List.map energy_row_of readings)%list
  /\ Database.readings s' = Database.readings s
  /\ Database.meters s' = Database.meters s
  /\ Database.next_reading_id s' = Database.next_reading_id s.
Proof.
  induction readings as [|reading rest IH]; intros s; cbn [fold_left List.map].
  - now rewrite app_nil_r.
  - destruct (IH (Database.store_energy_reading reading s)) as (He & Hr & Hm & Hn).
    cbv zeta in *. rewrite He, Hr, Hm, Hn.
    cbn [Database.store_energy_reading Database.energy_readings Database.readings
         Database.meters Database.next_reading_id].
    now rewrite <- app_assoc.
Qed.

(** X25. One poll of a meter's energy endpoint stores all of the response
    or nothing of it.  When it stores, it appends one row per reported
    phase, in the response's order, each with the poll's timestamp and the
    meter's id and with 0 for a missing counter; a [phase] key at the top
    level wins over [phases].  A [phases] list with one entry that lacks
    its phase, and likewise an empty one, leaves the table as it was. *)
Theorem energy_poll_stores_every_phase_or_nothing :
  forall (meter : Meter) timestamp response db,
    let db' := fst (EnergyPoller.poll_once meter timestamp response db) in
    Database.readings db' = Database.readings db
    /\ Database.meters db' = Database.meters db
    /\ match snd (EnergyPoller.poll_once meter timestamp response db) with
       | Stored =>
           exists rows success phase kwh phases,
             response = EnergyBody success phase kwh phases
             /\ success = true
             /\ rows <> []
             /\ Database.energy_readings db' = (Database.energy_readings db ++ rows)%list
             /\ Forall (fun row => Database.e_timestamp row = timestamp
                                   /\ Database.e_meter_id row = meter_id meter) rows
             /\ match phase with
                | Some p =>
                    List.map (fun row => (Database.e_phase row, Database.total_kwh row)) rows
                    = [(p, default 0%Q kwh)]
                | None =>
                    exists entries,
                      phases = Some entries
                      /\ List.map entry_phase entries
                         = List.map (fun row => Some (Database.e_phase row)) rows
                      /\ List.map (fun e => default 0%Q (entry_accumulatedKWh e)) entries
                         = List.map Database.total_kwh rows
                end
       | NoReading => db' = db
       | Failed => False
       end
    /\ (forall success kwh entries,
          response = EnergyBody success None kwh (Some entries) ->
          entries = [] \/ In None (List.map entry_phase entries) ->
          EnergyPoller.poll_once meter timestamp response db = (db, NoReading)).
Proof.
  intros meter timestamp response db. cbv zeta. unfold EnergyPoller.poll_once.
  assert (Hrows : forall readings : list EnergyReading,
             Forall (fun r => er_timestamp r = timestamp /\ er_meter_id r = meter_id meter)
               readings ->
             Forall (fun row => Database.e_timestamp row = timestamp
                                /\ Database.e_meter_id row = meter_id meter)
               (List.map energy_row_of readings)).
  { intros readings H. induction H as [|r rs Hr _ IH]; cbn [List.map]; constructor;
      [exact Hr|exact IH]. }
  split; [|split; [|split]].
  - destruct (EnergyPoller._fetch_energy_data meter timestamp response) as [readings|];
      cbn [fst]; [|reflexivity].
    now destruct (store_energy_readings_spec readings db) as (_ & H & _).
  - destruct (EnergyPoller._fetch_energy_data meter timestamp response) as [readings|];
      cbn [fst]; [|reflexivity].
    now destruct (store_energy_readings_spec readings db) as (_ & _ & H & _).
  - destruct (EnergyPoller._fetch_energy_data meter timestamp response) as [readings|] eqn:Ef;
      cbn [fst snd]; [|reflexivity].
    destruct (store_energy_readings_spec readings db) as (He & _). cbv zeta in He.
    unfold EnergyPoller._fetch_energy_data in Ef.
    destruct response as [|success phase kwh phases]; [discriminate|].
    destruct success; cbn [negb] in Ef; [|discriminate].
    exists (List.map energy_row_of readings), true, phase, kwh, phases.
    split; [reflexivity|]. split; [reflexivity|].
    destruct phase as [p|].
    + injection Ef as <-. cbn [List.map energy_row_of er_timestamp er_meter_id er_phase
                                 er_total_kwh Database.e_phase Database.total_kwh] in *.
      split; [discriminate|]. split; [exact He|]. split; [|reflexivity].
      constructor; [now split|constructor].
    + destruct phases as [entries|]; [|discriminate].
      destruct (EnergyPoller.phase_readings meter timestamp entries) as [[|r rs]|] eqn:Ep;
        try discriminate.
      injection Ef as <-. destruct (phase_readings_spec _ _ _ _ Ep) as (Hp & Hk & Hall).
      split; [discriminate|]. split; [exact He|]. split; [now apply Hrows|].
      exists entries. split; [reflexivity|].
      rewrite Hp, Hk, !List.map_map. split; reflexivity.
  - intros success kwh entries -> Hbad. unfold EnergyPoller._fetch_energy_data.
    destruct success; cbn [negb]; [|reflexivity].
    destruct Hbad as [->|Hbad]; [reflexivity|].
    now rewrite (phase_readings_none _ _ _ Hbad).
Qed.

Lemma energy_poll_stores_every_phase_or_nothing_witness :
  EnergyPoller.poll_once sample_meter T0
    (EnergyBody true None None
       (Some [ {| entry_phase := Some "A"; entry_accumulatedKWh := Some 1%Q |};
               {| entry_phase := None; entry_accumulatedKWh := Some 2%Q |} ]))
    empty_store
  = (empty_store, NoReading).
Proof.
  destruct (energy_poll_stores_every_phase_or_nothing sample_meter T0
              (EnergyBody true None None
                 (Some [ {| entry_phase := Some "A"; entry_accumulatedKWh := Some 1%Q |};
                         {| entry_phase := None; entry_accumulatedKWh := Some 2%Q |} ]))
              empty_store) as (_ & _ & _ & H).
  apply (H true None _ eq_refl). right. cbn. right. now left.
Defined.

End Responses.

(** ** The registry of live-data sockets *)

Section WebSockets.

Import WebSocketManager.

(** No device is listed with an empty socket list. *)
Definition no_empty_list (m : WebSocketManager.t) : Prop :=
  forall meter_id connections,
    active_connections m !! meter_id = Some connections -> connections <> [].

(** The sockets of a device, [[]] when it has none. *)
Definition sockets_of (meter_id : string) (m : WebSocketManager.t) : list nat :=
  default [] (active_connections m !! meter_id).

(** The sockets of [connections] whose send went through. *)
Fixpoint served (send_ok : nat -> bool) (n : nat) (connections : list nat) : list nat :=
  match connections with
  | [] => []
  | connection :: rest =>
      if send_ok n then connection :: served send_ok (S n) rest
      else served send_ok (S n) rest
  end.

Lemma list_remove_notin : forall x l, ~ In x l -> list_remove x l = l.
Proof.
  induction l as [|h rest IH]; intros Hx; cbn [list_remove]; [reflexivity|].
  destruct (Nat.eqb_spec h x) as [->|_]; [elim Hx; now left|].
  rewrite IH; [reflexivity|]. intros H. apply Hx. now right.
Qed.

Lemma list_remove_last : forall x l, ~ In x l -> list_remove x (l ++ [x]) = l.
Proof.
  induction l as [|h rest IH]; intros Hx; cbn [app list_remove].
  - now rewrite Nat.eqb_refl.
  - destruct (Nat.eqb_spec h x) as [->|_]; [elim Hx; now left|].
    rewrite IH; [reflexivity|]. intros H. apply Hx. now right.
Qed.

Lemma existsb_eqb_in : forall x l, existsb (Nat.eqb x) l = true <-> In x l.
Proof.
  intros x l. rewrite existsb_exists. split.
  - intros (y & Hy & E). apply Nat.eqb_eq in E. now subst.
  - intros H. exists x. split; [exact H|apply Nat.eqb_refl].
Qed.

Lemma existsb_eqb_notin : forall x l, ~ In x l -> existsb (Nat.eqb x) l = false.
Proof.
  intros x l H. destruct (existsb (Nat.eqb x) l) eqn:E; [|reflexivity].
  apply existsb_eqb_in in E. contradiction.
Qed.

(** What [disconnect] leaves of the device's list. *)
Lemma disconnect_sockets : forall websocket meter_id m,
  sockets_of meter_id (disconnect websocket meter_id m)
  = list_remove websocket (sockets_of meter_id m).
Proof.
  intros websocket meter_id m. unfold disconnect, sockets_of.
  destruct (active_connections m !! meter_id) as [connections|] eqn:E.
  - change (default [] (Some connections)) with connections.
    assert (Hl : (if existsb (Nat.eqb websocket) connections
                  then list_remove websocket connections else connections)
                 = list_remove websocket connections).
    { destruct (existsb (Nat.eqb websocket) connections) eqn:Ex; [reflexivity|].
      symmetry. apply list_remove_notin. intros H. apply existsb_eqb_in in H. congruence. }
    rewrite Hl. destruct (list_remove websocket connections) as [|c cs];
      cbn [active_connections].
    + now rewrite lookup_delete_eq.
    + now rewrite lookup_insert_eq.
  - now rewrite E.
Qed.

Lemma disconnect_other : forall websocket meter_id m other,
  other <> meter_id ->
  active_connections (disconnect websocket meter_id m) !! other
  = active_connections m !! other.
Proof.
  intros websocket meter_id m other Hne. unfold disconnect.
  destruct (active_connections m !! meter_id) as [connections|]; [|reflexivity].
  destruct (if existsb (Nat.eqb websocket) connections
            then list_remove websocket connections else connections);
    cbn [active_connections].
  - now rewrite lookup_delete_ne by congruence.
  - now rewrite lookup_insert_ne by congruence.
Qed.

Lemma disconnect_no_empty_list : forall websocket meter_id m,
  no_empty_list m -> no_empty_list (disconnect websocket meter_id m).
Proof.
  intros websocket meter_id m Hm k l. destruct (String.eqb_spec k meter_id) as [->|Hne].
  - unfold disconnect.
    destruct (active_connections m !! meter_id) as [connections|] eqn:E.
    + destruct (if existsb (Nat.eqb websocket) connections
                then list_remove websocket connections else connections);
        cbn [active_connections].
      * now rewrite lookup_delete_eq.
      * rewrite lookup_insert_eq. now intros [= <-].
    + rewrite E. discriminate.
  - rewrite disconnect_other by exact Hne. apply Hm.
Qed.

Lemma disconnect_all_spec : forall meter_id disconnected m,
  let m' := fold_left (fun m connection => disconnect connection meter_id m) disconnected m in
  sockets_of meter_id m'
  = fold_left (fun l connection => list_remove connection l) disconnected
      (sockets_of meter_id m)
  /\ (forall other, other <> meter_id ->
        active_connections m' !! other = active_connections m !! other)
  /\ (no_empty_list m -> no_empty_list m').
Proof.
  intros meter_id disconnected. induction disconnected as [|c rest IH]; intros m;
    cbn [fold_left].
  - repeat split; auto.
  - destruct (IH (disconnect c meter_id m)) as (Hs & Ho & Hn). cbv zeta in *.
    rewrite Hs, disconnect_sockets. split; [reflexivity|]. split.
    + intros other Hne. rewrite Ho by exact Hne. now apply disconnect_other.
    + intros Hm. apply Hn. now apply disconnect_no_empty_list.
Qed.

Lemma failed_sends_in : forall send_ok connections n x,
  In x (failed_sends send_ok n connections) -> In x connections.
Proof.
  induction connections as [|c rest IH]; intros n x; cbn [failed_sends]; [tauto|].
  destruct (send_ok n); cbn [In]; intros H.
  - right. exact (IH _ _ H).
  - destruct H as [H|H]; [now left|right; exact (IH _ _ H)].
Qed.

Lemma served_in : forall send_ok connections n x,
  In x (served send_ok n connections) -> In x connections.
Proof.
  induction connections as [|c rest IH]; intros n x; cbn [served]; [tauto|].
  destruct (send_ok n); cbn [In]; intros H.
  - destruct H as [H|H]; [now left|right; exact (IH _ _ H)].
  - right. exact (IH _ _ H).
Qed.

Lemma remove_all_notin : forall (removed l : list nat),
  (forall x, In x removed -> ~ In x l) ->
  fold_left (fun l connection => list_remove connection l) removed l = l.
Proof.
  induction removed as [|c rest IH]; intros l H; cbn [fold_left]; [reflexivity|].
  rewrite list_remove_notin by (apply H; now left).
  apply IH. intros x Hx. apply H. now right.
Qed.

Lemma remove_all_cons : forall (removed : list nat) h l,
  ~ In h removed ->
  fold_left (fun l connection => list_remove connection l) removed (h :: l)
  = h :: fold_left (fun l connection => list_remove connection l) removed l.
Proof.
  induction removed as [|c rest IH]; intros h l Hh; cbn [fold_left list_remove];
    [reflexivity|].
  destruct (Nat.eqb_spec h c) as [->|_]; [elim Hh; now left|].
  apply IH. intros H. apply Hh. now right.
Qed.

(** Removing the sockets that failed, one by one, leaves those served. *)
Lemma remove_failed_sends : forall send_ok connections n,
  List.NoDup connections ->
  fold_left (fun l connection => list_remove connection l)
    (failed_sends send_ok n connections) connections
  = served send_ok n connections.
Proof.
  induction connections as [|c rest IH]; intros n Hnd; cbn [failed_sends served];
    [reflexivity|].
  inversion Hnd as [|? ? Hc Hrest]; subst.
  destruct (send_ok n).
  - rewrite remove_all_cons.
    + now rewrite IH.
    + intros H. apply Hc. exact (failed_sends_in _ _ _ _ H).
  - cbn [fold_left list_remove]. rewrite Nat.eqb_refl. now apply IH.
Qed.

Lemma connect_no_empty_list : forall websocket meter_id m,
  no_empty_list m -> no_empty_list (connect websocket meter_id m).
Proof.
  intros websocket meter_id m Hm k l. unfold connect. cbn [active_connections].
  destruct (String.eqb_spec k meter_id) as [->|Hne].
  - rewrite lookup_insert_eq. intros [= <-]. intros H. now apply app_eq_nil in H as [_ H].
  - rewrite lookup_insert_ne by congruence. apply Hm.
Qed.

Lemma broadcast_no_empty_list : forall send_ok meter_id m,
  no_empty_list m -> no_empty_list (broadcast_to_meter send_ok meter_id m).
Proof.
  intros send_ok meter_id m Hm. unfold broadcast_to_meter.
  destruct (active_connections m !! meter_id) as [connections|]; [|exact Hm].
  destruct (disconnect_all_spec meter_id (failed_sends send_ok 0 connections) m)
    as (_ & _ & Hn).
  now apply Hn.
Qed.

(** X26. In a registry without empty lists, when a device's sockets are
    pairwise distinct, a broadcast leaves exactly the sockets whose send
    went through, in their order, and the device disappears from the
    registry when none did.  The sockets of the other devices are not
    touched. *)
Theorem broadcast_keeps_the_sockets_it_reached :
  forall send_ok meter_id m,
    no_empty_list m ->
    List.NoDup (sockets_of meter_id m) ->
    let m' := broadcast_to_meter send_ok meter_id m in
    sockets_of meter_id m' = served send_ok 0 (sockets_of meter_id m)
    /\ (served send_ok 0 (sockets_of meter_id m) = [] ->
        active_connections m' !! meter_id = None)
    /\ (forall other, other <> meter_id ->
          active_connections m' !! other = active_connections m !! other).
Proof.
  intros send_ok meter_id m Hm Hnd. cbv zeta.
  pose proof (broadcast_no_empty_list send_ok meter_id m Hm) as Hm'.
  assert (Hs : sockets_of meter_id (broadcast_to_meter send_ok meter_id m)
               = served send_ok 0 (sockets_of meter_id m)
               /\ (forall other, other <> meter_id ->
                     active_connections (broadcast_to_meter send_ok meter_id m) !! other
                     = active_connections m !! other)).
  { unfold broadcast_to_meter in *.
    destruct (active_connections m !! meter_id) as [connections|] eqn:E.
    - destruct (disconnect_all_spec meter_id (failed_sends send_ok 0 connections) m)
        as (Hs & Ho & _). cbv zeta in *.
      assert (Hc : sockets_of meter_id m = connections)
        by (unfold sockets_of; now rewrite E).
      rewrite Hc in *. rewrite remove_failed_sends in Hs by exact Hnd.
      split; [exact Hs|exact Ho].
    - unfold sockets_of. rewrite E. split; reflexivity. }
  destruct Hs as (Hs & Ho). split; [exact Hs|]. split; [|exact Ho].
  intros Hnone. rewrite Hnone in Hs. unfold sockets_of in Hs.
  destruct (active_connections (broadcast_to_meter send_ok meter_id m) !! meter_id)
    as [l|] eqn:El; [|reflexivity].
  change (default [] (Some l)) with l in Hs. subst l. now elim (Hm' _ _ El).
Qed.

Definition two_sockets : WebSocketManager.t :=
  connect 2 "meter_001" (connect 1 "meter_001" {| active_connections := ∅ |}).

Lemma broadcast_keeps_the_sockets_it_reached_witness :
  sockets_of "meter_001" (broadcast_to_meter (Nat.eqb 1) "meter_001" two_sockets) = [2%nat].
Proof.
  assert (Hm : no_empty_list two_sockets).
  { apply connect_no_empty_list, connect_no_empty_list. intros k l. cbn.
    rewrite lookup_empty. discriminate. }
  assert (Hl : sockets_of "meter_001" two_sockets = [1%nat; 2%nat])
    by (vm_compute; reflexivity).
  assert (Hnd : List.NoDup (sockets_of "meter_001" two_sockets)).
  { rewrite Hl. repeat constructor; cbn; intuition discriminate. }
  destruct (broadcast_keeps_the_sockets_it_reached (Nat.eqb 1) "meter_001" two_sockets Hm Hnd)
    as (H & _).
  rewrite H, Hl. reflexivity.
Defined.

(** What the registry goes through: sockets arrive, leave, and messages
    are broadcast. *)
Inductive event : Type :=
| Connect (websocket : nat) (meter_id : string)
| Disconnect (websocket : nat) (meter_id : string)
| Broadcast (send_ok : nat -> bool) (meter_id : string).

Definition handle (m : WebSocketManager.t) (e : event) : WebSocketManager.t :=
  match e with
  | Connect websocket meter_id => connect websocket meter_id m
  | Disconnect websocket meter_id => disconnect websocket meter_id m
  | Broadcast send_ok meter_id => broadcast_to_meter send_ok meter_id m
  end.

(** X27. Whatever sockets connect and disconnect and whichever sends
    fail, the registry that [__init__] left empty never lists a device
    with an empty socket list: a device is a key exactly while it has a
    socket. *)
Theorem registry_never_keeps_an_empty_list :
  forall events meter_id,
    active_connections (fold_left handle events {| active_connections := ∅ |}) !! meter_id
    <> Some [].
Proof.
  intros events meter_id.
  assert (H : forall events m, no_empty_list m -> no_empty_list (fold_left handle events m)).
  { clear. induction events as [|e rest IH]; intros m Hm; cbn [fold_left]; [exact Hm|].
    apply IH. destruct e as [w k|w k|f k]; cbn [handle].
    - now apply connect_no_empty_list.
    - now apply disconnect_no_empty_list.
    - now apply broadcast_no_empty_list. }
  intros Hbad. refine (H events {| active_connections := ∅ |} _ _ _ Hbad eq_refl).
  intros k l. cbn [active_connections]. rewrite lookup_empty. discriminate.
Qed.

(** X28. Connecting a socket that the device does not have yet and
    disconnecting it again gives the registry back as it was; the other
    sockets of the device keep their order. *)
Theorem connect_then_disconnect_restores_the_registry :
  forall websocket meter_id m,
    no_empty_list m ->
    ~ In websocket (sockets_of meter_id m) ->
    sockets_of meter_id (connect websocket meter_id m)
    = (sockets_of meter_id m ++ [websocket])%list
    /\ disconnect websocket meter_id (connect websocket meter_id m) = m.
Proof.
  intros websocket meter_id [conns] Hm Hnew. unfold sockets_of in *.
  cbn [active_connections] in *. split.
  - unfold connect. cbn [active_connections]. now rewrite lookup_insert_eq.
  - unfold disconnect, connect. cbn [active_connections]. rewrite lookup_insert_eq.
    assert (Hin : existsb (Nat.eqb websocket) (default [] (conns !! meter_id) ++ [websocket])
                  = true).
    { apply existsb_eqb_in, in_or_app. right. now left. }
    rewrite Hin, list_remove_last by exact Hnew.
    destruct (conns !! meter_id) as [l|] eqn:E.
    + change (default [] (Some l)) with l. destruct l as [|c cs].
      * now elim (Hm meter_id [] E).
      * f_equal. rewrite insert_insert_eq. now apply insert_id.
    + change (default [] None) with (@nil nat). f_equal.
      rewrite delete_insert_eq. now apply delete_id.
Qed.

Lemma connect_then_disconnect_restores_the_registry_witness :
  disconnect 3 "meter_001" (connect 3 "meter_001" two_sockets) = two_sockets.
Proof.
  assert (Hm : no_empty_list two_sockets).
  { apply connect_no_empty_list, connect_no_empty_list. intros k l. cbn.
    rewrite lookup_empty. discriminate. }
  assert (Hl : sockets_of "meter_001" two_sockets = [1%nat; 2%nat])
    by (vm_compute; reflexivity).
  assert (Hnew : ~ In 3%nat (sockets_of "meter_001" two_sockets)).
  { rewrite Hl. cbn. intuition discriminate. }
  exact (proj2 (connect_then_disconnect_restores_the_registry 3 "meter_001" two_sockets
                  Hm Hnew)).
Defined.

Lemma websocket_clients_insert : forall meter_id connections conns,
  conns !! meter_id = None ->
  websocket_clients {| active_connections := <[meter_id := connections]> conns |}
  = (length connections + websocket_clients {| active_connections := conns |})%nat.
Proof.
  intros meter_id connections conns Hnone. unfold websocket_clients.
  cbn [active_connections].
  rewrite (map_fold_insert_L (fun (_ : string) (clients : list nat) (total : nat) =>
                                (length clients + total)%nat));
    [reflexivity| |exact Hnone].
  intros. lia.
Qed.

Lemma websocket_clients_lookup : forall meter_id connections conns,
  conns !! meter_id = Some connections ->
  websocket_clients {| active_connections := conns |}
  = (length connections
     + websocket_clients {| active_connections := delete meter_id conns |})%nat.
Proof.
  intros meter_id connections conns Hsome.
  rewrite <- (websocket_clients_insert meter_id connections (delete meter_id conns))
    by apply lookup_delete_eq.
  now rewrite insert_delete_eq, insert_id.
Qed.

Lemma list_remove_length : forall x l,
  In x l -> S (length (list_remove x l)) = length l.
Proof.
  induction l as [|h rest IH]; cbn [In list_remove length]; [tauto|].
  intros H. destruct (Nat.eqb_spec h x) as [->|Hne]; [reflexivity|].
  destruct H as [H|H]; [contradiction|]. cbn [length]. now rewrite IH.
Qed.

(** X29. The client count of the resource report follows the sockets: a
    connect raises it by one, the disconnect of a listed socket lowers it
    by one, and the disconnect of a socket that is not listed for the
    device, as when the same socket is disconnected a second time, leaves
    it alone. *)
Theorem client_count_follows_the_sockets :
  forall websocket meter_id m,
    websocket_clients (connect websocket meter_id m) = S (websocket_clients m)
    /\ (In websocket (sockets_of meter_id m) ->
        S (websocket_clients (disconnect websocket meter_id m)) = websocket_clients m)
    /\ (~ In websocket (sockets_of meter_id m) ->
        websocket_clients (disconnect websocket meter_id m) = websocket_clients m).
Proof.
  intros websocket meter_id [conns]. unfold sockets_of, connect, disconnect.
  cbn [active_connections].
  destruct (conns !! meter_id) as [l|] eqn:E.
  - change (default [] (Some l)) with l.
    pose proof (websocket_clients_lookup meter_id l conns E) as Hm.
    split; [|split].
    + rewrite <- (insert_delete_eq conns), websocket_clients_insert by apply lookup_delete_eq.
      rewrite Hm, length_app. cbn [length]. lia.
    + intros Hin. pose proof (proj2 (existsb_eqb_in websocket l) Hin) as Hex.
      rewrite Hex. pose proof (list_remove_length websocket l Hin) as Hlen.
      destruct (list_remove websocket l) as [|c cs] eqn:Er.
      * rewrite Hm. cbn [length] in Hlen. lia.
      * rewrite <- (insert_delete_eq conns), websocket_clients_insert
          by apply lookup_delete_eq.
        rewrite Hm. lia.
    + intros Hout. rewrite (existsb_eqb_notin websocket l Hout).
      destruct l as [|c cs].
      * rewrite Hm. reflexivity.
      * now rewrite insert_id.
  - change (default [] None) with (@nil nat). split; [|split].
    + rewrite websocket_clients_insert by exact E. reflexivity.
    + intros [].
    + reflexivity.
Qed.

End WebSockets.

(** ** From a poll to the latest-value endpoints *)

Section LatestEndpoints.

Import Models.

Lemma get_latest_reading_none s mid :
  Database.get_latest_reading s mid = None
  <-> forall r, r ∈ Database.readings s -> Database.r_meter_id r <> mid.
Proof.
  unfold Database.get_latest_reading.
  pose proof (newest_first
                (List.filter (fun r => String.eqb (Database.r_meter_id r) mid)
                   (Database.readings s))) as H.
  destruct (Database.order_rows_desc _) as [|r rest]; cbn [head List.map] in *.
  - split; [|reflexivity]. intros _ r Hr Hm. apply list_elem_of_In in Hr.
    assert (Hin : In r (List.filter (fun r => String.eqb (Database.r_meter_id r) mid)
                          (Database.readings s))).
    { apply filter_In. split; [exact Hr|]. now apply String.eqb_eq. }
    rewrite H in Hin. destruct Hin.
  - split; [discriminate|]. intros Hnone. destruct H as [Hin _].
    apply filter_In in Hin as [Hin Hm]. apply String.eqb_eq in Hm.
    apply list_elem_of_In in Hin. now elim (Hnone r Hin).
Qed.

Lemma get_latest_energy_reading_none s mid phase :
  Database.phase_filtered phase = None ->
  Database.get_latest_energy_reading s mid phase = None
  <-> forall r, r ∈ Database.energy_readings s -> Database.e_meter_id r <> mid.
Proof.
  intros Hall. unfold Database.get_latest_energy_reading. rewrite Hall.
  pose proof (newest_energy_first
                (List.filter (fun r => String.eqb (Database.e_meter_id r) mid && true)
                   (Database.energy_readings s))) as H.
  destruct (fold_right Database.insert_energy_desc [] _) as [|r rest]; cbn [head] in *.
  - split; [|reflexivity]. intros _ r Hr Hm. apply list_elem_of_In in Hr.
    assert (Hin : In r (List.filter
                          (fun r => String.eqb (Database.e_meter_id r) mid && true)
                          (Database.energy_readings s))).
    { apply filter_In. split; [exact Hr|]. rewrite andb_true_r. now apply String.eqb_eq. }
    rewrite H in Hin. destruct Hin.
  - split; [discriminate|]. intros Hnone. destruct H as [Hin _].
    apply filter_In in Hin as [Hin Hm]. rewrite andb_true_r in Hm.
    apply String.eqb_eq in Hm. apply list_elem_of_In in Hin. now elim (Hnone r Hin).
Qed.

(** The application after a poll has written to its database. *)
Definition with_db (db : Database.store) (a : Main.app) : Main.app :=
  {| Main.db := db; Main.poller := Main.poller a; Main.energy_poller := Main.energy_poller a |}.

(** X30. The endpoints of the latest reading and of the latest energy
    reading, the latter asked for all phases as by default, answer 404
    exactly when no stored row carries the meter's id; whether the meter
    is registered plays no part.  Once a poll of the meter has stored its
    sample, the matching endpoint no longer answers 404. *)
Theorem latest_endpoints_answer_404_only_without_rows :
  forall mid (a : Main.app),
    (Main.get_latest_reading mid a = Main.HTTPException 404
     <-> forall r, r ∈ Database.readings (Main.db a) -> Database.r_meter_id r <> mid)
    /\ (forall phase,
          Database.phase_filtered phase = None ->
          Main.get_latest_energy_reading mid phase a = Main.HTTPException 404
          <-> forall r, r ∈ Database.energy_readings (Main.db a) ->
                        Database.e_meter_id r <> mid)
    /\ (forall (meter : Meter) timestamp response,
          meter_id meter = mid ->
          snd (MeterPoller.poll_once meter timestamp response (Main.db a)) = Stored ->
          Main.get_latest_reading mid
            (with_db (fst (MeterPoller.poll_once meter timestamp response (Main.db a))) a)
          <> Main.HTTPException 404)
    /\ (forall (meter : Meter) timestamp response,
          meter_id meter = mid ->
          snd (EnergyPoller.poll_once meter timestamp response (Main.db a)) = Stored ->
          Main.get_latest_energy_reading mid (Some "ALL")
            (with_db (fst (EnergyPoller.poll_once meter timestamp response (Main.db a))) a)
          <> Main.HTTPException 404).
Proof.
  intros mid a.
  assert (H1 : forall a', Main.get_latest_reading mid a' = Main.HTTPException 404
                          <-> Database.get_latest_reading (Main.db a') mid = None).
  { intros a'. unfold Main.get_latest_reading.
    destruct (Database.get_latest_reading (Main.db a') mid); split; congruence. }
  assert (H2 : forall phase a',
             Main.get_latest_energy_reading mid phase a' = Main.HTTPException 404
             <-> Database.get_latest_energy_reading (Main.db a') mid phase = None).
  { intros phase a'. unfold Main.get_latest_energy_reading.
    destruct (Database.get_latest_energy_reading (Main.db a') mid phase); split; congruence. }
  split; [|split; [|split]].
  - rewrite H1. apply get_latest_reading_none.
  - intros phase Hall. rewrite H2. now apply get_latest_energy_reading_none.
  - intros meter timestamp response Hid. unfold MeterPoller.poll_once.
    destruct (MeterPoller._fetch_meter_data meter timestamp response) as [reading|] eqn:Ef;
      cbn [fst snd]; [intros _|discriminate].
    rewrite H1, get_latest_reading_none. cbn [with_db Main.db]. intros Hnone.
    assert (Hm : mr_meter_id reading = mid).
    { unfold MeterPoller._fetch_meter_data in Ef. destruct response as [|success data];
        [discriminate|].
      destruct (negb success); [discriminate|].
      destruct (MeterPoller.collect_values data ∅); [|discriminate].
      injection Ef as <-. exact Hid. }
    unfold Database.store_reading in Hnone. cbn [Database.readings] in Hnone.
    eapply Hnone; [apply list_elem_of_In, in_or_app; right; now left|].
    exact Hm.
  - intros meter timestamp response Hid Hst.
    rewrite H2, get_latest_energy_reading_none by reflexivity.
    cbn [with_db Main.db]. intros Hnone.
    unfold EnergyPoller.poll_once in *.
    destruct (EnergyPoller._fetch_energy_data meter timestamp response) as [readings|] eqn:Ef;
      cbn [fst snd] in *; [|discriminate].
    destruct (store_energy_readings_spec readings (Main.db a)) as (He & _). cbv zeta in He.
    unfold EnergyPoller._fetch_energy_data in Ef.
    destruct response as [|success phase kwh phases]; [discriminate|].
    destruct (negb success); [discriminate|].
    assert (Hfirst : exists r rs, readings = r :: rs /\ er_meter_id r = mid).
    { destruct phase as [p|].
      - injection Ef as <-. eexists _, _. split; [reflexivity|exact Hid].
      - destruct phases as [entries|]; [|discriminate].
        destruct (EnergyPoller.phase_readings meter timestamp entries) as [[|r rs]|] eqn:Ep;
          try discriminate.
        injection Ef as <-. destruct (phase_readings_spec _ _ _ _ Ep) as (_ & _ & Hall).
        inversion Hall as [|? ? [_ Hr] _]; subst. eexists _, _. split; [reflexivity|].
        now rewrite Hr. }
    destruct Hfirst as (r & rs & -> & Hr).
    refine (Hnone (energy_row_of r) _ _); [|exact Hr].
    rewrite He. apply list_elem_of_In, in_or_app. right. now left.
Qed.

End LatestEndpoints.
